(** * Paw-recognition frontend: prediction client, relay routes and camera page

    A shallow embedding of the TypeScript sources

      - [lib/api.ts]                 (the prediction client),
      - [app/api/predict/route.ts]   (the predict relay, [POST]),
      - [app/api/random-dog/route.ts] (the random-image relay, [GET]),
      - [app/page.tsx]               (the page handlers around camera and predict),

    followed by the properties the specification states about them.

    Asynchronous functions are written in a small monad that threads a log of
    the observable I/O events and either returns a value or throws a JavaScript
    value.  What the platform answers (the network, the file reader, the camera,
    engine-defined conversions) is read from a record of oracles, [Platform]. *)

From Stdlib Require Import ZArith List String Ascii Bool Lia PrimFloat DecimalString.
From Stdlib Require DecimalZ DecimalPos.
Import ListNotations.
Local Open Scope string_scope.
Local Open Scope Z_scope.
Set Warnings "-register-all".

(** ** JavaScript values that cross the wire *)

(** The result of [JSON.parse]: objects are association lists of their own
    properties, the first binding of a key is the one a property read sees;
    numbers are IEEE-754 doubles as in the engine. *)
Inductive json : Type :=
| JNull
| JBool (b : bool)
| JNum (f : float)
| JStr (s : string)
| JArr (items : list json)
| JObj (props : list (string * json)).

(** A JavaScript value as a handler sees it: [None] is [undefined]. *)
Definition jsval : Type := option json.

Definition str_truthy (s : string) : bool :=
  match s with
  | EmptyString => false
  | String _ _ => true
  end.

(** ECMAScript [ToBoolean] on parsed JSON. *)
Definition truthy (v : json) : bool :=
  match v with
  | JNull => false
  | JBool b => b
  | JNum f => negb (PrimFloat.is_zero f || PrimFloat.is_nan f)
  | JStr s => str_truthy s
  | JArr _ => true
  | JObj _ => true
  end.

Definition truthy_val (v : jsval) : bool :=
  match v with
  | None => false
  | Some j => truthy j
  end.

(** ** Outcomes, the event log and the monad of asynchronous code *)

(** What a [throw] (or a rejected promise) carries.  The [catch] blocks of the
    program only ask whether it is an instance of [Error] and, if so, read its
    [message]. *)
Inductive thrown : Type :=
| ErrorObj (message : string)
| NonError (what : string).

Inductive outcome (A : Type) : Type :=
| Returned (a : A)
| Threw (t : thrown).
Arguments Returned {A} a.
Arguments Threw {A} t.

Record Blob : Type := mkBlob {
  blob_type : string;
  blob_size : Z;
  blob_bytes : list Byte.byte
}.

(** A [File] is a [Blob]; the client reads its [type] and [size]. *)
Definition File : Type := Blob.

Record Request : Type := mkRequest {
  req_url : string;
  req_method : string;
  req_headers : list (string * string);
  req_body : option json
}.

(** How a body read ends: the promise rejects with an [Error] carrying an
    engine-defined message, or delivers the value. *)
Inductive delivered (A : Type) : Type :=
| Rejected (message : string)
| Delivered (a : A).
Arguments Rejected {A} message.
Arguments Delivered {A} a.

(** A [Response] as the program can observe it: the status line, the
    content-type header and what each body reader would deliver. *)
Record Response : Type := mkResponse {
  status : Z;
  statusText : string;
  content_type : option string;
  body_json : delivered json;
  body_arrayBuffer : delivered (list Byte.byte);
  body_blob : delivered Blob
}.

(** [response.ok] *)
Definition ok (r : Response) : bool := (200 <=? status r) && (status r <=? 299).

Inductive event : Type :=
| EvFetch (req : Request)
| EvReadAsDataURL (b : Blob)
| EvRequestJson
| EvGetUserMedia
| EvConsoleError (label : string)
| EvConsoleLog (label : string).

Definition log : Type := list event.

(** The platform: every answer the program gets from outside.  The network
    and the file reader may answer differently as the run goes on, so they
    see the log so far. *)
Record Platform : Type := mkPlatform {
  (** [fetch]: a rejection (a [TypeError], with its message) or a response *)
  net : log -> Request -> delivered Response;
  (** [FileReader.readAsDataURL]: [None] when the reader fires [error] *)
  file_reader : log -> Blob -> option string;
  (** ECMAScript [ToString] on a value that is not a string *)
  to_string_other : json -> delivered string;
  (** message of the [TypeError] raised by reading a property of [null] *)
  null_read_message : string -> string;
  (** [navigator.mediaDevices.getUserMedia]: a rejection, or the tracks of
      the stream it opens *)
  getUserMedia : log -> delivered (list nat)
}.

(** Code that runs over a state [S] and returns or throws.  The client and
    the relays run over the event log alone; the page adds its own state. *)
Definition St (S A : Type) : Type := S -> outcome A * S.

Definition M (A : Type) : Type := St log A.

Definition ret {S A} (a : A) : St S A := fun s => (Returned a, s).

Definition throw {S A} (t : thrown) : St S A := fun s => (Threw t, s).

Definition bind {S A B} (c : St S A) (k : A -> St S B) : St S B :=
  fun s =>
    match c s with
    | (Returned a, s') => k a s'
    | (Threw t, s') => (Threw t, s')
    end.

(** [try { body } catch (e) { handler e }] *)
Definition try_catch {S A} (body : St S A) (handler : thrown -> St S A) : St S A :=
  fun s =>
    match body s with
    | (Returned a, s') => (Returned a, s')
    | (Threw t, s') => handler t s'
    end.

(** [try { body } finally { fin }]: [fin] runs on both exits; if it throws,
    its exception replaces the outcome of [body]. *)
Definition try_finally {S A} (body : St S A) (fin : St S unit) : St S A :=
  fun s =>
    match body s with
    | (o, s') =>
        match fin s' with
        | (Returned _, s'') => (o, s'')
        | (Threw t, s'') => (Threw t, s'')
        end
    end.

Definition emit (e : event) : M unit := fun l => (Returned tt, (l ++ [e])%list).

Declare Scope js_scope.
Delimit Scope js_scope with js.
Notation "x <- c ;; k" := (bind c (fun x => k))
  (at level 61, c at next level, right associativity) : js_scope.
Notation "c ;; k" := (bind c (fun _ => k))
  (at level 61, right associativity) : js_scope.
Notation "'when' b 'then' c" := (if b then c else ret tt)
  (at level 60, b at level 9, c at level 60) : js_scope.
Local Open Scope js_scope.

Definition of_delivered {A} (d : delivered A) : M A :=
  match d with
  | Rejected m => throw (ErrorObj m)
  | Delivered a => ret a
  end.

Definition console_error (label : string) : M unit := emit (EvConsoleError label).
Definition console_log (label : string) : M unit := emit (EvConsoleLog label).

(** ** Small pieces of the language *)

(** [s.startsWith(p)] *)
Definition startsWith (s p : string) : bool := String.prefix p s.

(** A number in a template literal; the program only prints HTTP statuses. *)
Definition string_of_Z (z : Z) : string := NilZero.string_of_int (Z.to_int z).

(** An environment variable in a template literal or a header value:
    [undefined] prints as the word. *)
Definition template (v : option string) : string :=
  match v with
  | Some s => s
  | None => "undefined"
  end.

(** [!v] is false for an environment variable that is set and not empty. *)
Definition env_truthy (v : option string) : bool :=
  match v with
  | Some s => str_truthy s
  | None => false
  end.

Definition lookup (k : string) (props : list (string * json)) : jsval :=
  match find (fun kv => String.eqb (fst kv) k) props with
  | Some kv => Some (snd kv)
  | None => None
  end.

(** An object literal whose properties may be [undefined]; serialising it
    (as [NextResponse.json] does) leaves those out. *)
Definition obj_of_fields (fields : list (string * jsval)) : json :=
  JObj (flat_map (fun kv => match snd kv with
                            | Some v => [(fst kv, v)]
                            | None => []
                            end) fields).

(** The result every failure is turned into: [{ error: message }]. *)
Definition error_result (message : string) : json := JObj [("error", JStr message)].

(** ** Configuration read from the environment *)

Record Config : Type := mkConfig {
  API_URL : option string;
  API_KEY : option string;
  UNSPLASH_ACCESS_KEY : option string
}.

Section Program.

Variable P : Platform.
Variable cfg : Config.

(** [await fetch(url, init)] *)
Definition fetch (req : Request) : M Response :=
  fun l =>
    match net P l req with
    | Rejected m => (Threw (ErrorObj m), (l ++ [EvFetch req])%list)
    | Delivered r => (Returned r, (l ++ [EvFetch req])%list)
    end.

(** [await response.json()] *)
Definition response_json (r : Response) : M json := of_delivered (body_json r).

(** ECMAScript [ToString], as [new Error(v)] and [fetch(v)] apply it. *)
Definition ToString (v : json) : M string :=
  match v with
  | JStr s => ret s
  | _ => of_delivered (to_string_other P v)
  end.

(** [v.k] for the property names this program reads ([error], [image],
    [urls], [regular], [full], [user], [name], [links], [html]): none of them
    is defined on a prototype, so only an object's own property answers;
    reading from [null] raises a [TypeError]. *)
Definition get_prop (v : json) (k : string) : M jsval :=
  match v with
  | JNull => throw (ErrorObj (null_read_message P k))
  | JObj props => ret (lookup k props)
  | _ => ret None
  end.

(** [v?.k] *)
Definition opt_prop (v : jsval) (k : string) : M jsval :=
  match v with
  | None => ret None
  | Some JNull => ret None
  | Some j => get_prop j k
  end.

(** *** lib/api.ts *)

(** The promise around a [FileReader]: [onerror = reject] hands the progress
    event (not an [Error]) to the rejection; [error] fires before [loadend]. *)
Definition readAsDataURL (b : Blob) : M string :=
  fun l =>
    match file_reader P l b with
    | Some dataUrl => (Returned dataUrl, (l ++ [EvReadAsDataURL b])%list)
    | None => (Threw (NonError "ProgressEvent"), (l ++ [EvReadAsDataURL b])%list)
    end.

Definition fileToBase64 (file : File) : M string := readAsDataURL file.

Definition urlToBase64 (url : string) : M string :=
  response <- fetch (mkRequest url "GET" [] None) ;;
  blob <- of_delivered (body_blob response) ;;
  readAsDataURL blob.

Definition maxSize : Z := 5 * 1024 * 1024.

Definition predict_request (url : string) (headers : list (string * string))
    (imageBase64 : string) : Request :=
  mkRequest url "POST" headers (Some (JObj [("image", JStr imageBase64)])).

Definition predictPaw (imageFile : File) : M json :=
  try_catch
    ((when (negb (startsWith (blob_type imageFile) "image/")) then
        throw (ErrorObj "Please upload a valid image file")) ;;
     (when (blob_size imageFile >? maxSize) then
        throw (ErrorObj "Image size should be less than 5MB")) ;;
     imageBase64 <- fileToBase64 imageFile ;;
     response <- fetch (predict_request (template (API_URL cfg) ++ "/predict")
                          [("Content-Type", "application/json");
                           ("X-API-Key", template (API_KEY cfg))]
                          imageBase64) ;;
     (when (status response =? 429) then
        throw (ErrorObj "Too many requests. Please try again later.")) ;;
     (when ((status response =? 401) || (status response =? 403)) then
        throw (ErrorObj "Authentication failed. Please check your API key.")) ;;
     (when (negb (ok response)) then
        (errorData <- try_catch (response_json response)
                        (fun _ => ret (error_result "Unknown error")) ;;
         e <- get_prop errorData "error" ;;
         message <- match e with
                    | Some v => if truthy v then ToString v
                                else ret ("HTTP error! status: " ++ string_of_Z (status response))
                    | None => ret ("HTTP error! status: " ++ string_of_Z (status response))
                    end ;;
         throw (ErrorObj message))) ;;
     response_json response)
    (fun error =>
       console_error "Prediction error:" ;;
       match error with
       | ErrorObj message => ret (error_result message)
       | NonError _ => ret (error_result "An unexpected error occurred")
       end).

Definition predictFromBase64 (imageBase64 : string) : M json :=
  try_catch
    (response <- fetch (predict_request "/api/predict"
                          [("Content-Type", "application/json")]
                          imageBase64) ;;
     (when (negb (ok response)) then
        (errorData <- try_catch (response_json response)
                        (fun _ => ret (error_result "Unknown error")) ;;
         e <- get_prop errorData "error" ;;
         message <- match e with
                    | Some v => if truthy v then ToString v
                                else ret ("HTTP error! status: " ++ string_of_Z (status response))
                    | None => ret ("HTTP error! status: " ++ string_of_Z (status response))
                    end ;;
         throw (ErrorObj message))) ;;
     response_json response)
    (fun error =>
       console_error "Prediction error:" ;;
       match error with
       | ErrorObj message => ret (error_result message)
       | NonError _ => ret (error_result "An unexpected error occurred")
       end).

(** *** Platform pieces of the relay routes *)

(** What a route handler answers: a status and a JSON body. *)
Record Reply : Type := mkReply {
  reply_status : Z;
  reply_body : json
}.

(** The Fetch standard's null body statuses. *)
Definition null_body_status (s : Z) : bool :=
  (s =? 101) || (s =? 103) || (s =? 204) || (s =? 205) || (s =? 304).

(** [NextResponse.json(body, { status })].  The [Response] constructor under
    it raises a [RangeError] for a status outside 200..599 and a [TypeError]
    for a body on a null body status. *)
Definition NextResponse_json (body : json) (st : Z) : M Reply :=
  if negb ((200 <=? st) && (st <=? 599)) then
    throw (ErrorObj "RangeError: status out of range")
  else if null_body_status st then
    throw (ErrorObj "TypeError: null body status with a body")
  else ret (mkReply st body).

Definition b64_alphabet : string :=
  "ABCDEFGHIJKLMNOPQRSTUVWXYZabcdefghijklmnopqrstuvwxyz0123456789+/".

Definition b64_char (n : Z) : ascii :=
  match String.get (Z.to_nat n) b64_alphabet with
  | Some c => c
  | None => "="%char
  end.

Definition byteZ (b : Byte.byte) : Z := Z.of_N (Byte.to_N b).

(** [Buffer.from(bytes).toString('base64')] *)
Fixpoint base64 (bs : list Byte.byte) : string :=
  match bs with
  | [] => ""
  | [a] =>
      let n := Z.shiftl (byteZ a) 16 in
      String (b64_char (Z.shiftr n 18))
        (String (b64_char (Z.land (Z.shiftr n 12) 63)) "==")
  | [a; b] =>
      let n := Z.lor (Z.shiftl (byteZ a) 16) (Z.shiftl (byteZ b) 8) in
      String (b64_char (Z.shiftr n 18))
        (String (b64_char (Z.land (Z.shiftr n 12) 63))
           (String (b64_char (Z.land (Z.shiftr n 6) 63)) "="))
  | a :: b :: c :: rest =>
      let n := Z.lor (Z.lor (Z.shiftl (byteZ a) 16) (Z.shiftl (byteZ b) 8)) (byteZ c) in
      String (b64_char (Z.shiftr n 18))
        (String (b64_char (Z.land (Z.shiftr n 12) 63))
           (String (b64_char (Z.land (Z.shiftr n 6) 63))
              (String (b64_char (Z.land n 63)) (base64 rest))))
  end.

(** *** app/api/predict/route.ts *)

(** The incoming request of the predict relay: what [request.json()] delivers. *)
Record RelayRequest : Type := mkRelayRequest {
  request_body : delivered json
}.

Definition request_json (request : RelayRequest) : M json :=
  emit EvRequestJson ;; of_delivered (request_body request).

(** [const { image } = body] raises a [TypeError] on [null] as a property
    read does; the handler's [catch] ignores the message. *)
Definition POST (request : RelayRequest) : M Reply :=
  try_catch
    (if negb (env_truthy (API_URL cfg)) || negb (env_truthy (API_KEY cfg)) then
       console_error "API configuration missing" ;;
       NextResponse_json (error_result "Server configuration error") 500
     else
       body <- request_json request ;;
       image <- get_prop body "image" ;;
       if negb (truthy_val image) then
         NextResponse_json (error_result "No image provided") 400
       else
         response <- fetch (mkRequest (template (API_URL cfg) ++ "/predict") "POST"
                              [("Content-Type", "application/json");
                               ("X-API-Key", template (API_KEY cfg))]
                              (Some (obj_of_fields [("image", image)]))) ;;
         if negb (ok response) then
           errorData <- try_catch (response_json response)
                          (fun _ => ret (error_result "Unknown error")) ;;
           console_error "Prediction API error:" ;;
           e <- get_prop errorData "error" ;;
           NextResponse_json
             (obj_of_fields
                [("error", if truthy_val e then e
                           else Some (JStr ("API error: " ++ string_of_Z (status response))))])
             (status response)
         else
           data <- response_json response ;;
           NextResponse_json data 200)
    (fun err =>
       console_error "Prediction proxy error:" ;;
       NextResponse_json (error_result "Internal server error") 500).

(** *** app/api/random-dog/route.ts *)

Definition GET : M Reply :=
  try_catch
    (if negb (env_truthy (UNSPLASH_ACCESS_KEY cfg)) then
       console_error "UNSPLASH_ACCESS_KEY is not configured in environment variables" ;;
       NextResponse_json (error_result "Server configuration error") 500
     else
       apiRes <- fetch (mkRequest
                          ("https://api.unsplash.com/photos/random?query=dog&client_id="
                             ++ template (UNSPLASH_ACCESS_KEY cfg))
                          "GET" [("Accept-Version", "v1")] None) ;;
       if negb (ok apiRes) then
         console_error "Unsplash API error:" ;;
         NextResponse_json (error_result "Failed to fetch image from Unsplash") 502
       else
         data <- response_json apiRes ;;
         urls <- get_prop data "urls" ;;
         regular <- opt_prop urls "regular" ;;
         imageUrl <- (if truthy_val regular then ret regular
                      else urls' <- get_prop data "urls" ;; opt_prop urls' "full") ;;
         match imageUrl with
         | None => NextResponse_json (error_result "No image URL in response") 502
         | Some u =>
             if negb (truthy u) then
               NextResponse_json (error_result "No image URL in response") 502
             else
               url <- ToString u ;;
               imageRes <- fetch (mkRequest url "GET" [] None) ;;
               if negb (ok imageRes) then
                 NextResponse_json (error_result "Failed to download image") 502
               else
                 let contentType :=
                   match content_type imageRes with
                   | Some c => if str_truthy c then c else "image/jpeg"
                   | None => "image/jpeg"
                   end in
                 arrayBuffer <- of_delivered (body_arrayBuffer imageRes) ;;
                 let base64 := base64 arrayBuffer in
                 user <- get_prop data "user" ;;
                 photographer <- opt_prop user "name" ;;
                 user' <- get_prop data "user" ;;
                 userLinks <- opt_prop user' "links" ;;
                 photographerUrl <- opt_prop userLinks "html" ;;
                 links <- get_prop data "links" ;;
                 unsplashUrl <- opt_prop links "html" ;;
                 NextResponse_json
                   (obj_of_fields
                      [("image", Some (JStr ("data:" ++ contentType ++ ";base64," ++ base64)));
                       ("attribution",
                        Some (obj_of_fields
                                [("photographer", photographer);
                                 ("photographerUrl", photographerUrl);
                                 ("unsplashUrl", unsplashUrl)]))])
                   200
         end)
    (fun err =>
       console_error "Random dog proxy error:" ;;
       NextResponse_json (error_result "Internal server error") 500).

(** *** app/page.tsx *)

Inductive ImageSource : Type := unsplash | upload | camera.

(** A [MediaStream] is known by its tracks ([getTracks()]); a track by its
    identity.  Which tracks are live is device state, shared by every
    reference to the stream. *)
Definition MediaStream : Type := list nat.

(** The React state of [Home].  [error] is declared [string | null] but
    receives [response.error] as it arrives, so it holds a JavaScript value. *)
Record PageState : Type := mkPage {
  selectedImage : option string;
  result : option json;
  loading : bool;
  error : option json;
  imageSource : option ImageSource;
  unsplashAttribution : option json;
  cameraActive : bool;
  stream : option MediaStream
}.

Record Video : Type := mkVideo {
  srcObject : option MediaStream;
  videoWidth : Z;
  videoHeight : Z;
  (** whether [play()] rejects *)
  play_rejects : bool
}.

Record Canvas : Type := mkCanvas {
  width : Z;
  height : Z;
  (** whether [getContext('2d')] gives a context *)
  has_context2d : bool;
  (** what [toDataURL('image/jpeg')] gives after the frame is drawn *)
  jpeg_dataURL : string
}.

(** Everything a handler of the page can read or change: the React state (as
    the pending updates leave it), the two refs, the live tracks of the
    camera, and the event log. *)
Record World : Type := mkWorld {
  page : PageState;
  videoRef : option Video;
  canvasRef : option Canvas;
  live : list nat;
  events : log
}.

Definition PM (A : Type) : Type := St World A.

Definition lift {A} (c : M A) : PM A :=
  fun w =>
    match c (events w) with
    | (o, l) => (o, mkWorld (page w) (videoRef w) (canvasRef w) (live w) l)
    end.

Definition set_page (f : PageState -> PageState) : PM unit :=
  fun w => (Returned tt, mkWorld (f (page w)) (videoRef w) (canvasRef w) (live w) (events w)).

Definition setSelectedImage (v : option string) : PM unit :=
  set_page (fun s => mkPage v (result s) (loading s) (error s) (imageSource s)
                       (unsplashAttribution s) (cameraActive s) (stream s)).
Definition setResult (v : option json) : PM unit :=
  set_page (fun s => mkPage (selectedImage s) v (loading s) (error s) (imageSource s)
                       (unsplashAttribution s) (cameraActive s) (stream s)).
Definition setLoading (v : bool) : PM unit :=
  set_page (fun s => mkPage (selectedImage s) (result s) v (error s) (imageSource s)
                       (unsplashAttribution s) (cameraActive s) (stream s)).
Definition setError (v : option json) : PM unit :=
  set_page (fun s => mkPage (selectedImage s) (result s) (loading s) v (imageSource s)
                       (unsplashAttribution s) (cameraActive s) (stream s)).
Definition setImageSource (v : option ImageSource) : PM unit :=
  set_page (fun s => mkPage (selectedImage s) (result s) (loading s) (error s) v
                       (unsplashAttribution s) (cameraActive s) (stream s)).
Definition setUnsplashAttribution (v : option json) : PM unit :=
  set_page (fun s => mkPage (selectedImage s) (result s) (loading s) (error s) (imageSource s)
                       v (cameraActive s) (stream s)).
Definition setCameraActive (v : bool) : PM unit :=
  set_page (fun s => mkPage (selectedImage s) (result s) (loading s) (error s) (imageSource s)
                       (unsplashAttribution s) v (stream s)).
Definition setStream (v : option MediaStream) : PM unit :=
  set_page (fun s => mkPage (selectedImage s) (result s) (loading s) (error s) (imageSource s)
                       (unsplashAttribution s) (cameraActive s) v).

Definition get_videoRef : PM (option Video) := fun w => (Returned (videoRef w), w).
Definition get_canvasRef : PM (option Canvas) := fun w => (Returned (canvasRef w), w).
Definition set_videoRef (v : option Video) : PM unit :=
  fun w => (Returned tt, mkWorld (page w) v (canvasRef w) (live w) (events w)).
Definition set_canvasRef (c : option Canvas) : PM unit :=
  fun w => (Returned tt, mkWorld (page w) (videoRef w) c (live w) (events w)).

(** [track.stop()] *)
Definition track_stop (track : nat) : PM unit :=
  fun w => (Returned tt,
            mkWorld (page w) (videoRef w) (canvasRef w)
              (filter (fun t => negb (Nat.eqb t track)) (live w)) (events w)).

(** [await navigator.mediaDevices.getUserMedia(...)]: on success the tracks
    of the new stream are live. *)
Definition acquire_camera : PM MediaStream :=
  fun w =>
    match getUserMedia P (events w) with
    | Rejected m =>
        (Threw (ErrorObj m),
         mkWorld (page w) (videoRef w) (canvasRef w) (live w)
           (events w ++ [EvGetUserMedia])%list)
    | Delivered tracks =>
        (Returned tracks,
         mkWorld (page w) (videoRef w) (canvasRef w) (tracks ++ live w)%list
           (events w ++ [EvGetUserMedia])%list)
    end.

(** [xs.forEach(f)] *)
Fixpoint forEach {S A} (xs : list A) (f : A -> St S unit) : St S unit :=
  match xs with
  | [] => ret tt
  | x :: rest => f x ;; forEach rest f
  end.

(** A handler is a closure of one render: it reads the React state [st] of
    that render, while its updates and the refs live in the world. *)

Definition startCamera : PM unit :=
  try_catch
    (mediaStream <- acquire_camera ;;
     lift (console_log "Camera stream obtained:") ;;
     lift (console_log "Video tracks:") ;;
     setStream (Some mediaStream) ;;
     setCameraActive true ;;
     setError None ;;
     setResult None ;;
     setSelectedImage None)
    (fun err =>
       lift (console_error "Camera error:") ;;
       setError (Some (JStr "Failed to access camera. Please check permissions."))).

Definition stopCamera (st : PageState) : PM unit :=
  match stream st with
  | Some s =>
      forEach s (fun track => lift (console_log "Stopping track:") ;; track_stop track) ;;
      setStream None
  | None => ret tt
  end ;;
  current <- get_videoRef ;;
  match current with
  | Some video =>
      set_videoRef (Some (mkVideo None (videoWidth video) (videoHeight video)
                            (play_rejects video)))
  | None => ret tt
  end ;;
  setCameraActive false.

Definition capturePhoto (st : PageState) : PM unit :=
  v <- get_videoRef ;;
  c <- get_canvasRef ;;
  match v, c with
  | Some video, Some canvas =>
      set_canvasRef (Some (mkCanvas (videoWidth video) (videoHeight video)
                             (has_context2d canvas) (jpeg_dataURL canvas))) ;;
      if has_context2d canvas then
        let imageData := jpeg_dataURL canvas in
        setSelectedImage (Some imageData) ;;
        setImageSource (Some camera) ;;
        stopCamera st
      else ret tt
  | _, _ => ret tt
  end.

Definition resetState (st : PageState) : PM unit :=
  setSelectedImage None ;;
  setResult None ;;
  setError None ;;
  setImageSource None ;;
  setUnsplashAttribution None ;;
  when (cameraActive st) then stopCamera st.

Definition thrown_text (t : thrown) : string :=
  match t with
  | ErrorObj m => m
  | NonError w => w
  end.

Definition handlePredict (st : PageState) : PM unit :=
  match selectedImage st with
  | None => setError (Some (JStr "Please select an image first"))
  | Some image =>
      if negb (str_truthy image) then
        setError (Some (JStr "Please select an image first"))
      else
        setLoading true ;;
        setError None ;;
        try_finally
          (try_catch
             (response <- lift (predictFromBase64 image) ;;
              e <- lift (get_prop response "error") ;;
              if truthy_val e then setError e
              else setResult (Some response))
             (fun err =>
                setError (Some (JStr "Failed to get prediction. Please try again.")) ;;
                lift (console_error (thrown_text err))))
          (setLoading false)
  end.

(** An effect answers with its cleanup function, if it returns one. *)
Definition Cleanup : Type := PM unit.

(** The effect on [cameraActive, stream]: it attaches the stream to the video
    element and starts playback; its body returns nothing, so no cleanup. *)
Definition streamAttachEffect (st : PageState) : PM (option Cleanup) :=
  current <- get_videoRef ;;
  match cameraActive st, stream st, current with
  | true, Some s, Some video =>
      set_videoRef (Some (mkVideo (Some s) (videoWidth video) (videoHeight video)
                            (play_rejects video))) ;;
      when (play_rejects video) then
        (lift (console_error "Error playing video:") ;;
         setError (Some (JStr "Failed to start video playback")))
  | _, _, _ => ret tt
  end ;;
  ret None.

(** The effects of [Home], in source order. *)
Definition Home_effects : list (PageState -> PM (option Cleanup)) :=
  [streamAttachEffect].

(** Running the effects after a commit collects the cleanups they returned. *)
Fixpoint run_effects (effects : list (PageState -> PM (option Cleanup)))
    (st : PageState) : PM (list Cleanup) :=
  match effects with
  | [] => ret []
  | eff :: rest =>
      c <- eff st ;;
      cs <- run_effects rest st ;;
      ret (match c with Some f => f :: cs | None => cs end)
  end.

(** Teardown of the component: React runs the cleanups the last effects
    returned; the component has no other unmount hook. *)
Definition unmount (cleanups : list Cleanup) : PM unit :=
  forEach cleanups (fun f => f).

(** A mounted render of [Home] from its commit to its teardown: the effects
    run, and at unmount React calls the cleanups they returned. *)
Definition mounted_then_unmounted (st : PageState) : PM unit :=
  cleanups <- run_effects Home_effects st ;;
  unmount cleanups.

End Program.

(** ** The rest of the client, the page and the wire between them *)

Section Coverage.

Variable P : Platform.
Variable cfg : Config.

(** *** lib/api.ts, continued *)

Definition checkHealth : M json :=
  try_catch
    (response <- fetch P (mkRequest (template (API_URL cfg) ++ "/") "GET" [] None) ;;
     (when (negb (ok response)) then
        throw (ErrorObj "API health check failed")) ;;
     response_json response)
    (fun error =>
       console_error "Health check error:" ;;
       throw error).

(** [Date.now()] is the argument. *)
Definition getRandomDogImage (timestamp : Z) : string :=
  "https://source.unsplash.com/800x600/?dog&" ++ string_of_Z timestamp.

Definition getRandomDogImageBase64 : M json :=
  try_catch
    (res <- fetch P (mkRequest "/api/random-dog" "GET" [] None) ;;
     (when (negb (ok res)) then
        throw (ErrorObj "Failed to fetch random image from server")) ;;
     data <- response_json res ;;
     e <- get_prop P data "error" ;;
     match e with
     | Some v =>
         if truthy v then message <- ToString P v ;; throw (ErrorObj message)
         else ret data
     | None => ret data
     end)
    (fun err =>
       console_error "getRandomDogImageBase64 error:" ;;
       throw err).

(** *** app/page.tsx, continued *)

(** The reader of [handleFileUpload] has only [onloadend]: it fires after a
    failed read too, with [reader.result] null. *)
Definition read_result (file : File) : PM (option string) :=
  fun w =>
    (Returned (file_reader P (events w) file),
     mkWorld (page w) (videoRef w) (canvasRef w) (live w)
       (events w ++ [EvReadAsDataURL file])%list).

(** [file] is [event.target.files?.[0]]. *)
Definition handleFileUpload (file : option File) : PM unit :=
  match file with
  | None => ret tt
  | Some file =>
      if negb (startsWith (blob_type file) "image/") then
        setError (Some (JStr "Please select a valid image file"))
      else if blob_size file >? 5 * 1024 * 1024 then
        setError (Some (JStr "Image size should be less than 5MB"))
      else
        dataUrl <- read_result file ;;
        setSelectedImage dataUrl ;;
        setImageSource (Some upload) ;;
        setError None ;;
        setResult None
  end.

(** [label.replace(/-/g, ' ')], as the result list prints a breed. *)
Fixpoint replace_hyphens (label : string) : string :=
  match label with
  | EmptyString => EmptyString
  | String c rest =>
      String (if Ascii.eqb c "-" then " "%char else c) (replace_hyphens rest)
  end.

(** The blocks of the JSX and the conditions that render them. *)
Definition opt_str_truthy (v : option string) : bool :=
  match v with
  | Some s => str_truthy s
  | None => false
  end.

(** [!selectedImage && !cameraActive]: the three source buttons and the
    file input *)
Definition shows_sources (st : PageState) : bool :=
  negb (opt_str_truthy (selectedImage st)) && negb (cameraActive st).

(** [cameraActive]: the video with Capture and Cancel *)
Definition shows_camera (st : PageState) : bool := cameraActive st.

(** [selectedImage]: the preview with its remove button *)
Definition shows_preview (st : PageState) : bool := opt_str_truthy (selectedImage st).

(** [selectedImage && !result]: the Identify button *)
Definition shows_identify (st : PageState) : bool :=
  opt_str_truthy (selectedImage st) && negb (truthy_val (result st)).

(** [result && result.predictions]: the list and Try Another Image *)
Definition shows_results (st : PageState) : bool :=
  match result st with
  | Some r => truthy r && truthy_val (match r with
                                      | JObj props => lookup "predictions" props
                                      | _ => None
                                      end)
  | None => false
  end.

(** The asynchronous handlers in their segments.  A handler runs to its
    [await] and suspends; what follows the [await] runs when the awaited
    call settles, on the page as it is by then.  The request of a call and
    its answer are one entry of the log, placed when the answer arrives. *)

(** [handlePredict] up to its [await]: the guard and the two updates made
    before the request leaves.  It answers with the image sent, if any. *)
Definition handlePredict_begin (st : PageState) : PM (option string) :=
  match selectedImage st with
  | None => setError (Some (JStr "Please select an image first")) ;; ret None
  | Some image =>
      if negb (str_truthy image) then
        setError (Some (JStr "Please select an image first")) ;; ret None
      else
        setLoading true ;;
        setError None ;;
        ret (Some image)
  end.

(** [handlePredict] from its [await] on: the [try], its [catch] and its
    [finally]. *)
Definition handlePredict_settle (image : string) : PM unit :=
  try_finally
    (try_catch
       (response <- lift (predictFromBase64 P image) ;;
        e <- lift (get_prop P response "error") ;;
        if truthy_val e then setError e
        else setResult (Some response))
       (fun err =>
          setError (Some (JStr "Failed to get prediction. Please try again.")) ;;
          lift (console_error (thrown_text err))))
    (setLoading false).

(** [handleFileUpload] up to [reader.readAsDataURL(file)]: the checks.  It
    answers with the file whose read it started, if any. *)
Definition handleFileUpload_begin (file : option File) : PM (option File) :=
  match file with
  | None => ret None
  | Some file =>
      if negb (startsWith (blob_type file) "image/") then
        setError (Some (JStr "Please select a valid image file")) ;; ret None
      else if blob_size file >? 5 * 1024 * 1024 then
        setError (Some (JStr "Image size should be less than 5MB")) ;; ret None
      else ret (Some file)
  end.

(** [reader.onloadend] *)
Definition handleFileUpload_loadend (file : File) : PM unit :=
  dataUrl <- read_result file ;;
  setSelectedImage dataUrl ;;
  setImageSource (Some upload) ;;
  setError None ;;
  setResult None.

(** What the mounted page is waiting for. *)
Inductive Pending : Type :=
| camera_requested
| prediction_requested (image : string)
| read_started (file : File).

(** The mounted page: its world, and the calls it has made and not yet
    heard from. *)
Record Session : Type := mkSession {
  world : World;
  pending : list Pending
}.

(** One step of the mounted page: a click on a rendered button, which runs
    its handler as the closure of the current render up to its end or its
    first [await]; the settling of a pending call, which runs the rest of
    the handler that awaited it; or a commit.  Take Photo is not disabled
    while a camera request is pending, so several can be pending at once;
    the Identify button is disabled while [loading].  [step_commit] is a
    render reaching the DOM: React attaches the refs and runs the effect.
    [step_elsewhere] stands for a segment of [handleUnsplashImage], which
    calls neither [setStream] nor [setCameraActive] and touches no track. *)
Inductive step : Session -> Session -> Prop :=
| step_takePhoto s :
    shows_sources (page (world s)) = true ->
    step s (mkSession (world s) (camera_requested :: pending s))
| step_cameraAnswered s before after :
    pending s = (before ++ camera_requested :: after)%list ->
    step s (mkSession (snd (startCamera P (world s))) (before ++ after)%list)
| step_chooseFile s file :
    shows_sources (page (world s)) = true ->
    step s (mkSession (snd (handleFileUpload_begin file (world s)))
              (match fst (handleFileUpload_begin file (world s)) with
               | Returned (Some f) => read_started f :: pending s
               | _ => pending s
               end))
| step_fileRead s before after file :
    pending s = (before ++ read_started file :: after)%list ->
    step s (mkSession (snd (handleFileUpload_loadend file (world s)))
              (before ++ after)%list)
| step_capture s :
    shows_camera (page (world s)) = true ->
    step s (mkSession (snd (capturePhoto (page (world s)) (world s))) (pending s))
| step_cancel s :
    shows_camera (page (world s)) = true ->
    step s (mkSession (snd (stopCamera (page (world s)) (world s))) (pending s))
| step_remove s :
    shows_preview (page (world s)) = true ->
    step s (mkSession (snd (resetState (page (world s)) (world s))) (pending s))
| step_tryAnother s :
    shows_results (page (world s)) = true ->
    step s (mkSession (snd (resetState (page (world s)) (world s))) (pending s))
| step_identify s :
    shows_identify (page (world s)) = true ->
    loading (page (world s)) = false ->
    step s (mkSession (snd (handlePredict_begin (page (world s)) (world s)))
              (match fst (handlePredict_begin (page (world s)) (world s)) with
               | Returned (Some image) => prediction_requested image :: pending s
               | _ => pending s
               end))
| step_predictionSettled s before after image :
    pending s = (before ++ prediction_requested image :: after)%list ->
    step s (mkSession (snd (handlePredict_settle image (world s)))
              (before ++ after)%list)
| step_commit s video canvas :
    step s (mkSession
              (snd (streamAttachEffect (page (world s))
                      (mkWorld (page (world s)) video canvas
                         (live (world s)) (events (world s)))))
              (pending s))
| step_elsewhere s w' :
    cameraActive (page w') = cameraActive (page (world s)) ->
    stream (page w') = stream (page (world s)) ->
    live w' = live (world s) ->
    step s (mkSession w' (pending s)).

Inductive reachable : Session -> Session -> Prop :=
| reach_here s : reachable s s
| reach_step s s1 s2 : reachable s s1 -> step s1 s2 -> reachable s s2.

End Coverage.

(** The requests on a log. *)
Definition is_fetch (e : event) : bool :=
  match e with
  | EvFetch _ => true
  | _ => false
  end.

Definition fetches (l : log) : nat := List.length (filter is_fetch l).

(** [Home] as first rendered: every state at its initial value, no ref
    attached, no track live. *)
Definition initial_world (l : log) : World :=
  mkWorld (mkPage None None false None None None false None) None None [] l.

(** *** The wire between the page and the relay routes *)

(** Keep the first binding of each key. *)
Fixpoint first_bindings (seen : list string) (props : list (string * json))
    : list (string * json) :=
  match props with
  | [] => []
  | (k, v) :: rest =>
      if existsb (String.eqb k) seen then first_bindings seen rest
      else (k, v) :: first_bindings (k :: seen) rest
  end.

(** [JSON.parse(JSON.stringify(v))]: a value after it crossed the wire.
    Negative zero arrives as zero, a number that is not finite as [null], and
    an object with each of its keys once. *)
Fixpoint wire (v : json) : json :=
  match v with
  | JNull => JNull
  | JBool b => JBool b
  | JNum f =>
      if PrimFloat.is_nan f || PrimFloat.is_infinity f then JNull
      else if PrimFloat.is_zero f then JNum PrimFloat.zero
      else JNum f
  | JStr s => JStr s
  | JArr items => JArr (map wire items)
  | JObj props => JObj (first_bindings [] (map (fun kv => (fst kv, wire (snd kv))) props))
  end.

(** The [Response] a browser gets for a [NextResponse.json] reply. *)
Definition response_of_reply (rep : Reply) : Response :=
  mkResponse (reply_status rep) "" (Some "application/json")
    (Delivered (wire (reply_body rep)))
    (Rejected "body is read as JSON") (Rejected "body is read as JSON").

(** What the framework answers when a route handler throws. *)
Definition handler_crashed : Response :=
  mkResponse 500 "Internal Server Error" (Some "text/plain")
    (Rejected "Unexpected token I in JSON at position 0")
    (Rejected "body is read as JSON") (Rejected "body is read as JSON").

(** The browser's platform when the page is served by the two routes, which
    themselves run on the platform [server] with configuration [cfg]: a
    request to [/api/predict] or [/api/random-dog] is answered by the route,
    any other request is not answered. *)
Definition served_by (server : Platform) (cfg : Config) (browser : Platform) : Platform :=
  mkPlatform
    (fun l req =>
       if String.eqb (req_url req) "/api/predict" then
         match fst (POST server cfg
                      (mkRelayRequest (match req_body req with
                                       | Some b => Delivered (wire b)
                                       | None => Rejected "Unexpected end of JSON input"
                                       end)) []) with
         | Returned rep => Delivered (response_of_reply rep)
         | Threw t => Delivered handler_crashed
         end
       else if String.eqb (req_url req) "/api/random-dog" then
         match fst (GET server cfg []) with
         | Returned rep => Delivered (response_of_reply rep)
         | Threw t => Delivered handler_crashed
         end
       else Rejected "Failed to fetch")
    (file_reader browser) (to_string_other browser) (null_read_message browser)
    (getUserMedia browser).

(** ** Reading fields without effects

    The pure counterparts of [get_prop] and [opt_prop], and the requests and
    bodies the statements below name. *)

Definition field (v : json) (k : string) : jsval :=
  match v with
  | JObj props => lookup k props
  | _ => None
  end.

Definition opt_field (v : jsval) (k : string) : jsval :=
  match v with
  | Some j => field j k
  | None => None
  end.

(** [data.urls?.regular || data.urls?.full], for [data] that is not [null] *)
Definition imageUrl_of (data : json) : jsval :=
  if truthy_val (opt_field (field data "urls") "regular")
  then opt_field (field data "urls") "regular"
  else opt_field (field data "urls") "full".

(** [imageRes.headers.get('content-type') || 'image/jpeg'] *)
Definition declared_type (r : Response) : string :=
  match content_type r with
  | Some c => if str_truthy c then c else "image/jpeg"
  | None => "image/jpeg"
  end.

(** The provider lookup the relay sends. *)
Definition lookup_request (cfg : Config) : Request :=
  mkRequest ("https://api.unsplash.com/photos/random?query=dog&client_id="
               ++ template (UNSPLASH_ACCESS_KEY cfg))
    "GET" [("Accept-Version", "v1")] None.

(** The body of a successful answer. *)
Definition random_dog_body (data : json) (imageRes : Response) (bytes : list Byte.byte) : json :=
  obj_of_fields
    [("image", Some (JStr ("data:" ++ declared_type imageRes ++ ";base64," ++ base64 bytes)));
     ("attribution",
      Some (obj_of_fields
              [("photographer", opt_field (field data "user") "name");
               ("photographerUrl", opt_field (opt_field (field data "user") "links") "html");
               ("unsplashUrl", opt_field (field data "links") "html")]))].

(** The request the relay sends upstream for a given [image] value. *)
Definition forwarded (cfg : Config) (image : json) : Request :=
  mkRequest (template (API_URL cfg) ++ "/predict") "POST"
    [("Content-Type", "application/json"); ("X-API-Key", template (API_KEY cfg))]
    (Some (JObj [("image", image)])).

Definition stop_and_log (track : nat) : PM unit :=
  lift (console_log "Stopping track:") ;; track_stop track.

(** ** Sample platforms and inputs *)

Definition silent (r : delivered Response) (reader : option string) : Platform :=
  mkPlatform (fun _ _ => r) (fun _ _ => reader)
    (fun _ => Rejected "Cannot convert object to primitive value")
    (fun k => "Cannot read properties of null (reading '" ++ k ++ "')")
    (fun _ => Rejected "Permission denied").

Definition plain_response (st : Z) (body : delivered json) : Response :=
  mkResponse st "" (Some "application/json") body
    (Rejected "body stream already read") (Rejected "body stream already read").

Definition sample_config : Config :=
  mkConfig (Some "https://paw.example") (Some "secret") (Some "unsplash-key").

Definition empty_config : Config := mkConfig None None None.

Definition png_file : File := mkBlob "image/png" 3 [Byte.x89; Byte.x50; Byte.x4e].
Definition text_file : File := mkBlob "text/plain" 3 [Byte.x61; Byte.x62; Byte.x63].
Definition huge_file : File := mkBlob "image/png" (5 * 1024 * 1024 + 1) [].

Definition png_dataURL : string := "data:image/png;base64,iVBO".

Definition quota_response : Response :=
  plain_response 429 (Delivered (error_result "Rate limit exceeded")).

Definition quota_page : Response :=
  plain_response 429 (Rejected "Unexpected token < in JSON at position 0").

Definition quota_bare : Response := plain_response 429 (Delivered (JObj [])).

Definition html_error_page : Response :=
  plain_response 500 (Rejected "Unexpected token < in JSON at position 0").

Definition boom_response : Response :=
  plain_response 500 (Delivered (error_result "boom")).

Definition bare_response : Response :=
  plain_response 503 (Delivered (JObj [])).

Definition idle_page (image : option string) : PageState :=
  mkPage image None false None (Some upload) None false None.

Definition idle_world (image : option string) : World :=
  mkWorld (idle_page image) None (Some (mkCanvas 300 150 true "data:image/jpeg;base64,/9j/")) [] [].

Definition golden : json :=
  JObj [("label", JStr "golden-retriever"); ("confidence", JNum 0.5%float)].


Definition predictions_response : Response :=
  plain_response 200 (Delivered (JObj [("predictions", JArr [golden])])).

(** A file reader that works: the data URL of a blob is its type and the
    base64 of its bytes. *)
Definition reads_fine (b : Blob) : option string :=
  Some ("data:" ++ blob_type b ++ ";base64," ++ base64 (blob_bytes b)).

Definition not_found_page : Blob :=
  mkBlob "text/html" 18 (list_byte_of_string "<h1>Not Found</h1>").

Definition not_found : Response :=
  mkResponse 404 "Not Found" (Some "text/html")
    (Rejected "Unexpected token < in JSON at position 0")
    (Delivered (list_byte_of_string "<h1>Not Found</h1>"))
    (Delivered not_found_page).

Definition missing_image_web : Platform :=
  mkPlatform (fun _ _ => Delivered not_found) (fun _ b => reads_fine b)
    (fun _ => Rejected "Cannot convert object to primitive value")
    (fun k => "Cannot read properties of null (reading '" ++ k ++ "')")
    (fun _ => Rejected "Permission denied").

(** A platform whose camera opens a stream with the single track [1]. *)
Definition camera_web : Platform :=
  mkPlatform (fun _ _ => Rejected "Failed to fetch") (fun _ _ => None)
    (fun _ => Rejected "Cannot convert object to primitive value")
    (fun k => "Cannot read properties of null (reading '" ++ k ++ "')")
    (fun _ => Delivered [1%nat]).

(** The session after the user took the camera: [startCamera] ran, the next
    render mounted the video element, and the effects of that commit ran. *)
Definition camera_started : World := snd (startCamera camera_web (idle_world None)).

Definition camera_mounted : World :=
  snd (set_videoRef (Some (mkVideo None 1280 720 false)) camera_started).

Definition camera_session : outcome (list Cleanup) * World :=
  run_effects Home_effects (page camera_mounted) camera_mounted.

Definition no_image_request : RelayRequest := mkRelayRequest (Delivered (JObj [])).

Definition image_request : RelayRequest :=
  mkRelayRequest (Delivered (JObj [("image", JStr png_dataURL)])).

Definition verbose_failure : Response :=
  plain_response 500
    (Delivered (JObj [("error", JStr "boom"); ("trace", JStr "at predict")])).

Definition dog_data : json :=
  JObj [("urls", JObj [("regular", JStr "https://images.example/dog.jpg")]);
        ("user", JObj [("name", JStr "Ana");
                       ("links", JObj [("html", JStr "https://unsplash.com/@ana")])]);
        ("links", JObj [("html", JStr "https://unsplash.com/photos/1")])].

Definition lookup_ok : Response := plain_response 200 (Delivered dog_data).

Definition jpeg_download : Response :=
  mkResponse 200 "OK" (Some "image/jpeg") (Rejected "Unexpected token")
    (Delivered [Byte.xff; Byte.xd8; Byte.xff]) (Rejected "body stream already read").

Definition no_urls : Response := plain_response 200 (Delivered (JObj [("urls", JObj [])])).

(** The provider answers the lookup with [looked]; every other URL is
    answered with [downloaded]. *)
Definition unsplash_web (looked downloaded : delivered Response) : Platform :=
  mkPlatform
    (fun _ req => if String.eqb (req_url req) (req_url (lookup_request sample_config))
                  then looked else downloaded)
    (fun _ _ => None)
    (fun _ => Rejected "Cannot convert object to primitive value")
    (fun k => "Cannot read properties of null (reading '" ++ k ++ "')")
    (fun _ => Rejected "Permission denied").

(** ** Further samples *)

Definition forbidden_response : Response :=
  plain_response 403 (Delivered (error_result "Invalid API key")).

Definition unreadable_web : Platform := silent (Rejected "Failed to fetch") None.

Definition offline_web : Platform := silent (Rejected "Failed to fetch") (Some png_dataURL).

(** The request of [checkHealth]. *)
Definition health_request (cfg : Config) : Request :=
  mkRequest (template (API_URL cfg) ++ "/") "GET" [] None.

(** The request of [getRandomDogImageBase64]. *)
Definition random_dog_request : Request := mkRequest "/api/random-dog" "GET" [] None.

Definition healthy_response : Response :=
  plain_response 200 (Delivered (JObj [("message", JStr "Server is up and running!")])).

Definition embedded_dog : json :=
  JObj [("image", JStr "data:image/jpeg;base64,/9j/"); ("attribution", JObj [])].

Definition complaint_response : Response :=
  plain_response 200 (Delivered (error_result "quota exhausted")).

Definition garbled_request : RelayRequest :=
  mkRelayRequest (Rejected "Unexpected end of JSON input").

Definition null_request : RelayRequest := mkRelayRequest (Delivered JNull).

Definition garbled_success : Response :=
  plain_response 200 (Rejected "Unexpected token < in JSON at position 0").

(** The request body the relayed client sends for [image]. *)
Definition image_body (image : string) : json := JObj [("image", JStr image)].

(** The relayed client's request. *)
Definition relayed_request (image : string) : Request :=
  predict_request "/api/predict" [("Content-Type", "application/json")] image.

(** Server platforms for the end-to-end samples: the inference service
    answers every request with [r]. *)
Definition inference (r : delivered Response) : Platform := silent r None.

Definition browser_web : Platform := silent (Rejected "Failed to fetch") (Some png_dataURL).

(** A browser whose file reader works, serving no route. *)
Definition reading_web : Platform :=
  mkPlatform (fun _ _ => Rejected "Failed to fetch") (fun _ b => reads_fine b)
    (fun _ => Rejected "Cannot convert object to primitive value")
    (fun k => "Cannot read properties of null (reading '" ++ k ++ "')")
    (fun _ => Rejected "Permission denied").

(** A platform whose camera is refused. *)
Definition no_camera_web : Platform := silent (Rejected "Failed to fetch") None.

(** A page on which an earlier stream's track [7] is still live. *)
Definition stale_world : World :=
  mkWorld (mkPage None None false None None None false None) None None [7%nat] [].

(** The state every handler leaves alone unless it deals with the camera. *)
Definition camera_untouched (w w' : World) : Prop :=
  cameraActive (page w') = cameraActive (page w)
  /\ stream (page w') = stream (page w)
  /\ live w' = live w.

(** What holds of the camera while [Home] is mounted: the camera view is
    open exactly when the state holds a stream, and the tracks of that
    stream are live. *)
Definition camera_consistent (w : World) : Prop :=
  match stream (page w) with
  | None => cameraActive (page w) = false
  | Some s => cameraActive (page w) = true /\ incl s (live w)
  end.

(** [Home] as first rendered, waiting for nothing. *)
Definition first_render (l : log) : Session := mkSession (initial_world l) [].

(** A platform whose camera opens the stream [[1]] first and the stream
    [[2]] on every later request. *)
Definition two_cameras_web : Platform :=
  mkPlatform (fun _ _ => Rejected "Failed to fetch") (fun _ _ => None)
    (fun _ => Rejected "Cannot convert object to primitive value")
    (fun k => "Cannot read properties of null (reading '" ++ k ++ "')")
    (fun l => match l with
              | [] => Delivered [1%nat]
              | _ => Delivered [2%nat]
              end).

(** A camera view ready for a capture: the stream [[1]] attached, the canvas
    with a 2d context. *)
Definition filming_page : PageState :=
  mkPage None None false None None None true (Some [1%nat]).

Definition filming_world : World :=
  mkWorld filming_page (Some (mkVideo (Some [1%nat]) 1280 720 false))
    (Some (mkCanvas 300 150 true "data:image/jpeg;base64,/9j/")) [1%nat] [].

(** The same view in a browser that gives no 2d context. *)
Definition blind_world : World :=
  mkWorld filming_page (Some (mkVideo (Some [1%nat]) 1280 720 false))
    (Some (mkCanvas 300 150 false "")) [1%nat] [].

(** A prediction on show. *)
Definition shown_page : PageState :=
  mkPage (Some png_dataURL) (Some (JObj [("predictions", JArr [golden])])) false None
    (Some upload) None false None.

Definition shown_world : World := mkWorld shown_page None None [] [].

(** A 200 answer whose body is [null]. *)
Definition null_success : Response := plain_response 200 (Delivered JNull).

(** Two camera requests granted one after the other, and the Cancel of the
    render that follows. *)
Definition started_twice (P : Platform) (w : World) : World :=
  snd (startCamera P (snd (startCamera P w))).

Definition cancelled (w : World) : World := snd (stopCamera (page w) w).

(** Take Photo clicked twice on the first render, one request answered. *)
Definition one_answered : Session :=
  mkSession (snd (startCamera two_cameras_web (initial_world []))) [camera_requested].


(** The upload client's request for the data URL [d]. *)
Definition direct_request (cfg : Config) (d : string) : Request :=
  predict_request (template (API_URL cfg) ++ "/predict")
    [("Content-Type", "application/json"); ("X-API-Key", template (API_KEY cfg))] d.

(** A failing answer whose [error] is the empty array. *)
Definition empty_error_response : Response :=
  plain_response 500 (Delivered (JObj [("error", JArr [])])).

(** A failing answer whose body is the JSON [null]. *)
Definition null_failure : Response := plain_response 500 (Delivered JNull).

(** A browser that answers every request with [empty_error_response];
    [ToString] as JavaScript has it on the values met here: an empty array
    joins to the empty string. *)
Definition joining_web : Platform :=
  mkPlatform (fun _ _ => Delivered empty_error_response) (fun _ _ => Some png_dataURL)
    (fun v => match v with
              | JArr [] => Delivered ""
              | JBool true => Delivered "true"
              | JBool false => Delivered "false"
              | _ => Delivered "[object Object]"
              end)
    (fun k => "Cannot read properties of null (reading '" ++ k ++ "')")
    (fun _ => Rejected "Permission denied").

(** Upstream answers the relay cannot pass on: a 503 whose body is the JSON
    [null], a 304, and a status outside the range of [Response]. *)
Definition null_unavailable : Response := plain_response 503 (Delivered JNull).

Definition not_modified : Response :=
  plain_response 304 (Rejected "Unexpected end of JSON input").

Definition status_999 : Response := plain_response 999 (Delivered (error_result "odd")).

(** The text [fetch(v)] makes of the value it is given. *)
Definition text_of (P : Platform) (v : json) : delivered string :=
  match v with
  | JStr s => Delivered s
  | _ => to_string_other P v
  end.

(** A download answered 200 whose body breaks off while it is read. *)
Definition broken_download : Response :=
  mkResponse 200 "OK" (Some "image/jpeg") (Rejected "Unexpected token")
    (Rejected "The operation was aborted") (Rejected "body stream already read").

(** ** Base64 on the usual test vector *)

Example base64_Man :
  base64 [Byte.x4d; Byte.x61; Byte.x6e] = "TWFu" /\
  base64 [Byte.x4d; Byte.x61] = "TWE=" /\
  base64 [Byte.x4d] = "TQ==".
Proof. repeat split; reflexivity. Qed.

(** ** Running the monad: equations used by the proofs *)

Lemma get_prop_field (P : Platform) (v : json) (k : string) (l : log) :
  v <> JNull -> get_prop P v k l = (Returned (field v k), l).
Proof.
  intros Hv. destruct v; try reflexivity. congruence.
Qed.

Lemma opt_prop_field (P : Platform) (v : jsval) (k : string) (l : log) :
  opt_prop P v k l = (Returned (opt_field v k), l).
Proof.
  destruct v as [j|]; [|reflexivity].
  destruct j; reflexivity.
Qed.

Lemma field_error_result (m : string) : field (error_result m) "error" = Some (JStr m).
Proof. reflexivity. Qed.

Lemma app_log_assoc (l : log) (e : event) (rest : log) :
  ((l ++ [e]) ++ rest)%list = (l ++ e :: rest)%list.
Proof. now rewrite <- app_assoc. Qed.

(** [run_keep] unfolds the program and the monad but keeps property reads
    folded; [run] unfolds those too. *)
Ltac run_keep :=
  cbv [predictPaw predictFromBase64 urlToBase64 fileToBase64 readAsDataURL
       try_catch try_finally bind ret throw emit fetch response_json
       of_delivered console_error console_log ToString request_json];
  cbn [fst snd negb orb andb].

Ltac run :=
  run_keep; cbv [get_prop opt_prop throw ret error_result]; cbn [fst snd negb orb andb].

Ltac go := cbn [fst snd negb orb andb].

(** Split on the innermost test or oracle answer the computation is stuck on. *)
Ltac stuck_on x :=
  lazymatch type of x with
  | prod _ _ => fail
  | _ =>
      lazymatch x with
      | match _ with _ => _ end => fail
      | _ => destruct x eqn:?
      end
  end.

Ltac split_once :=
  match goal with
  | |- context [match ?x with _ => _ end] => stuck_on x
  end.

Ltac crunch := go; repeat (split_once; go).

Ltac flatten_log := rewrite <- ?app_assoc; cbn [app].

(** ** The file-upload client, [predictPaw] *)



Lemma field_string_not_null (v : json) (k s : string) :
  field v k = Some (JStr s) -> v <> JNull.
Proof. intros H ->. discriminate. Qed.

Lemma str_truthy_nonempty (s : string) : s <> "" -> str_truthy s = true.
Proof. destruct s; [congruence | reflexivity]. Qed.

(** C5, as stated, fails on the message: a failure can be reported with an
    empty one.  A non-2xx answer whose body is [{ "error": [] }] has a truthy
    [error], the empty array, whose text is the empty string; both clients
    return [{ error: "" }]. *)
Lemma empty_message_counterexample :
  ok empty_error_response = false
  /\ truthy (JArr []) = true
  /\ to_string_other joining_web (JArr []) = Delivered ""
  /\ fst (predictFromBase64 joining_web png_dataURL []) = Returned (error_result "")
  /\ fst (predictPaw joining_web sample_config png_file []) = Returned (error_result "").
Proof. repeat split; reflexivity. Qed.

Ltac relayed_prefix Hn := run_keep; rewrite Hn; go.

Ltac direct_prefix Ht Hgt Hr Hn H429 H401 H403 :=
  run_keep; rewrite Ht, Hgt; go; rewrite Hr; go; rewrite Hn; go;
  rewrite H429, H401, H403; go.

(** The cases of a delivered answer, once [prefix] has run the client up to
    its test of [response.ok]. *)
Ltac answer_policy P prefix :=
  split;
  [ intros Hok; split;
    [ intros v Hb; prefix; rewrite Hok; go; rewrite Hb; reflexivity
    | intros m Hb; prefix; rewrite Hok; go; rewrite Hb; reflexivity ]
  | intros Hok; split; [|split; [|split; [|split]]];
    [ intros m Hb; prefix; rewrite Hok; go; rewrite Hb; reflexivity
    | intros Hb; prefix; rewrite Hok; go; rewrite Hb; reflexivity
    | intros v Hb Hv Hf; prefix; rewrite Hok; go; rewrite Hb; go;
      rewrite get_prop_field by assumption;
      destruct (field v "error") as [e|]; [|reflexivity];
      cbn [truthy_val] in Hf; rewrite Hf; reflexivity
    | intros v s Hb Hf Hs; prefix; rewrite Hok; go; rewrite Hb; go;
      rewrite get_prop_field by (eapply field_string_not_null; eassumption);
      rewrite Hf; cbn [truthy]; rewrite str_truthy_nonempty by assumption; reflexivity
    | intros v e Hb Hf He Hns;
      assert (Hv : v <> JNull) by (intros ->; discriminate);
      split; intros text Hs;
      prefix; rewrite Hok; go; rewrite Hb; go;
      rewrite get_prop_field by assumption; rewrite Hf, He;
      (destruct e; try (exfalso; eapply Hns; reflexivity));
      rewrite Hs; reflexivity ] ].

(** C5, amended: whatever the input and whatever the I/O does, [predictPaw]
    and [predictFromBase64] return a value and never throw.  On a 2xx
    answer whose body parses the value is the parsed body; every failure
    gives [{ error: message }], the message being the one of the step that
    failed: the two validation texts, [An unexpected error occurred] for a
    failed read, the rejection's own message for a request that fails in
    transport or a 2xx body that does not parse, the two status texts for
    429 and for 401 or 403 in direct mode, and for any other non-2xx answer
    [Unknown error] when the body is not JSON, the [TypeError]'s message
    when the body is [null], [HTTP error! status: <code>] when it has no
    truthy [error], and otherwise the text of its [error], whatever that
    text is. *)
Theorem predict_never_throws (P : Platform) (cfg : Config) :
  (forall (file : File) (l : log),
      exists v l', predictPaw P cfg file l = (Returned v, l'))
  /\ (forall (image : string) (l : log),
        exists v l', predictFromBase64 P image l = (Returned v, l'))
  /\ (forall (file : File) (l : log),
        (startsWith (blob_type file) "image/" = false ->
           fst (predictPaw P cfg file l) =
             Returned (error_result "Please upload a valid image file"))
        /\ (startsWith (blob_type file) "image/" = true ->
            blob_size file > 5 * 1024 * 1024 ->
            fst (predictPaw P cfg file l) =
              Returned (error_result "Image size should be less than 5MB"))
        /\ (startsWith (blob_type file) "image/" = true ->
            blob_size file <= 5 * 1024 * 1024 ->
            (file_reader P l file = None ->
               fst (predictPaw P cfg file l) =
                 Returned (error_result "An unexpected error occurred"))
            /\ forall d, file_reader P l file = Some d ->
                 (forall m,
                     net P (l ++ [EvReadAsDataURL file])%list (direct_request cfg d) =
                       Rejected m ->
                     fst (predictPaw P cfg file l) = Returned (error_result m))
                 /\ forall r,
                      net P (l ++ [EvReadAsDataURL file])%list (direct_request cfg d) =
                        Delivered r ->
                      (status r = 429 ->
                         fst (predictPaw P cfg file l) =
                           Returned (error_result
                                       "Too many requests. Please try again later."))
                      /\ (status r = 401 \/ status r = 403 ->
                          fst (predictPaw P cfg file l) =
                            Returned (error_result
                                        "Authentication failed. Please check your API key."))))
  /\ (forall (image : string) (l : log) (m : string),
        net P l (relayed_request image) = Rejected m ->
        fst (predictFromBase64 P image l) = Returned (error_result m))
  /\ (forall (out : outcome json) (r : Response),
        ((exists image l,
             net P l (relayed_request image) = Delivered r
             /\ out = fst (predictFromBase64 P image l))
         \/ (exists file l d,
               startsWith (blob_type file) "image/" = true
               /\ blob_size file <= 5 * 1024 * 1024
               /\ file_reader P l file = Some d
               /\ net P (l ++ [EvReadAsDataURL file])%list (direct_request cfg d) =
                    Delivered r
               /\ status r <> 429 /\ status r <> 401 /\ status r <> 403
               /\ out = fst (predictPaw P cfg file l))) ->
        (ok r = true ->
           (forall v, body_json r = Delivered v -> out = Returned v)
           /\ (forall m, body_json r = Rejected m -> out = Returned (error_result m)))
        /\ (ok r = false ->
            (forall m, body_json r = Rejected m ->
               out = Returned (error_result "Unknown error"))
            /\ (body_json r = Delivered JNull ->
                out = Returned (error_result (null_read_message P "error")))
            /\ (forall v, body_json r = Delivered v -> v <> JNull ->
                  truthy_val (field v "error") = false ->
                  out = Returned (error_result
                                    ("HTTP error! status: " ++ string_of_Z (status r))))
            /\ (forall v s, body_json r = Delivered v ->
                  field v "error" = Some (JStr s) -> s <> "" ->
                  out = Returned (error_result s))
            /\ (forall v e, body_json r = Delivered v ->
                  field v "error" = Some e -> truthy e = true ->
                  (forall s, e <> JStr s) ->
                  (forall s, to_string_other P e = Delivered s ->
                     out = Returned (error_result s))
                  /\ (forall m, to_string_other P e = Rejected m ->
                        out = Returned (error_result m))))).
Proof.
  split; [|split; [|split; [|split]]].
  - intros file l. run. crunch; do 2 eexists; reflexivity.
  - intros image l. run. crunch; do 2 eexists; reflexivity.
  - intros file l. unfold direct_request. split; [|split].
    + intros Ht. run. rewrite Ht. reflexivity.
    + intros Ht Hs.
      assert (Hgt : (blob_size file >? maxSize) = true)
        by (apply Z.gtb_lt; unfold maxSize; lia).
      run. rewrite Ht, Hgt. reflexivity.
    + intros Ht Hs.
      assert (Hgt : (blob_size file >? maxSize) = false)
        by (rewrite Z.gtb_ltb; apply Z.ltb_ge; unfold maxSize; lia).
      split.
      * intros Hr. run. rewrite Ht, Hgt. go. rewrite Hr. reflexivity.
      * intros d Hr. split.
        -- intros m Hn. run. rewrite Ht, Hgt. go. rewrite Hr. go. rewrite Hn. reflexivity.
        -- intros r Hn. split.
           ++ intros H429. run. rewrite Ht, Hgt. go. rewrite Hr. go. rewrite Hn. go.
              rewrite H429. reflexivity.
           ++ intros Hauth.
              assert (H429 : (status r =? 429) = false)
                by (apply Z.eqb_neq; destruct Hauth as [-> | ->]; discriminate).
              assert (Hor : (status r =? 401) || (status r =? 403) = true)
                by (destruct Hauth as [-> | ->]; reflexivity).
              run. rewrite Ht, Hgt. go. rewrite Hr. go. rewrite Hn. go.
              rewrite H429, Hor. reflexivity.
  - intros image l m Hn. unfold relayed_request in Hn. run. rewrite Hn. reflexivity.
  - intros out r [[image [l [Hn ->]]]
                 | [file [l [d [Ht [Hsz [Hr [Hn [H429 [H401 [H403 ->]]]]]]]]]]].
    + unfold relayed_request in Hn.
      answer_policy P ltac:(relayed_prefix Hn).
    + unfold direct_request in Hn.
      assert (Hgt : (blob_size file >? maxSize) = false)
        by (rewrite Z.gtb_ltb; apply Z.ltb_ge; unfold maxSize; lia).
      apply Z.eqb_neq in H429, H401, H403.
      answer_policy P ltac:(direct_prefix Ht Hgt Hr Hn H429 H401 H403).
Qed.

Lemma predict_never_throws_witness :
  fst (predictPaw offline_web sample_config text_file []) =
    Returned (error_result "Please upload a valid image file")
  /\ fst (predictPaw offline_web sample_config huge_file []) =
       Returned (error_result "Image size should be less than 5MB")
  /\ fst (predictPaw unreadable_web sample_config png_file []) =
       Returned (error_result "An unexpected error occurred")
  /\ fst (predictPaw offline_web sample_config png_file []) =
       Returned (error_result "Failed to fetch")
  /\ fst (predictPaw (silent (Delivered quota_page) (Some png_dataURL))
            sample_config png_file []) =
       Returned (error_result "Too many requests. Please try again later.")
  /\ fst (predictPaw (silent (Delivered forbidden_response) (Some png_dataURL))
            sample_config png_file []) =
       Returned (error_result "Authentication failed. Please check your API key.")
  /\ fst (predictFromBase64 offline_web png_dataURL []) =
       Returned (error_result "Failed to fetch")
  /\ fst (predictFromBase64 (silent (Delivered predictions_response) None) png_dataURL []) =
       Returned (JObj [("predictions", JArr [golden])])
  /\ fst (predictFromBase64 (silent (Delivered html_error_page) None) png_dataURL []) =
       Returned (error_result "Unknown error")
  /\ fst (predictFromBase64 (silent (Delivered null_failure) None) png_dataURL []) =
       Returned (error_result "Cannot read properties of null (reading 'error')")
  /\ fst (predictPaw (silent (Delivered bare_response) (Some png_dataURL))
            sample_config png_file []) =
       Returned (error_result "HTTP error! status: 503")
  /\ fst (predictPaw (silent (Delivered boom_response) (Some png_dataURL))
            sample_config png_file []) =
       Returned (error_result "boom")
  /\ fst (predictFromBase64 joining_web png_dataURL []) = Returned (error_result "").
Proof.
  assert (Hsmall : blob_size png_file <= 5 * 1024 * 1024) by (vm_compute; discriminate).
  assert (Hbig : blob_size huge_file > 5 * 1024 * 1024) by reflexivity.
  pose proof (fun P => proj1 (proj2 (proj2 (predict_never_throws P sample_config))))
    as Hdirect.
  pose proof (fun P => proj1 (proj2 (proj2 (proj2 (predict_never_throws P sample_config)))))
    as Hoff.
  pose proof (fun P => proj2 (proj2 (proj2 (proj2 (predict_never_throws P sample_config)))))
    as Hanswer.
  split; [|split; [|split; [|split; [|split; [|split; [|split; [|split; [|split; [|split;
    [|split; [|split]]]]]]]]]]].
  - apply (proj1 (Hdirect offline_web text_file [])). reflexivity.
  - apply (proj1 (proj2 (Hdirect offline_web huge_file []))); [reflexivity | exact Hbig].
  - apply (proj1 (proj2 (proj2 (Hdirect unreadable_web png_file [])) eq_refl Hsmall)).
    reflexivity.
  - apply (proj1 (proj2 (proj2 (proj2 (Hdirect offline_web png_file [])) eq_refl Hsmall)
                    png_dataURL eq_refl) "Failed to fetch").
    reflexivity.
  - apply (proj1 (proj2 (proj2 (proj2 (proj2 (Hdirect
             (silent (Delivered quota_page) (Some png_dataURL)) png_file []))
             eq_refl Hsmall) png_dataURL eq_refl) quota_page eq_refl)).
    reflexivity.
  - apply (proj2 (proj2 (proj2 (proj2 (proj2 (Hdirect
             (silent (Delivered forbidden_response) (Some png_dataURL)) png_file []))
             eq_refl Hsmall) png_dataURL eq_refl) forbidden_response eq_refl)).
    right. reflexivity.
  - apply (Hoff offline_web png_dataURL [] "Failed to fetch"). reflexivity.
  - apply (proj1 (proj1 (Hanswer (silent (Delivered predictions_response) None)
                           _ predictions_response
                           (or_introl (ex_intro _ png_dataURL
                                         (ex_intro _ [] (conj eq_refl eq_refl)))))
                    eq_refl)).
    reflexivity.
  - apply (proj1 (proj2 (Hanswer (silent (Delivered html_error_page) None)
                           _ html_error_page
                           (or_introl (ex_intro _ png_dataURL
                                         (ex_intro _ [] (conj eq_refl eq_refl)))))
                    eq_refl) "Unexpected token < in JSON at position 0").
    reflexivity.
  - apply (proj1 (proj2 (proj2 (Hanswer (silent (Delivered null_failure) None)
                                  _ null_failure
                                  (or_introl (ex_intro _ png_dataURL
                                                (ex_intro _ [] (conj eq_refl eq_refl)))))
                           eq_refl))).
    reflexivity.
  - destruct (Hanswer (silent (Delivered bare_response) (Some png_dataURL))
                (fst (predictPaw (silent (Delivered bare_response) (Some png_dataURL))
                        sample_config png_file [])) bare_response) as [_ Hbad].
    { right. exists png_file, [], png_dataURL.
      split; [reflexivity|]. split; [exact Hsmall|]. split; [reflexivity|].
      split; [reflexivity|]. split; [discriminate|]. split; [discriminate|].
      split; [discriminate | reflexivity]. }
    apply (proj1 (proj2 (proj2 (Hbad eq_refl))) (JObj []));
      first [reflexivity | discriminate].
  - destruct (Hanswer (silent (Delivered boom_response) (Some png_dataURL))
                (fst (predictPaw (silent (Delivered boom_response) (Some png_dataURL))
                        sample_config png_file [])) boom_response) as [_ Hbad].
    { right. exists png_file, [], png_dataURL.
      split; [reflexivity|]. split; [exact Hsmall|]. split; [reflexivity|].
      split; [reflexivity|]. split; [discriminate|]. split; [discriminate|].
      split; [discriminate | reflexivity]. }
    apply (proj1 (proj2 (proj2 (proj2 (Hbad eq_refl)))) (error_result "boom") "boom");
      first [reflexivity | discriminate].
  - apply (proj1 (proj2 (proj2 (proj2 (proj2 (proj2 (Hanswer joining_web
             _ empty_error_response
             (or_introl (ex_intro _ png_dataURL (ex_intro _ [] (conj eq_refl eq_refl)))))
             eq_refl)))) (JObj [("error", JArr [])]) (JArr [])
             eq_refl eq_refl eq_refl ltac:(discriminate)) "").
    reflexivity.
Defined.

(** ** What a non-2xx response turns into *)

(** Relayed mode, any non-2xx status. *)
Lemma relayed_not_ok (P : Platform) (image : string) (l : log) (r : Response) :
  net P l (predict_request "/api/predict"
             [("Content-Type", "application/json")] image) = Delivered r ->
  ok r = false ->
  (forall m, body_json r = Rejected m ->
     fst (predictFromBase64 P image l) = Returned (error_result "Unknown error"))
  /\ (forall v s, body_json r = Delivered v -> field v "error" = Some (JStr s) -> s <> "" ->
        fst (predictFromBase64 P image l) = Returned (error_result s))
  /\ (forall v, body_json r = Delivered v -> v <> JNull ->
        truthy_val (field v "error") = false ->
        fst (predictFromBase64 P image l) =
          Returned (error_result ("HTTP error! status: " ++ string_of_Z (status r)))).
Proof.
  intros Hn Hok. repeat split.
  - intros m Hb. run_keep. rewrite Hn. go. rewrite Hok. go. rewrite Hb. reflexivity.
  - intros v s Hb Hf Hs. run_keep. rewrite Hn. go. rewrite Hok. go. rewrite Hb. go.
    rewrite get_prop_field by (eapply field_string_not_null; eassumption).
    rewrite Hf. cbn [truthy]. rewrite (str_truthy_nonempty s Hs). reflexivity.
  - intros v Hb Hv Hf. run_keep. rewrite Hn. go. rewrite Hok. go. rewrite Hb. go.
    rewrite get_prop_field by assumption.
    destruct (field v "error") as [e|]; [|reflexivity].
    cbn [truthy_val] in Hf. rewrite Hf. reflexivity.
Qed.

(** Direct mode, a non-2xx status that is none of 429, 401, 403. *)
Lemma direct_not_ok (P : Platform) (cfg : Config) (file : File) (l : log)
    (d : string) (r : Response) :
  startsWith (blob_type file) "image/" = true ->
  blob_size file <= 5 * 1024 * 1024 ->
  file_reader P l file = Some d ->
  net P (l ++ [EvReadAsDataURL file])%list
    (predict_request (template (API_URL cfg) ++ "/predict")
       [("Content-Type", "application/json");
        ("X-API-Key", template (API_KEY cfg))] d) = Delivered r ->
  ok r = false ->
  status r <> 429 -> status r <> 401 -> status r <> 403 ->
  (forall m, body_json r = Rejected m ->
     fst (predictPaw P cfg file l) = Returned (error_result "Unknown error"))
  /\ (forall v s, body_json r = Delivered v -> field v "error" = Some (JStr s) -> s <> "" ->
        fst (predictPaw P cfg file l) = Returned (error_result s))
  /\ (forall v, body_json r = Delivered v -> v <> JNull ->
        truthy_val (field v "error") = false ->
        fst (predictPaw P cfg file l) =
          Returned (error_result ("HTTP error! status: " ++ string_of_Z (status r)))).
Proof.
  intros Ht Hsz Hr Hn Hok H429 H401 H403.
  assert (Hgt : (blob_size file >? maxSize) = false)
    by (rewrite Z.gtb_ltb; apply Z.ltb_ge; unfold maxSize; lia).
  apply Z.eqb_neq in H429, H401, H403.
  repeat split.
  - intros m Hb. run_keep. rewrite Ht, Hgt. go. rewrite Hr. go. rewrite Hn. go.
    rewrite H429, H401, H403, Hok. go. rewrite Hb. reflexivity.
  - intros v s Hb Hf Hs. run_keep. rewrite Ht, Hgt. go. rewrite Hr. go. rewrite Hn. go.
    rewrite H429, H401, H403, Hok. go. rewrite Hb. go.
    rewrite get_prop_field by (eapply field_string_not_null; eassumption).
    rewrite Hf. cbn [truthy]. rewrite (str_truthy_nonempty s Hs). reflexivity.
  - intros v Hb Hv Hf. run_keep. rewrite Ht, Hgt. go. rewrite Hr. go. rewrite Hn. go.
    rewrite H429, H401, H403, Hok. go. rewrite Hb. go.
    rewrite get_prop_field by assumption.
    destruct (field v "error") as [e|]; [|reflexivity].
    cbn [truthy_val] in Hf. rewrite Hf. reflexivity.
Qed.

(** ** Status 429 *)

(** C1, as stated, fails in relayed mode: on status 429 [predictFromBase64]
    reports the body's own [error] text, not the rate-limit message. *)
Lemma relayed_429_counterexample :
  status quota_response = 429
  /\ fst (predictFromBase64 (silent (Delivered quota_response) None) png_dataURL []) =
       Returned (error_result "Rate limit exceeded")
  /\ error_result "Rate limit exceeded" <>
       error_result "Too many requests. Please try again later.".
Proof.
  split; [reflexivity|]. split; [reflexivity|]. discriminate.
Qed.

(** C1, amended: in direct mode a submitted image answered with status 429
    gives exactly the rate-limit message, whatever the body holds; in relayed
    mode status 429 is handled as any other non-2xx status: the body's
    non-empty [error] string, [Unknown error] for a body that is not JSON, and
    the generic message with the code 429 for a body without a truthy
    [error]. *)
Theorem too_many_requests (P : Platform) (cfg : Config) :
  (forall (file : File) (l : log) (d : string) (r : Response),
      startsWith (blob_type file) "image/" = true ->
      blob_size file <= 5 * 1024 * 1024 ->
      file_reader P l file = Some d ->
      net P (l ++ [EvReadAsDataURL file])%list
        (predict_request (template (API_URL cfg) ++ "/predict")
           [("Content-Type", "application/json");
            ("X-API-Key", template (API_KEY cfg))] d) = Delivered r ->
      status r = 429 ->
      fst (predictPaw P cfg file l) =
        Returned (error_result "Too many requests. Please try again later."))
  /\ (forall (image : string) (l : log) (r : Response),
        net P l (predict_request "/api/predict"
                   [("Content-Type", "application/json")] image) = Delivered r ->
        status r = 429 ->
        (forall m, body_json r = Rejected m ->
           fst (predictFromBase64 P image l) = Returned (error_result "Unknown error"))
        /\ (forall v s, body_json r = Delivered v ->
              field v "error" = Some (JStr s) -> s <> "" ->
              fst (predictFromBase64 P image l) = Returned (error_result s))
        /\ (forall v, body_json r = Delivered v -> v <> JNull ->
              truthy_val (field v "error") = false ->
              fst (predictFromBase64 P image l) =
                Returned (error_result "HTTP error! status: 429"))).
Proof.
  split.
  - intros file l d r Ht Hsz Hr Hn Hst.
    assert (Hgt : (blob_size file >? maxSize) = false)
      by (rewrite Z.gtb_ltb; apply Z.ltb_ge; unfold maxSize; lia).
    run_keep. rewrite Ht, Hgt. go. rewrite Hr. go. rewrite Hn. go.
    rewrite Hst. reflexivity.
  - intros image l r Hn Hst.
    assert (Hok : ok r = false) by (unfold ok; rewrite Hst; reflexivity).
    destruct (relayed_not_ok P image l r Hn Hok) as [Hbad [Hstr Hgen]].
    repeat split; [exact Hbad | exact Hstr |].
    intros v Hb Hv Hf. rewrite (Hgen v Hb Hv Hf), Hst. reflexivity.
Qed.

Lemma too_many_requests_witness :
  fst (predictPaw (silent (Delivered quota_response) (Some png_dataURL))
         sample_config png_file []) =
    Returned (error_result "Too many requests. Please try again later.")
  /\ fst (predictFromBase64 (silent (Delivered quota_page) None) png_dataURL []) =
       Returned (error_result "Unknown error")
  /\ fst (predictFromBase64 (silent (Delivered quota_response) None) png_dataURL []) =
       Returned (error_result "Rate limit exceeded")
  /\ fst (predictFromBase64 (silent (Delivered quota_bare) None) png_dataURL []) =
       Returned (error_result "HTTP error! status: 429").
Proof.
  split; [|split; [|split]].
  - apply (proj1 (too_many_requests (silent (Delivered quota_response) (Some png_dataURL))
                    sample_config) png_file [] png_dataURL quota_response);
      first [reflexivity | vm_compute; discriminate].
  - apply (proj1 (proj2 (too_many_requests (silent (Delivered quota_page) None)
                           sample_config) png_dataURL [] quota_page eq_refl eq_refl)
             "Unexpected token < in JSON at position 0").
    reflexivity.
  - apply (proj1 (proj2 (proj2 (too_many_requests (silent (Delivered quota_response) None)
                                  sample_config) png_dataURL [] quota_response
                                  eq_refl eq_refl))
             (error_result "Rate limit exceeded") "Rate limit exceeded");
      first [reflexivity | discriminate].
  - apply (proj2 (proj2 (proj2 (too_many_requests (silent (Delivered quota_bare) None)
                                  sample_config) png_dataURL [] quota_bare
                                  eq_refl eq_refl))
             (JObj []));
      first [reflexivity | discriminate].
Defined.

(** ** Other non-2xx statuses *)

(** C9, as stated, fails on a non-2xx response whose body is not JSON: there
    is no [error] field to read, yet the message is [Unknown error] and not
    the generic one carrying the status code. *)
Lemma non_ok_unparseable_counterexample :
  ok html_error_page = false
  /\ body_json html_error_page = Rejected "Unexpected token < in JSON at position 0"
  /\ fst (predictFromBase64 (silent (Delivered html_error_page) None) png_dataURL []) =
       Returned (error_result "Unknown error")
  /\ fst (predictPaw (silent (Delivered html_error_page) (Some png_dataURL))
            sample_config png_file []) =
       Returned (error_result "Unknown error")
  /\ error_result "Unknown error" <>
       error_result ("HTTP error! status: " ++ string_of_Z (status html_error_page)).
Proof.
  repeat split; try reflexivity. vm_compute. discriminate.
Qed.

(** C9, amended: for a non-2xx response (in direct mode one that is none of
    429, 401, 403) the message is [Unknown error] when the body is not JSON,
    the body's [error] field when that is a non-empty string, and
    [HTTP error! status: <code>] when the body is JSON other than [null]
    whose [error] is absent or falsy. *)
Theorem non_ok_message (P : Platform) (cfg : Config) :
  (forall (file : File) (l : log) (d : string) (r : Response),
      startsWith (blob_type file) "image/" = true ->
      blob_size file <= 5 * 1024 * 1024 ->
      file_reader P l file = Some d ->
      net P (l ++ [EvReadAsDataURL file])%list
        (predict_request (template (API_URL cfg) ++ "/predict")
           [("Content-Type", "application/json");
            ("X-API-Key", template (API_KEY cfg))] d) = Delivered r ->
      ok r = false ->
      status r <> 429 -> status r <> 401 -> status r <> 403 ->
      (forall m, body_json r = Rejected m ->
         fst (predictPaw P cfg file l) = Returned (error_result "Unknown error"))
      /\ (forall v s, body_json r = Delivered v ->
            field v "error" = Some (JStr s) -> s <> "" ->
            fst (predictPaw P cfg file l) = Returned (error_result s))
      /\ (forall v, body_json r = Delivered v -> v <> JNull ->
            truthy_val (field v "error") = false ->
            fst (predictPaw P cfg file l) =
              Returned (error_result ("HTTP error! status: " ++ string_of_Z (status r)))))
  /\ (forall (image : string) (l : log) (r : Response),
        net P l (predict_request "/api/predict"
                   [("Content-Type", "application/json")] image) = Delivered r ->
        ok r = false ->
        (forall m, body_json r = Rejected m ->
           fst (predictFromBase64 P image l) = Returned (error_result "Unknown error"))
        /\ (forall v s, body_json r = Delivered v ->
              field v "error" = Some (JStr s) -> s <> "" ->
              fst (predictFromBase64 P image l) = Returned (error_result s))
        /\ (forall v, body_json r = Delivered v -> v <> JNull ->
              truthy_val (field v "error") = false ->
              fst (predictFromBase64 P image l) =
                Returned (error_result ("HTTP error! status: " ++ string_of_Z (status r))))).
Proof.
  split.
  - intros file l d r. apply direct_not_ok.
  - intros image l r. apply relayed_not_ok.
Qed.

Lemma non_ok_message_witness :
  (fst (predictPaw (silent (Delivered html_error_page) (Some png_dataURL))
          sample_config png_file []) = Returned (error_result "Unknown error")
   /\ fst (predictPaw (silent (Delivered boom_response) (Some png_dataURL))
             sample_config png_file []) = Returned (error_result "boom")
   /\ fst (predictPaw (silent (Delivered bare_response) (Some png_dataURL))
             sample_config png_file []) = Returned (error_result "HTTP error! status: 503"))
  /\ (fst (predictFromBase64 (silent (Delivered html_error_page) None) png_dataURL []) =
        Returned (error_result "Unknown error")
      /\ fst (predictFromBase64 (silent (Delivered boom_response) None) png_dataURL []) =
           Returned (error_result "boom")
      /\ fst (predictFromBase64 (silent (Delivered bare_response) None) png_dataURL []) =
           Returned (error_result "HTTP error! status: 503")).
Proof.
  assert (Hsize : blob_size png_file <= 5 * 1024 * 1024) by (vm_compute; discriminate).
  split; [split; [|split]|split; [|split]].
  - apply (proj1 (proj1 (non_ok_message (silent (Delivered html_error_page) (Some png_dataURL))
                           sample_config)
                    png_file [] png_dataURL html_error_page eq_refl Hsize eq_refl eq_refl
                    eq_refl ltac:(discriminate) ltac:(discriminate) ltac:(discriminate))
             "Unexpected token < in JSON at position 0").
    reflexivity.
  - apply (proj1 (proj2 (proj1 (non_ok_message
                                  (silent (Delivered boom_response) (Some png_dataURL))
                                  sample_config)
                           png_file [] png_dataURL boom_response eq_refl Hsize eq_refl eq_refl
                           eq_refl ltac:(discriminate) ltac:(discriminate) ltac:(discriminate)))
             (error_result "boom") "boom");
      first [reflexivity | discriminate].
  - apply (proj2 (proj2 (proj1 (non_ok_message
                                  (silent (Delivered bare_response) (Some png_dataURL))
                                  sample_config)
                           png_file [] png_dataURL bare_response eq_refl Hsize eq_refl eq_refl
                           eq_refl ltac:(discriminate) ltac:(discriminate) ltac:(discriminate)))
             (JObj []));
      first [reflexivity | discriminate].
  - apply (proj1 (proj2 (non_ok_message (silent (Delivered html_error_page) None)
                           sample_config)
                    png_dataURL [] html_error_page eq_refl eq_refl)
             "Unexpected token < in JSON at position 0").
    reflexivity.
  - apply (proj1 (proj2 (proj2 (non_ok_message (silent (Delivered boom_response) None)
                                  sample_config)
                           png_dataURL [] boom_response eq_refl eq_refl))
             (error_result "boom") "boom");
      first [reflexivity | discriminate].
  - apply (proj2 (proj2 (proj2 (non_ok_message (silent (Delivered bare_response) None)
                                  sample_config)
                           png_dataURL [] bare_response eq_refl eq_refl))
             (JObj []));
      first [reflexivity | discriminate].
Defined.

(** ** The page's predict handler *)

(** On a 2xx response the relayed client hands back the parsed body as it is. *)
Lemma relayed_ok (P : Platform) (image : string) (l : log) (r : Response) (v : json) :
  net P l (predict_request "/api/predict"
             [("Content-Type", "application/json")] image) = Delivered r ->
  ok r = true ->
  body_json r = Delivered v ->
  predictFromBase64 P image l =
    (Returned v,
     (l ++ [EvFetch (predict_request "/api/predict"
                       [("Content-Type", "application/json")] image)])%list).
Proof.
  intros Hn Hok Hb. run_keep. rewrite Hn. go. rewrite Hok. go. rewrite Hb. reflexivity.
Qed.

Lemma relayed_returns (P : Platform) (image : string) (l : log) :
  exists v l', predictFromBase64 P image l = (Returned v, l').
Proof.
  run. crunch; do 2 eexists; reflexivity.
Qed.

Ltac run_page :=
  cbv [handlePredict startCamera stopCamera capturePhoto resetState
       streamAttachEffect unmount acquire_camera track_stop
       setSelectedImage setResult setLoading setError setImageSource
       setUnsplashAttribution setCameraActive setStream set_page
       get_videoRef get_canvasRef set_videoRef set_canvasRef lift
       try_catch try_finally bind ret throw emit console_error console_log];
  cbn [fst snd negb orb andb page videoRef canvasRef live events
       selectedImage result loading error imageSource unsplashAttribution
       cameraActive stream].

Ltac go_page :=
  cbn [fst snd negb orb andb page videoRef canvasRef live events
       selectedImage result loading error imageSource unsplashAttribution
       cameraActive stream truthy_val].



(** [handlePredict], run with nothing in between, is its two segments back
    to back. *)
Lemma handlePredict_segments (P : Platform) (st : PageState) (w : World) :
  handlePredict P st w =
    (sent <- handlePredict_begin st ;;
     match sent with
     | Some image => handlePredict_settle P image
     | None => ret tt
     end) w.
Proof.
  unfold handlePredict, handlePredict_begin, handlePredict_settle.
  destruct (selectedImage st) as [image|]; [destruct (str_truthy image)|]; reflexivity.
Qed.



(** ** Fetching a URL and encoding it *)

(** [urlToBase64] never looks at the status: whatever body arrives is encoded. *)
Lemma urlToBase64_ignores_status (P : Platform) (url : string) (l : log)
    (r : Response) (b : Blob) (d : string) :
  net P l (mkRequest url "GET" [] None) = Delivered r ->
  body_blob r = Delivered b ->
  file_reader P (l ++ [EvFetch (mkRequest url "GET" [] None)])%list b = Some d ->
  urlToBase64 P url l =
    (Returned d,
     (l ++ [EvFetch (mkRequest url "GET" [] None); EvReadAsDataURL b])%list).
Proof.
  intros Hn Hb Hr. run_keep. rewrite Hn. go. rewrite Hb. go. rewrite Hr.
  flatten_log. reflexivity.
Qed.

(** A transport failure does reject. *)
Lemma urlToBase64_transport_failure (P : Platform) (url : string) (l : log) (m : string) :
  net P l (mkRequest url "GET" [] None) = Rejected m ->
  fst (urlToBase64 P url l) = Threw (ErrorObj m).
Proof.
  intros Hn. run_keep. rewrite Hn. reflexivity.
Qed.

(** C3, on the code: a GET answered 404 with an HTML page does not make
    [urlToBase64] fail; it returns the error page as a data URL. *)
Theorem urlToBase64_encodes_error_page :
  ok not_found = false
  /\ urlToBase64 missing_image_web "https://images.example/missing.jpg" [] =
       (Returned "data:text/html;base64,PGgxPk5vdCBGb3VuZDwvaDE+",
        [EvFetch (mkRequest "https://images.example/missing.jpg" "GET" [] None);
         EvReadAsDataURL not_found_page]).
Proof.
  split; reflexivity.
Qed.

(** ** The camera session *)

(** Stopping the tracks of a stream one by one leaves live exactly the
    tracks that were live and are not of that stream, and touches neither
    the React state nor the refs. *)
Lemma forEach_stop (s : MediaStream) :
  forall w : World,
    exists w',
      forEach s stop_and_log w = (Returned tt, w')
      /\ page w' = page w
      /\ videoRef w' = videoRef w
      /\ canvasRef w' = canvasRef w
      /\ forall t, In t (live w') <-> In t (live w) /\ ~ In t s.
Proof.
  induction s as [|track rest IH]; intros w.
  - exists w. repeat split; try tauto.
  - cbn [forEach]. unfold bind at 1.
    unfold stop_and_log at 1. run_page.
    match goal with
    | |- context [forEach rest stop_and_log ?w1] => destruct (IH w1) as [w' [Hrun [Hp [Hv [Hc Hl]]]]]
    end.
    rewrite Hrun. exists w'. cbn [page videoRef canvasRef live] in *.
    split; [reflexivity|]. split; [assumption|]. split; [assumption|].
    split; [assumption|].
    intros t. rewrite Hl, filter_In, negb_true_iff, Nat.eqb_neq. cbn [In].
    split.
    + intros [[Hin Hneq] Hrest]. split; [exact Hin|].
      intros [Heq | Hin']; [congruence | contradiction].
    + intros [Hin Hnot]. repeat split.
      * exact Hin.
      * intros ->. apply Hnot. left. reflexivity.
      * intros Hin'. apply Hnot. right. exact Hin'.
Qed.

(** Explicit cancellation: after [stopCamera] no track of the session's
    stream is live, the stream is dropped and the camera view closed; the
    selected image is left as it was. *)
Lemma stopCamera_stops_tracks (st : PageState) (w : World) (s : MediaStream) :
  stream st = Some s ->
  exists w',
    stopCamera st w = (Returned tt, w')
    /\ (forall t, In t s -> ~ In t (live w'))
    /\ stream (page w') = None
    /\ cameraActive (page w') = false
    /\ selectedImage (page w') = selectedImage (page w).
Proof.
  intros Hs. unfold stopCamera. rewrite Hs.
  fold stop_and_log.
  destruct (forEach_stop s w) as [w1 [Hrun [Hp [Hv [Hc Hl]]]]].
  unfold bind at 1. unfold bind at 1. rewrite Hrun.
  run_page. destruct (videoRef w1); run_page;
    (eexists; split; [reflexivity|]); cbn [live page stream cameraActive selectedImage];
    (split; [intros t Hin Hlive; apply Hl in Hlive; tauto
            | repeat split; try reflexivity; rewrite Hp; reflexivity]).
Qed.

(** Successful capture: with both refs attached and a 2d context,
    [capturePhoto] keeps the frame and stops the stream's tracks. *)
Lemma capturePhoto_stops_tracks (st : PageState) (w : World) (s : MediaStream)
    (video : Video) (canvas : Canvas) :
  stream st = Some s ->
  videoRef w = Some video ->
  canvasRef w = Some canvas ->
  has_context2d canvas = true ->
  exists w',
    capturePhoto st w = (Returned tt, w')
    /\ (forall t, In t s -> ~ In t (live w'))
    /\ selectedImage (page w') = Some (jpeg_dataURL canvas)
    /\ cameraActive (page w') = false.
Proof.
  intros Hs Hv Hc Hctx. unfold capturePhoto.
  cbv [bind get_videoRef get_canvasRef]. rewrite Hv, Hc. cbv [set_canvasRef].
  rewrite Hctx. cbv [setSelectedImage setImageSource set_page].
  cbn [page videoRef canvasRef live events].
  match goal with
  | |- context [stopCamera st ?w1] =>
      destruct (stopCamera_stops_tracks st w1 s Hs) as [w' [Hrun [Hl [Hst [Hcam Hsel]]]]]
  end.
  rewrite Hrun. exists w'. repeat split; try assumption.
Qed.

(** The effect of [Home] never hands React a cleanup. *)
Lemma Home_effects_no_cleanup (st : PageState) (w : World) :
  fst (run_effects Home_effects st w) = Returned [].
Proof.
  cbn [run_effects Home_effects]. run_page.
  destruct (cameraActive st); [destruct (stream st); [destruct (videoRef w) as [video|];
    [destruct (play_rejects video)|]|]|]; reflexivity.
Qed.

(** Between commit and teardown no track is ever stopped. *)
Lemma teardown_stops_nothing (st : PageState) (w : World) :
  live (snd (mounted_then_unmounted st w)) = live w.
Proof.
  unfold mounted_then_unmounted. cbn [run_effects Home_effects]. run_page.
  destruct (cameraActive st); [destruct (stream st); [destruct (videoRef w) as [video|];
    [destruct (play_rejects video)|]|]|]; reflexivity.
Qed.

(** C4, on the code: in an active camera session (stream attached to the
    video element, its track live), tearing the component down runs the
    cleanups of its effects, of which there are none, and the track stays
    live. *)
Theorem teardown_leaves_track_live :
  cameraActive (page (snd camera_session)) = true
  /\ stream (page (snd camera_session)) = Some [1%nat]
  /\ videoRef (snd camera_session) = Some (mkVideo (Some [1%nat]) 1280 720 false)
  /\ live (snd camera_session) = [1%nat]
  /\ fst camera_session = Returned []
  /\ live (snd (mounted_then_unmounted (page camera_mounted) camera_mounted)) = [1%nat].
Proof.
  repeat split; reflexivity.
Qed.

(** ** The predict relay *)

Lemma reply_200 (body : json) (l : log) :
  NextResponse_json body 200 l = (Returned (mkReply 200 body), l).
Proof. reflexivity. Qed.

Lemma reply_400 (body : json) (l : log) :
  NextResponse_json body 400 l = (Returned (mkReply 400 body), l).
Proof. reflexivity. Qed.

Lemma reply_500 (body : json) (l : log) :
  NextResponse_json body 500 l = (Returned (mkReply 500 body), l).
Proof. reflexivity. Qed.

Lemma reply_502 (body : json) (l : log) :
  NextResponse_json body 502 l = (Returned (mkReply 502 body), l).
Proof. reflexivity. Qed.

(** A non-2xx status the reply can carry: within 300..599 and not 304. *)
Lemma NextResponse_json_pass (body : json) (st : Z) :
  300 <= st <= 599 -> st <> 304 ->
  forall l : log, NextResponse_json body st l = (Returned (mkReply st body), l).
Proof.
  intros Hr Hn l. unfold NextResponse_json, null_body_status.
  replace ((200 <=? st) && (st <=? 599)) with true
    by (symmetry; apply andb_true_iff; split; apply Z.leb_le; lia).
  cbn [negb].
  replace (st =? 101) with false by (symmetry; apply Z.eqb_neq; lia).
  replace (st =? 103) with false by (symmetry; apply Z.eqb_neq; lia).
  replace (st =? 204) with false by (symmetry; apply Z.eqb_neq; lia).
  replace (st =? 205) with false by (symmetry; apply Z.eqb_neq; lia).
  replace (st =? 304) with false by (symmetry; apply Z.eqb_neq; lia).
  reflexivity.
Qed.

Ltac run_relay :=
  cbv [POST GET try_catch try_finally bind ret throw emit fetch response_json
       of_delivered console_error console_log ToString request_json];
  cbn [fst snd negb orb andb].

Ltac reply :=
  rewrite ?reply_200, ?reply_400, ?reply_500, ?reply_502; go.

(** C10: while the API URL or the API key is unset (or empty) the relay
    answers 500 before it reads the request body, whatever that body is; a
    reply with status 400 is only ever produced with both configured. *)
Theorem config_check_precedes_body (P : Platform) (cfg : Config)
    (request : RelayRequest) (l : log) :
  (env_truthy (API_URL cfg) = false \/ env_truthy (API_KEY cfg) = false ->
     POST P cfg request l =
       (Returned (mkReply 500 (error_result "Server configuration error")),
        (l ++ [EvConsoleError "API configuration missing"])%list))
  /\ (forall (rep : Reply) (l' : log),
        POST P cfg request l = (Returned rep, l') ->
        reply_status rep = 400 ->
        env_truthy (API_URL cfg) = true /\ env_truthy (API_KEY cfg) = true).
Proof.
  assert (Hmiss : env_truthy (API_URL cfg) = false \/ env_truthy (API_KEY cfg) = false ->
     POST P cfg request l =
       (Returned (mkReply 500 (error_result "Server configuration error")),
        (l ++ [EvConsoleError "API configuration missing"])%list)).
  { intros Hcfg. run_relay.
    destruct Hcfg as [H | H]; rewrite H; [|rewrite orb_true_r]; go; reply; reflexivity. }
  split; [exact Hmiss|].
  intros rep l' Hrun Hst.
  destruct (env_truthy (API_URL cfg)) eqn:Hu.
  - destruct (env_truthy (API_KEY cfg)) eqn:Hk; [split; reflexivity|].
    rewrite Hmiss in Hrun by (right; reflexivity).
    injection Hrun as <- _. discriminate.
  - rewrite Hmiss in Hrun by (left; reflexivity).
    injection Hrun as <- _. discriminate.
Qed.

Lemma config_check_precedes_body_witness :
  POST (silent (Rejected "fetch failed") None) empty_config no_image_request [] =
    (Returned (mkReply 500 (error_result "Server configuration error")),
     [EvConsoleError "API configuration missing"])
  /\ (env_truthy (API_URL sample_config) = true
      /\ env_truthy (API_KEY sample_config) = true).
Proof.
  split.
  - apply (proj1 (config_check_precedes_body (silent (Rejected "fetch failed") None)
                    empty_config no_image_request [])).
    left. reflexivity.
  - apply (proj2 (config_check_precedes_body (silent (Rejected "fetch failed") None)
                    sample_config no_image_request [])
             (mkReply 400 (error_result "No image provided")) [EvRequestJson]);
      reflexivity.
Defined.

(** C6, as stated, fails on a failing upstream answer: the relay passes the
    status through but answers with a body of its own making.  An upstream
    HTML error page comes back as [{ error: Unknown error }], and of an
    upstream JSON body only the [error] text is kept. *)
Lemma relay_failure_body_counterexample :
  (body_json html_error_page = Rejected "Unexpected token < in JSON at position 0"
   /\ fst (POST (silent (Delivered html_error_page) None) sample_config image_request []) =
        Returned (mkReply 500 (error_result "Unknown error")))
  /\ (body_json verbose_failure =
        Delivered (JObj [("error", JStr "boom"); ("trace", JStr "at predict")])
      /\ fst (POST (silent (Delivered verbose_failure) None) sample_config image_request []) =
           Returned (mkReply 500 (JObj [("error", JStr "boom")]))
      /\ JObj [("error", JStr "boom")] <>
           JObj [("error", JStr "boom"); ("trace", JStr "at predict")]).
Proof.
  repeat split; try reflexivity. discriminate.
Qed.

Ltac up_to_fetch Hu Hk Hbody Himg Ht :=
  run_relay; rewrite Hu, Hk; go; rewrite Hbody; go;
  rewrite get_prop_field by assumption; rewrite Himg; cbn [truthy_val];
  rewrite Ht; go; cbv [obj_of_fields flat_map]; cbn [fst snd app];
  match goal with
  | |- context [mkRequest (template (API_URL ?cfg) ++ "/predict") "POST" _
                  (Some (JObj [("image", ?image)]))] => fold (forwarded cfg image)
  end.

Lemma json_null_cases (v : json) : v = JNull \/ v <> JNull.
Proof. destruct v; first [left; reflexivity | right; discriminate]. Qed.

(** A status the reply cannot carry with a body makes [NextResponse.json]
    throw. *)
Lemma NextResponse_json_refuses (body : json) (st : Z) (l : log) :
  st < 200 \/ 599 < st \/ st = 304 ->
  exists m, NextResponse_json body st l = (Threw (ErrorObj m), l).
Proof.
  intros Hst. unfold NextResponse_json.
  destruct ((200 <=? st) && (st <=? 599)) eqn:Hr; cbn [negb];
    [|eexists; reflexivity].
  apply andb_true_iff in Hr. destruct Hr as [H1 H2]. apply Z.leb_le in H1, H2.
  assert (H304 : st = 304) by lia. subst st. eexists. reflexivity.
Qed.

Ltac crashes_500 :=
  go; reply; reflexivity.

(** C6, amended: the relay answers 500 when the API URL or key is missing;
    with both present it answers 400 when the parsed body has no truthy
    [image]; otherwise it posts [{ image }] upstream with the key in
    [X-API-Key] and answers 200 with the upstream JSON body on a 2xx answer,
    and on a non-2xx answer whose status a reply can carry with a body
    (300..599 other than 304) the upstream status with the body
    [{ error: e }], [e] being the upstream body's truthy [error], or
    [Unknown error] for a body that is not JSON, or [API error: <status>]
    for a body other than [null] without a truthy [error].  Everything else
    is answered 500 [Internal server error]: a request body that is not
    JSON or is [null], an upstream request that fails in transport, a 2xx
    answer that is not JSON, a non-2xx answer whose body is [null], and a
    non-2xx answer with status 304 or outside 300..599. *)
Theorem predict_relay (P : Platform) (cfg : Config) (request : RelayRequest) (l : log) :
  (env_truthy (API_URL cfg) = false \/ env_truthy (API_KEY cfg) = false ->
     fst (POST P cfg request l) =
       Returned (mkReply 500 (error_result "Server configuration error")))
  /\ (env_truthy (API_URL cfg) = true -> env_truthy (API_KEY cfg) = true ->
      (forall m, request_body request = Rejected m ->
         fst (POST P cfg request l) =
           Returned (mkReply 500 (error_result "Internal server error")))
      /\ (request_body request = Delivered JNull ->
          fst (POST P cfg request l) =
            Returned (mkReply 500 (error_result "Internal server error")))
      /\ forall body : json,
        request_body request = Delivered body -> body <> JNull ->
        (truthy_val (field body "image") = false ->
           fst (POST P cfg request l) =
             Returned (mkReply 400 (error_result "No image provided")))
        /\ (forall image : json,
              field body "image" = Some image -> truthy image = true ->
              (exists rest,
                  snd (POST P cfg request l) =
                    (l ++ EvRequestJson :: EvFetch (forwarded cfg image) :: rest)%list)
              /\ (forall m,
                    net P (l ++ [EvRequestJson])%list (forwarded cfg image) = Rejected m ->
                    fst (POST P cfg request l) =
                      Returned (mkReply 500 (error_result "Internal server error")))
              /\ forall r : Response,
                   net P (l ++ [EvRequestJson])%list (forwarded cfg image) = Delivered r ->
                   (ok r = true ->
                    (forall data, body_json r = Delivered data ->
                       fst (POST P cfg request l) = Returned (mkReply 200 data))
                    /\ (forall m, body_json r = Rejected m ->
                          fst (POST P cfg request l) =
                            Returned (mkReply 500 (error_result "Internal server error"))))
                   /\ (ok r = false -> 300 <= status r <= 599 -> status r <> 304 ->
                       (forall m, body_json r = Rejected m ->
                          fst (POST P cfg request l) =
                            Returned (mkReply (status r) (error_result "Unknown error")))
                       /\ (forall v e, body_json r = Delivered v ->
                             field v "error" = Some e -> truthy e = true ->
                             fst (POST P cfg request l) =
                               Returned (mkReply (status r) (JObj [("error", e)])))
                       /\ (forall v, body_json r = Delivered v -> v <> JNull ->
                             truthy_val (field v "error") = false ->
                             fst (POST P cfg request l) =
                               Returned (mkReply (status r)
                                           (error_result
                                              ("API error: " ++ string_of_Z (status r))))))
                   /\ (ok r = false -> body_json r = Delivered JNull ->
                       fst (POST P cfg request l) =
                         Returned (mkReply 500 (error_result "Internal server error")))
                   /\ (ok r = false ->
                       status r < 300 \/ 599 < status r \/ status r = 304 ->
                       fst (POST P cfg request l) =
                         Returned (mkReply 500 (error_result "Internal server error"))))).
Proof.
  split.
  - intros Hcfg. run_relay.
    destruct Hcfg as [H | H]; rewrite H; [|rewrite orb_true_r]; go; reply; reflexivity.
  - intros Hu Hk. split; [|split].
    { intros m Hb. run_relay. rewrite Hu, Hk. go. rewrite Hb. crashes_500. }
    { intros Hb. run_relay. rewrite Hu, Hk. go. rewrite Hb. cbv [get_prop throw].
      crashes_500. }
    intros body Hbody Hnn. split.
    + intros Himg. run_relay. rewrite Hu, Hk. go. rewrite Hbody. go.
      rewrite get_prop_field by assumption. rewrite Himg. go. reply. reflexivity.
    + intros image Himg Ht. split; [|split].
      * up_to_fetch Hu Hk Hbody Himg Ht.
        cbv [get_prop NextResponse_json throw ret error_result]. crunch;
          flatten_log; eexists; reflexivity.
      * intros m Hn. up_to_fetch Hu Hk Hbody Himg Ht. rewrite Hn. crashes_500.
      * intros r Hn. split; [|split; [|split]].
        -- intros Hok. split.
           ++ intros data Hdata. up_to_fetch Hu Hk Hbody Himg Ht.
              rewrite Hn. go. rewrite Hok. go. rewrite Hdata. go. reply. reflexivity.
           ++ intros m Hdata. up_to_fetch Hu Hk Hbody Himg Ht.
              rewrite Hn. go. rewrite Hok. go. rewrite Hdata. crashes_500.
        -- intros Hok Hrange H304. repeat split.
           ++ intros m Hb. up_to_fetch Hu Hk Hbody Himg Ht.
              rewrite Hn. go. rewrite Hok. go. rewrite Hb. go.
              rewrite get_prop_field by discriminate. rewrite field_error_result.
              cbn [truthy_val truthy str_truthy].
              rewrite NextResponse_json_pass by assumption. reflexivity.
           ++ intros v e Hb Hf He.
              assert (Hv : v <> JNull) by (intros ->; discriminate).
              up_to_fetch Hu Hk Hbody Himg Ht.
              rewrite Hn. go. rewrite Hok. go. rewrite Hb. go.
              rewrite get_prop_field by assumption.
              rewrite Hf. cbn [truthy_val]. rewrite He.
              rewrite NextResponse_json_pass by assumption. reflexivity.
           ++ intros v Hb Hv Hf. up_to_fetch Hu Hk Hbody Himg Ht.
              rewrite Hn. go. rewrite Hok. go. rewrite Hb. go.
              rewrite get_prop_field by assumption. rewrite Hf.
              rewrite NextResponse_json_pass by assumption. reflexivity.
        -- intros Hok Hb. up_to_fetch Hu Hk Hbody Himg Ht.
           rewrite Hn. go. rewrite Hok. go. rewrite Hb. go.
           cbv [get_prop throw]. crashes_500.
        -- intros Hok Hst.
           assert (Hbad : status r < 200 \/ 599 < status r \/ status r = 304).
           { unfold ok in Hok. apply andb_false_iff in Hok.
             destruct Hok as [H | H]; [apply Z.leb_gt in H | apply Z.leb_gt in H]; lia. }
           up_to_fetch Hu Hk Hbody Himg Ht.
           rewrite Hn. go. rewrite Hok. go.
           destruct (body_json r) as [m|v]; go;
             [rewrite get_prop_field by discriminate
             |destruct (json_null_cases v) as [-> | Hv];
                [cbv [get_prop throw]; crashes_500
                |rewrite get_prop_field by assumption]];
             go;
             match goal with
             | |- context [NextResponse_json ?b (status r) ?l0] =>
                 destruct (NextResponse_json_refuses b (status r) l0 Hbad) as [m' Hth];
                 rewrite Hth
             end; crashes_500.
Qed.

Lemma predict_relay_witness :
  fst (POST (silent (Delivered boom_response) None) empty_config image_request []) =
    Returned (mkReply 500 (error_result "Server configuration error"))
  /\ fst (POST (silent (Delivered boom_response) None) sample_config no_image_request []) =
       Returned (mkReply 400 (error_result "No image provided"))
  /\ (exists rest,
        snd (POST (silent (Delivered boom_response) None) sample_config image_request []) =
          EvRequestJson :: EvFetch (forwarded sample_config (JStr png_dataURL)) :: rest)
  /\ fst (POST (silent (Delivered predictions_response) None) sample_config image_request []) =
       Returned (mkReply 200 (JObj [("predictions", JArr [golden])]))
  /\ fst (POST (silent (Delivered html_error_page) None) sample_config image_request []) =
       Returned (mkReply 500 (error_result "Unknown error"))
  /\ fst (POST (silent (Delivered boom_response) None) sample_config image_request []) =
       Returned (mkReply 500 (JObj [("error", JStr "boom")]))
  /\ fst (POST (silent (Delivered bare_response) None) sample_config image_request []) =
       Returned (mkReply 503 (error_result "API error: 503"))
  /\ fst (POST offline_web sample_config garbled_request []) =
       Returned (mkReply 500 (error_result "Internal server error"))
  /\ fst (POST offline_web sample_config null_request []) =
       Returned (mkReply 500 (error_result "Internal server error"))
  /\ fst (POST offline_web sample_config image_request []) =
       Returned (mkReply 500 (error_result "Internal server error"))
  /\ fst (POST (silent (Delivered garbled_success) None) sample_config image_request []) =
       Returned (mkReply 500 (error_result "Internal server error"))
  /\ fst (POST (silent (Delivered null_unavailable) None) sample_config image_request []) =
       Returned (mkReply 500 (error_result "Internal server error"))
  /\ fst (POST (silent (Delivered not_modified) None) sample_config image_request []) =
       Returned (mkReply 500 (error_result "Internal server error"))
  /\ fst (POST (silent (Delivered status_999) None) sample_config image_request []) =
       Returned (mkReply 500 (error_result "Internal server error")).
Proof.
  pose proof (fun P =>
                proj2 (proj2 (proj2 (predict_relay P sample_config image_request [])
                                eq_refl eq_refl))
                  (JObj [("image", JStr png_dataURL)]) eq_refl ltac:(discriminate))
    as Himage.
  pose proof (fun P => proj2 (Himage P) (JStr png_dataURL) eq_refl eq_refl) as Hsent.
  pose proof (fun P => proj2 (proj2 (Hsent P))) as Hanswer.
  split; [|split; [|split; [|split; [|split; [|split; [|split; [|split; [|split; [|split;
    [|split; [|split; [|split]]]]]]]]]]]].
  - apply (proj1 (predict_relay (silent (Delivered boom_response) None)
                    empty_config image_request [])).
    left. reflexivity.
  - apply (proj1 (proj2 (proj2 (proj2 (predict_relay (silent (Delivered boom_response) None)
                                         sample_config no_image_request [])
                                  eq_refl eq_refl))
                    (JObj []) eq_refl ltac:(discriminate))).
    reflexivity.
  - exact (proj1 (Hsent (silent (Delivered boom_response) None))).
  - apply (proj1 (proj1 (Hanswer (silent (Delivered predictions_response) None)
                           predictions_response eq_refl) eq_refl)).
    reflexivity.
  - destruct (proj1 (proj2 (Hanswer (silent (Delivered html_error_page) None)
                              html_error_page eq_refl)) eq_refl
                ltac:(vm_compute; split; discriminate) ltac:(discriminate))
      as [Hraw _].
    apply (Hraw "Unexpected token < in JSON at position 0"). reflexivity.
  - destruct (proj1 (proj2 (Hanswer (silent (Delivered boom_response) None)
                              boom_response eq_refl)) eq_refl
                ltac:(vm_compute; split; discriminate) ltac:(discriminate))
      as [_ [Herr _]].
    apply (Herr (error_result "boom") (JStr "boom")); reflexivity.
  - destruct (proj1 (proj2 (Hanswer (silent (Delivered bare_response) None)
                              bare_response eq_refl)) eq_refl
                ltac:(vm_compute; split; discriminate) ltac:(discriminate))
      as [_ [_ Hgen]].
    apply (Hgen (JObj [])); first [reflexivity | discriminate].
  - apply (proj1 (proj2 (predict_relay offline_web sample_config garbled_request [])
                    eq_refl eq_refl) "Unexpected end of JSON input").
    reflexivity.
  - apply (proj1 (proj2 (proj2 (predict_relay offline_web sample_config null_request [])
                           eq_refl eq_refl))).
    reflexivity.
  - apply (proj1 (proj2 (Hsent offline_web)) "Failed to fetch"). reflexivity.
  - apply (proj2 (proj1 (Hanswer (silent (Delivered garbled_success) None)
                           garbled_success eq_refl) eq_refl)
             "Unexpected token < in JSON at position 0").
    reflexivity.
  - apply (proj1 (proj2 (proj2 (Hanswer (silent (Delivered null_unavailable) None)
                                  null_unavailable eq_refl)))); reflexivity.
  - apply (proj2 (proj2 (proj2 (Hanswer (silent (Delivered not_modified) None)
                                  not_modified eq_refl)))); [reflexivity|].
    right. right. reflexivity.
  - apply (proj2 (proj2 (proj2 (Hanswer (silent (Delivered status_999) None)
                                  status_999 eq_refl)))); [reflexivity|].
    right. left. reflexivity.
Defined.

(** ** The random-image relay *)

(** C7, as stated, fails when the provider lookup fails in transport: the
    relay answers 500, not 502. *)
Lemma lookup_transport_failure_counterexample :
  net (silent (Rejected "fetch failed") None) [] (lookup_request sample_config) =
    Rejected "fetch failed"
  /\ fst (GET (silent (Rejected "fetch failed") None) sample_config []) =
       Returned (mkReply 500 (error_result "Internal server error"))
  /\ reply_status (mkReply 500 (error_result "Internal server error")) <> 502.
Proof.
  split; [reflexivity|]. split; [reflexivity|]. discriminate.
Qed.

Ltac error_reply :=
  intros ->; do 2 eexists; (split; [reflexivity|]); right;
  (split; [first [left; reflexivity | right; reflexivity] | eexists; reflexivity]).

Ltac download_tail P data :=
  destruct (net P _ _) as [?|imageRes]; go; [reply; error_reply|];
  destruct (ok imageRes) eqn:?; go; [|reply; error_reply];
  destruct (body_arrayBuffer imageRes) as [?|bytes] eqn:?; go; [reply; error_reply|];
  repeat (rewrite ?opt_prop_field; rewrite ?get_prop_field by assumption; go);
  reply; intros ->; do 2 eexists; (split; [reflexivity|]); left;
  (split; [reflexivity|]); exists data, imageRes, bytes;
  (split; [assumption|]); (split; [assumption|]); reflexivity.

Ltac run_get cfg Hk Hn :=
  run_relay; rewrite Hk; go; fold (lookup_request cfg); rewrite Hn; go.

(** The relay up to the text it makes of the image URL [u], a truthy value
    ([Hu]). *)
Ltac reach_download cfg data Hk Hn Hok Hdata Hurl Hu :=
  run_get cfg Hk Hn; rewrite Hok; go; rewrite Hdata; go;
  rewrite get_prop_field by assumption; go; rewrite opt_prop_field; go;
  unfold imageUrl_of in Hurl;
  destruct (truthy_val (opt_field (field data "urls") "regular")) eqn:Hreg; go;
  cbv iota in Hurl;
  [|rewrite get_prop_field by assumption; go; rewrite opt_prop_field];
  rewrite Hurl; go; rewrite Hu; go.

(** The text of the URL is [url] ([Htext]). *)
Ltac text_known u Htext :=
  destruct u; cbn [text_of] in Htext;
  first [injection Htext as -> | rewrite Htext]; go.

(** The 200 reply of the relay, tied to what the platform delivered. *)
Ltac image_reply :=
  repeat (rewrite ?opt_prop_field; rewrite ?get_prop_field by assumption; go);
  reply; intros ->; do 2 eexists; (split; [reflexivity|]); left;
  (split; [reflexivity|]); do 6 eexists;
  (split; [first [eassumption | reflexivity]|]);
  (split; [eassumption|]); (split; [eassumption|]);
  (split; [eassumption|]); (split; [eassumption|]);
  (split; [first [reflexivity | cbn [text_of]; eassumption]|]);
  (split; [eassumption|]); (split; [eassumption|]); (split; [eassumption|]);
  reflexivity.

Ltac download_and_reply P :=
  match goal with
  | |- context [net P ?l0 (mkRequest ?u "GET" [] None)] =>
      destruct (net P l0 (mkRequest u "GET" [] None)) as [?|?] eqn:Hn2
  end; go; [reply; error_reply|];
  match goal with
  | |- context [ok ?r] => destruct (ok r) eqn:Hok2
  end; go; [|reply; error_reply];
  match goal with
  | |- context [body_arrayBuffer ?r] =>
      destruct (body_arrayBuffer r) as [?|?] eqn:Hbytes
  end; go; [reply; error_reply|];
  image_reply.

(** C7, amended: the relay answers 500 when the provider key is missing;
    502 when the lookup is answered with a non-2xx status, when the
    provider's JSON (other than [null]) holds no truthy [urls.regular] or
    [urls.full], or when the download is answered with a non-2xx status;
    500 [Internal server error] when the lookup or the download fails in
    transport, when the provider's body is not JSON or is [null], or when
    the downloaded body cannot be read.  It answers 200 only when the
    lookup and the download were both answered 2xx and the bytes were read,
    and then with [image], the data URI of those bytes under the declared
    content type ([image/jpeg] when none is declared), and [attribution].
    Every other reply is a 500 or 502 whose body is [{ error: message }]:
    never a partial image. *)
Theorem random_dog_relay (P : Platform) (cfg : Config) (l : log) :
  (env_truthy (UNSPLASH_ACCESS_KEY cfg) = false ->
     fst (GET P cfg l) = Returned (mkReply 500 (error_result "Server configuration error")))
  /\ (env_truthy (UNSPLASH_ACCESS_KEY cfg) = true ->
      (forall m, net P l (lookup_request cfg) = Rejected m ->
         fst (GET P cfg l) = Returned (mkReply 500 (error_result "Internal server error")))
      /\ forall apiRes : Response,
        net P l (lookup_request cfg) = Delivered apiRes ->
        (ok apiRes = false ->
           fst (GET P cfg l) =
             Returned (mkReply 502 (error_result "Failed to fetch image from Unsplash")))
        /\ (ok apiRes = true ->
            (forall m, body_json apiRes = Rejected m ->
               fst (GET P cfg l) =
                 Returned (mkReply 500 (error_result "Internal server error")))
            /\ (body_json apiRes = Delivered JNull ->
                fst (GET P cfg l) =
                  Returned (mkReply 500 (error_result "Internal server error")))
            /\ forall data : json,
              body_json apiRes = Delivered data -> data <> JNull ->
              (truthy_val (imageUrl_of data) = false ->
                 fst (GET P cfg l) =
                   Returned (mkReply 502 (error_result "No image URL in response")))
              /\ (forall (u : json) (m : string),
                    imageUrl_of data = Some u -> truthy u = true ->
                    text_of P u = Rejected m ->
                    fst (GET P cfg l) =
                      Returned (mkReply 500 (error_result "Internal server error")))
              /\ (forall (u : json) (url : string),
                    imageUrl_of data = Some u -> truthy u = true ->
                    text_of P u = Delivered url ->
                    (forall m,
                        net P (l ++ [EvFetch (lookup_request cfg)])%list
                          (mkRequest url "GET" [] None) = Rejected m ->
                        fst (GET P cfg l) =
                          Returned (mkReply 500 (error_result "Internal server error")))
                    /\ forall imageRes : Response,
                      net P (l ++ [EvFetch (lookup_request cfg)])%list
                        (mkRequest url "GET" [] None) = Delivered imageRes ->
                      (ok imageRes = false ->
                         fst (GET P cfg l) =
                           Returned (mkReply 502 (error_result "Failed to download image")))
                      /\ (ok imageRes = true ->
                          (forall bytes : list Byte.byte,
                              body_arrayBuffer imageRes = Delivered bytes ->
                              fst (GET P cfg l) =
                                Returned (mkReply 200 (random_dog_body data imageRes bytes)))
                          /\ (forall m,
                                body_arrayBuffer imageRes = Rejected m ->
                                fst (GET P cfg l) =
                                  Returned (mkReply 500
                                              (error_result "Internal server error")))))))
  /\ (exists (rep : Reply) (l' : log),
        GET P cfg l = (Returned rep, l')
        /\ ((reply_status rep = 200
             /\ exists (apiRes : Response) (data u : json) (url : string)
                       (imageRes : Response) (bytes : list Byte.byte),
                  net P l (lookup_request cfg) = Delivered apiRes
                  /\ ok apiRes = true
                  /\ body_json apiRes = Delivered data
                  /\ imageUrl_of data = Some u
                  /\ truthy u = true
                  /\ text_of P u = Delivered url
                  /\ net P (l ++ [EvFetch (lookup_request cfg)])%list
                       (mkRequest url "GET" [] None) = Delivered imageRes
                  /\ ok imageRes = true
                  /\ body_arrayBuffer imageRes = Delivered bytes
                  /\ reply_body rep = random_dog_body data imageRes bytes)
            \/ ((reply_status rep = 500 \/ reply_status rep = 502)
                /\ exists m, reply_body rep = error_result m))).
Proof.
  split; [|split].
  - intros Hk. run_relay. rewrite Hk. go. reply. reflexivity.
  - intros Hk. split.
    { intros m Hn. run_get cfg Hk Hn. reply. reflexivity. }
    intros apiRes Hn. split.
    + intros Hok. run_get cfg Hk Hn. rewrite Hok. go. reply. reflexivity.
    + intros Hok. split; [|split].
      { intros m Hdata. run_get cfg Hk Hn. rewrite Hok. go. rewrite Hdata. go.
        reply. reflexivity. }
      { intros Hdata. run_get cfg Hk Hn. rewrite Hok. go. rewrite Hdata. go.
        cbv [get_prop throw]. go. reply. reflexivity. }
      intros data Hdata Hnn. split.
      * intros Hurl. run_get cfg Hk Hn. rewrite Hok. go. rewrite Hdata. go.
        rewrite !get_prop_field by assumption. go. rewrite !opt_prop_field. go.
        unfold imageUrl_of in Hurl.
        destruct (truthy_val (opt_field (field data "urls") "regular")) eqn:Hreg;
          [cbv iota in Hurl; congruence|].
        cbv [ret bind]. rewrite get_prop_field by assumption. rewrite opt_prop_field.
        destruct (opt_field (field data "urls") "full") as [u|]; go.
        -- cbn [truthy_val] in Hurl. rewrite Hurl. go. reply. reflexivity.
        -- reply. reflexivity.
      * split.
        { intros u m Hurl Hu Htext. reach_download cfg data Hk Hn Hok Hdata Hurl Hu;
            (destruct u; cbn [text_of] in Htext; [| | |discriminate Htext| |]);
            rewrite Htext; go; reply; reflexivity. }
        intros u url Hurl Hu Htext. split.
        { intros m Hn2. reach_download cfg data Hk Hn Hok Hdata Hurl Hu;
            text_known u Htext; rewrite Hn2; go; reply; reflexivity. }
        intros imageRes Hn2. split.
        -- intros Hok2. reach_download cfg data Hk Hn Hok Hdata Hurl Hu;
             text_known u Htext; rewrite Hn2; go; rewrite Hok2; go; reply; reflexivity.
        -- intros Hok2. split.
           ++ intros bytes Hbytes. reach_download cfg data Hk Hn Hok Hdata Hurl Hu;
                text_known u Htext;
                rewrite Hn2; go; rewrite Hok2; go; rewrite Hbytes; go;
                repeat (rewrite ?opt_prop_field; rewrite ?get_prop_field by assumption; go);
                reply; reflexivity.
           ++ intros m Hbytes. reach_download cfg data Hk Hn Hok Hdata Hurl Hu;
                text_known u Htext;
                rewrite Hn2; go; rewrite Hok2; go; rewrite Hbytes; go;
                reply; reflexivity.
  - remember (GET P cfg l) as res eqn:Hres. revert Hres. run_relay.
    destruct (env_truthy (UNSPLASH_ACCESS_KEY cfg)); go; [|reply; error_reply].
    fold (lookup_request cfg).
    destruct (net P l (lookup_request cfg)) as [m|apiRes] eqn:Hn; go;
      [reply; error_reply|].
    destruct (ok apiRes) eqn:Hok; go; [|reply; error_reply].
    destruct (body_json apiRes) as [m|data] eqn:Hdata; go; [reply; error_reply|].
    destruct (json_null_cases data) as [-> | Hnn];
      [cbv [get_prop throw]; go; reply; error_reply|].
    rewrite get_prop_field by assumption. go. rewrite opt_prop_field. go.
    destruct (truthy_val (opt_field (field data "urls") "regular")) eqn:Hreg; go;
      [|rewrite get_prop_field by assumption; go; rewrite opt_prop_field; go].
    + destruct (opt_field (field data "urls") "regular") as [u|] eqn:Hu; go;
        [|reply; error_reply].
      destruct (truthy u) eqn:Htu; go; [|reply; error_reply].
      assert (Hurl : imageUrl_of data = Some u)
        by (unfold imageUrl_of; rewrite Hu; cbn [truthy_val]; rewrite Htu; reflexivity).
      destruct u; go;
        try (destruct (to_string_other P _) as [?|url] eqn:Hts; go;
             [reply; error_reply|]);
        download_and_reply P.
    + destruct (opt_field (field data "urls") "full") as [u|] eqn:Hu; go;
        [|reply; error_reply].
      destruct (truthy u) eqn:Htu; go; [|reply; error_reply].
      assert (Hurl : imageUrl_of data = Some u)
        by (unfold imageUrl_of; rewrite Hreg; exact Hu).
      destruct u; go;
        try (destruct (to_string_other P _) as [?|url] eqn:Hts; go;
             [reply; error_reply|]);
        download_and_reply P.
Qed.

Lemma random_dog_relay_witness :
  fst (GET (unsplash_web (Delivered lookup_ok) (Delivered jpeg_download)) empty_config []) =
    Returned (mkReply 500 (error_result "Server configuration error"))
  /\ fst (GET (unsplash_web (Delivered boom_response) (Delivered jpeg_download))
            sample_config []) =
       Returned (mkReply 502 (error_result "Failed to fetch image from Unsplash"))
  /\ fst (GET (unsplash_web (Delivered no_urls) (Delivered jpeg_download))
            sample_config []) =
       Returned (mkReply 502 (error_result "No image URL in response"))
  /\ fst (GET (unsplash_web (Delivered lookup_ok) (Delivered not_found))
            sample_config []) =
       Returned (mkReply 502 (error_result "Failed to download image"))
  /\ fst (GET (unsplash_web (Delivered lookup_ok) (Delivered jpeg_download))
            sample_config []) =
       Returned (mkReply 200
         (JObj [("image", JStr "data:image/jpeg;base64,/9j/");
                ("attribution",
                 JObj [("photographer", JStr "Ana");
                       ("photographerUrl", JStr "https://unsplash.com/@ana");
                       ("unsplashUrl", JStr "https://unsplash.com/photos/1")])]))
  /\ fst (GET (unsplash_web (Rejected "fetch failed") (Delivered jpeg_download))
            sample_config []) =
       Returned (mkReply 500 (error_result "Internal server error"))
  /\ fst (GET (unsplash_web (Delivered garbled_success) (Delivered jpeg_download))
            sample_config []) =
       Returned (mkReply 500 (error_result "Internal server error"))
  /\ fst (GET (unsplash_web (Delivered null_success) (Delivered jpeg_download))
            sample_config []) =
       Returned (mkReply 500 (error_result "Internal server error"))
  /\ fst (GET (unsplash_web (Delivered lookup_ok) (Rejected "fetch failed"))
            sample_config []) =
       Returned (mkReply 500 (error_result "Internal server error"))
  /\ fst (GET (unsplash_web (Delivered lookup_ok) (Delivered broken_download))
            sample_config []) =
       Returned (mkReply 500 (error_result "Internal server error")).
Proof.
  pose proof (fun P => proj2 (proj1 (proj2 (random_dog_relay P sample_config [])) eq_refl))
    as Hlooked.
  pose proof (fun P (Hn : net P [] (lookup_request sample_config) = Delivered lookup_ok) =>
                proj2 (proj2 (proj2 (Hlooked P lookup_ok Hn) eq_refl))
                  dog_data eq_refl ltac:(discriminate)) as Hdog.
  pose proof (fun P Hn =>
                proj2 (proj2 (Hdog P Hn)) (JStr "https://images.example/dog.jpg")
                  "https://images.example/dog.jpg" eq_refl eq_refl eq_refl) as Hurl.
  split; [|split; [|split; [|split; [|split; [|split; [|split; [|split; [|split]]]]]]]].
  - apply (proj1 (random_dog_relay _ empty_config [])). reflexivity.
  - apply (proj1 (Hlooked (unsplash_web (Delivered boom_response) (Delivered jpeg_download))
                    boom_response eq_refl)).
    reflexivity.
  - apply (proj1 (proj2 (proj2 (proj2 (Hlooked (unsplash_web (Delivered no_urls)
                                                  (Delivered jpeg_download))
                                         no_urls eq_refl) eq_refl))
                    (JObj [("urls", JObj [])]) eq_refl ltac:(discriminate))).
    reflexivity.
  - apply (proj1 (proj2 (Hurl (unsplash_web (Delivered lookup_ok) (Delivered not_found))
                           eq_refl) not_found eq_refl)).
    reflexivity.
  - apply (proj1 (proj2 (proj2 (Hurl (unsplash_web (Delivered lookup_ok)
                                        (Delivered jpeg_download))
                                  eq_refl) jpeg_download eq_refl)
                    eq_refl) [Byte.xff; Byte.xd8; Byte.xff] eq_refl).
  - apply (proj1 (proj1 (proj2 (random_dog_relay
                                  (unsplash_web (Rejected "fetch failed")
                                     (Delivered jpeg_download)) sample_config []))
                    eq_refl) "fetch failed").
    reflexivity.
  - apply (proj1 (proj2 (Hlooked (unsplash_web (Delivered garbled_success)
                                    (Delivered jpeg_download))
                           garbled_success eq_refl) eq_refl)
             "Unexpected token < in JSON at position 0").
    reflexivity.
  - apply (proj1 (proj2 (proj2 (Hlooked (unsplash_web (Delivered null_success)
                                           (Delivered jpeg_download))
                                  null_success eq_refl) eq_refl))).
    reflexivity.
  - apply (proj1 (Hurl (unsplash_web (Delivered lookup_ok) (Rejected "fetch failed"))
                    eq_refl) "fetch failed").
    reflexivity.
  - apply (proj2 (proj2 (proj2 (Hurl (unsplash_web (Delivered lookup_ok)
                                        (Delivered broken_download))
                                  eq_refl) broken_download eq_refl)
                    eq_refl) "The operation was aborted").
    reflexivity.
Defined.

(** * Further properties of the code *)

(** ** The client: authentication, failed reads, failed requests, no retry *)

(** X1: in direct mode a submitted image answered 401 or 403 gives the
    authentication message, whatever the body holds. *)
Theorem predictPaw_auth_failure (P : Platform) (cfg : Config) (file : File) (l : log)
    (d : string) (r : Response) :
  startsWith (blob_type file) "image/" = true ->
  blob_size file <= 5 * 1024 * 1024 ->
  file_reader P l file = Some d ->
  net P (l ++ [EvReadAsDataURL file])%list
    (predict_request (template (API_URL cfg) ++ "/predict")
       [("Content-Type", "application/json");
        ("X-API-Key", template (API_KEY cfg))] d) = Delivered r ->
  status r = 401 \/ status r = 403 ->
  fst (predictPaw P cfg file l) =
    Returned (error_result "Authentication failed. Please check your API key.").
Proof.
  intros Ht Hsz Hr Hn Hst.
  assert (Hgt : (blob_size file >? maxSize) = false)
    by (rewrite Z.gtb_ltb; apply Z.ltb_ge; unfold maxSize; lia).
  run_keep. rewrite Ht, Hgt. go. rewrite Hr. go. rewrite Hn. go.
  destruct Hst as [Hst | Hst]; rewrite Hst; reflexivity.
Qed.

Lemma predictPaw_auth_failure_witness :
  fst (predictPaw (silent (Delivered forbidden_response) (Some png_dataURL))
         sample_config png_file []) =
    Returned (error_result "Authentication failed. Please check your API key.").
Proof.
  apply (predictPaw_auth_failure (silent (Delivered forbidden_response) (Some png_dataURL))
           sample_config png_file [] png_dataURL forbidden_response);
    first [reflexivity | vm_compute; discriminate | right; reflexivity].
Defined.

(** X2: when the file passes validation but cannot be read, [predictPaw]
    answers [An unexpected error occurred] (the rejection carries the
    reader's progress event, not an [Error]) and sends no request. *)
Theorem predictPaw_read_failure (P : Platform) (cfg : Config) (file : File) (l : log) :
  startsWith (blob_type file) "image/" = true ->
  blob_size file <= 5 * 1024 * 1024 ->
  file_reader P l file = None ->
  predictPaw P cfg file l =
    (Returned (error_result "An unexpected error occurred"),
     (l ++ [EvReadAsDataURL file; EvConsoleError "Prediction error:"])%list).
Proof.
  intros Ht Hsz Hr.
  assert (Hgt : (blob_size file >? maxSize) = false)
    by (rewrite Z.gtb_ltb; apply Z.ltb_ge; unfold maxSize; lia).
  run_keep. rewrite Ht, Hgt. go. rewrite Hr. go. flatten_log. reflexivity.
Qed.

Lemma predictPaw_read_failure_witness :
  predictPaw unreadable_web sample_config png_file [] =
    (Returned (error_result "An unexpected error occurred"),
     [EvReadAsDataURL png_file; EvConsoleError "Prediction error:"]).
Proof.
  apply (predictPaw_read_failure unreadable_web sample_config png_file []);
    first [reflexivity | vm_compute; discriminate].
Defined.

(** X3: a request that fails in transport is reported with the message of
    the rejection itself, in direct mode and in relayed mode. *)
Theorem predict_transport_failure (P : Platform) (cfg : Config) :
  (forall (file : File) (l : log) (d m : string),
      startsWith (blob_type file) "image/" = true ->
      blob_size file <= 5 * 1024 * 1024 ->
      file_reader P l file = Some d ->
      net P (l ++ [EvReadAsDataURL file])%list
        (predict_request (template (API_URL cfg) ++ "/predict")
           [("Content-Type", "application/json");
            ("X-API-Key", template (API_KEY cfg))] d) = Rejected m ->
      fst (predictPaw P cfg file l) = Returned (error_result m))
  /\ (forall (image : string) (l : log) (m : string),
        net P l (predict_request "/api/predict"
                   [("Content-Type", "application/json")] image) = Rejected m ->
        fst (predictFromBase64 P image l) = Returned (error_result m)).
Proof.
  split.
  - intros file l d m Ht Hsz Hr Hn.
    assert (Hgt : (blob_size file >? maxSize) = false)
      by (rewrite Z.gtb_ltb; apply Z.ltb_ge; unfold maxSize; lia).
    run_keep. rewrite Ht, Hgt. go. rewrite Hr. go. rewrite Hn. reflexivity.
  - intros image l m Hn. run_keep. rewrite Hn. reflexivity.
Qed.

Lemma predict_transport_failure_witness :
  fst (predictPaw offline_web sample_config png_file []) =
    Returned (error_result "Failed to fetch")
  /\ fst (predictFromBase64 offline_web png_dataURL []) =
       Returned (error_result "Failed to fetch").
Proof.
  split.
  - apply (proj1 (predict_transport_failure offline_web sample_config)
             png_file [] png_dataURL "Failed to fetch");
      first [reflexivity | vm_compute; discriminate].
  - apply (proj2 (predict_transport_failure offline_web sample_config)
             png_dataURL [] "Failed to fetch").
    reflexivity.
Defined.

(** X4: no retry.  Whatever the platform answers, one call of [predictPaw]
    adds at most one request to the log, and one call of
    [predictFromBase64] exactly one; the log so far is kept. *)
Theorem predict_single_request (P : Platform) (cfg : Config) :
  (forall (file : File) (l : log),
      exists added,
        snd (predictPaw P cfg file l) = (l ++ added)%list
        /\ (fetches added <= 1)%nat)
  /\ (forall (image : string) (l : log),
        exists added,
          snd (predictFromBase64 P image l) = (l ++ added)%list
          /\ fetches added = 1%nat).
Proof.
  split.
  - intros file l. run. crunch; flatten_log;
      (eexists; split; [reflexivity | cbn; lia]).
  - intros image l. run. crunch; flatten_log;
      (eexists; split; [reflexivity | reflexivity]).
Qed.

(** ** The client: health probe and random image *)

(** X5: [checkHealth] resolves only with the parsed body of a 2xx answer;
    a non-2xx answer is rejected as [API health check failed] and a transport
    failure with its own message, each logged and then rethrown to the
    caller. *)
Theorem checkHealth_outcomes (P : Platform) (cfg : Config) (l : log) :
  (forall r v,
      net P l (health_request cfg) = Delivered r -> ok r = true ->
      body_json r = Delivered v ->
      checkHealth P cfg l = (Returned v, (l ++ [EvFetch (health_request cfg)])%list))
  /\ (forall r,
        net P l (health_request cfg) = Delivered r -> ok r = false ->
        checkHealth P cfg l =
          (Threw (ErrorObj "API health check failed"),
           (l ++ [EvFetch (health_request cfg);
                  EvConsoleError "Health check error:"])%list))
  /\ (forall m,
        net P l (health_request cfg) = Rejected m ->
        checkHealth P cfg l =
          (Threw (ErrorObj m),
           (l ++ [EvFetch (health_request cfg);
                  EvConsoleError "Health check error:"])%list))
  /\ (forall v l',
        checkHealth P cfg l = (Returned v, l') ->
        exists r, net P l (health_request cfg) = Delivered r
                  /\ ok r = true /\ body_json r = Delivered v).
Proof.
  unfold checkHealth. fold (health_request cfg). repeat split.
  - intros r v Hn Hok Hb. run_keep. rewrite Hn. go. rewrite Hok. go. rewrite Hb. reflexivity.
  - intros r Hn Hok. run_keep. rewrite Hn. go. rewrite Hok. go. flatten_log. reflexivity.
  - intros m Hn. run_keep. rewrite Hn. go. flatten_log. reflexivity.
  - intros v l'. run_keep.
    destruct (net P l (health_request cfg)) as [m|r] eqn:Hn; go; [discriminate|].
    destruct (ok r) eqn:Hok; go; [|discriminate].
    destruct (body_json r) as [m|v'] eqn:Hb; go; [discriminate|].
    intros [= <- _]. exists r. repeat split; assumption.
Qed.

Lemma checkHealth_outcomes_witness :
  checkHealth (silent (Delivered healthy_response) None) sample_config [] =
    (Returned (JObj [("message", JStr "Server is up and running!")]),
     [EvFetch (health_request sample_config)])
  /\ fst (checkHealth (silent (Delivered boom_response) None) sample_config []) =
       Threw (ErrorObj "API health check failed")
  /\ fst (checkHealth offline_web sample_config []) = Threw (ErrorObj "Failed to fetch")
  /\ exists r, net (silent (Delivered healthy_response) None) []
                 (health_request sample_config) = Delivered r
               /\ ok r = true
               /\ body_json r = Delivered (JObj [("message", JStr "Server is up and running!")]).
Proof.
  destruct (checkHealth_outcomes (silent (Delivered healthy_response) None) sample_config [])
    as [Hgood [_ [_ Honly]]].
  destruct (checkHealth_outcomes (silent (Delivered boom_response) None) sample_config [])
    as [_ [Hbad _]].
  destruct (checkHealth_outcomes offline_web sample_config []) as [_ [_ [Hoff _]]].
  split; [|split; [|split]].
  - apply (Hgood healthy_response); reflexivity.
  - rewrite (Hbad boom_response eq_refl eq_refl). reflexivity.
  - rewrite (Hoff "Failed to fetch" eq_refl). reflexivity.
  - apply (Honly _ [EvFetch (health_request sample_config)]). reflexivity.
Defined.

(** X6: [getRandomDogImageBase64] rejects a non-2xx answer with its own
    generic message, without reading the body; it rejects a 2xx body whose
    [error] is a non-empty string with that string; it resolves with the
    body otherwise, and only then. *)
Theorem getRandomDogImageBase64_outcomes (P : Platform) (l : log) :
  (forall r,
      net P l random_dog_request = Delivered r -> ok r = false ->
      fst (getRandomDogImageBase64 P l) =
        Threw (ErrorObj "Failed to fetch random image from server"))
  /\ (forall r data s,
        net P l random_dog_request = Delivered r -> ok r = true ->
        body_json r = Delivered data ->
        field data "error" = Some (JStr s) -> s <> "" ->
        fst (getRandomDogImageBase64 P l) = Threw (ErrorObj s))
  /\ (forall r data,
        net P l random_dog_request = Delivered r -> ok r = true ->
        body_json r = Delivered data -> data <> JNull ->
        truthy_val (field data "error") = false ->
        getRandomDogImageBase64 P l =
          (Returned data, (l ++ [EvFetch random_dog_request])%list))
  /\ (forall data l',
        getRandomDogImageBase64 P l = (Returned data, l') ->
        exists r, net P l random_dog_request = Delivered r
                  /\ ok r = true /\ body_json r = Delivered data
                  /\ truthy_val (field data "error") = false).
Proof.
  unfold getRandomDogImageBase64. fold random_dog_request. repeat split.
  - intros r Hn Hok. run_keep. rewrite Hn. go. rewrite Hok. reflexivity.
  - intros r data s Hn Hok Hb Hf Hs. run_keep. rewrite Hn. go. rewrite Hok. go.
    rewrite Hb. go.
    rewrite get_prop_field by (eapply field_string_not_null; eassumption).
    rewrite Hf. cbn [truthy]. rewrite (str_truthy_nonempty s Hs). reflexivity.
  - intros r data Hn Hok Hb Hnn Hf. run_keep. rewrite Hn. go. rewrite Hok. go.
    rewrite Hb. go. rewrite get_prop_field by assumption.
    destruct (field data "error") as [e|]; [|reflexivity].
    cbn [truthy_val] in Hf. rewrite Hf. reflexivity.
  - intros data l'. run_keep.
    destruct (net P l random_dog_request) as [m|r] eqn:Hn; go; [discriminate|].
    destruct (ok r) eqn:Hok; go; [|discriminate].
    destruct (body_json r) as [m|v] eqn:Hb; go; [discriminate|].
    destruct (json_null_cases v) as [-> | Hnn];
      [cbv [get_prop throw]; go; discriminate|].
    rewrite get_prop_field by assumption.
    destruct (field v "error") as [e|] eqn:Hf; go.
    + destruct (truthy e) eqn:He; go.
      * destruct e; go; try destruct (to_string_other P _); go; discriminate.
      * intros [= <- _]. exists r. rewrite Hf. repeat split; assumption.
    + intros [= <- _]. exists r. rewrite Hf. repeat split; assumption.
Qed.

Lemma getRandomDogImageBase64_outcomes_witness :
  fst (getRandomDogImageBase64 (silent (Delivered boom_response) None) []) =
    Threw (ErrorObj "Failed to fetch random image from server")
  /\ fst (getRandomDogImageBase64 (silent (Delivered complaint_response) None) []) =
       Threw (ErrorObj "quota exhausted")
  /\ getRandomDogImageBase64
       (silent (Delivered (plain_response 200 (Delivered embedded_dog))) None) [] =
       (Returned embedded_dog, [EvFetch random_dog_request])
  /\ exists r, ok r = true /\ body_json r = Delivered embedded_dog.
Proof.
  destruct (getRandomDogImageBase64_outcomes (silent (Delivered boom_response) None) [])
    as [Hbad _].
  destruct (getRandomDogImageBase64_outcomes (silent (Delivered complaint_response) None) [])
    as [_ [Herr _]].
  destruct (getRandomDogImageBase64_outcomes
              (silent (Delivered (plain_response 200 (Delivered embedded_dog))) None) [])
    as [_ [_ [Hgood Honly]]].
  split; [|split; [|split]].
  - apply (Hbad boom_response); reflexivity.
  - apply (Herr complaint_response (error_result "quota exhausted") "quota exhausted");
      first [reflexivity | discriminate].
  - apply (Hgood (plain_response 200 (Delivered embedded_dog)) embedded_dog);
      first [reflexivity | discriminate].
  - destruct (Honly embedded_dog [EvFetch random_dog_request] eq_refl)
      as [r [_ [Hok [Hb _]]]].
    exists r. split; assumption.
Defined.

Lemma string_of_Z_inj (a b : Z) : string_of_Z a = string_of_Z b -> a = b.
Proof.
  unfold string_of_Z. intros H.
  apply DecimalZ.to_int_inj.
  assert (Hgood : forall z, Z.to_int z <> Decimal.Pos Decimal.Nil
                            /\ Z.to_int z <> Decimal.Neg Decimal.Nil).
  { intros [|p|p]; cbn; split; try discriminate;
      intros [= Hp]; exact (DecimalPos.Unsigned.to_uint_nonnil p Hp). }
  assert (Hparse : forall z,
            NilZero.int_of_string (NilZero.string_of_int (Z.to_int z)) = Some (Z.to_int z))
    by (intros z; apply NilZero.isi; apply Hgood).
  pose proof (Hparse a) as Ha. rewrite H, Hparse in Ha. now injection Ha.
Qed.

(** X7: the cache-busting parameter does its work: [getRandomDogImage]
    called at two different times gives two different URLs. *)
Theorem getRandomDogImage_distinct (t1 t2 : Z) :
  t1 <> t2 -> getRandomDogImage t1 <> getRandomDogImage t2.
Proof.
  intros Hne H. apply Hne. apply string_of_Z_inj.
  unfold getRandomDogImage in H. cbn [append] in H.
  now repeat (injection H as H).
Qed.

Lemma getRandomDogImage_distinct_witness :
  getRandomDogImage 1762041600000 <> getRandomDogImage 1762041600001.
Proof.
  apply getRandomDogImage_distinct. discriminate.
Defined.

(** ** The predict relay: it always answers *)

(** The handler up to the test of the configuration. *)
Ltac post_to_config P cfg request l :=
  remember (POST P cfg request l) as res eqn:Hres; revert Hres; run_relay;
  destruct (env_truthy (API_URL cfg)) eqn:Hu;
    [destruct (env_truthy (API_KEY cfg)) eqn:Hk|]; go.

Ltac answers_500 :=
  reply; intros ->; do 2 eexists; (split; [reflexivity|]);
  right; right; left; reflexivity.

(** X8: the predict relay never throws: for every request, configuration
    and platform it answers, with status 200, 400 or 500, or else with the
    status of a non-2xx upstream answer. *)
Theorem POST_always_answers (P : Platform) (cfg : Config) (request : RelayRequest)
    (l : log) :
  exists (rep : Reply) (l' : log),
    POST P cfg request l = (Returned rep, l')
    /\ (reply_status rep = 200 \/ reply_status rep = 400 \/ reply_status rep = 500
        \/ exists (image : json) (r : Response),
             net P (l ++ [EvRequestJson])%list (forwarded cfg image) = Delivered r
             /\ ok r = false
             /\ reply_status rep = status r).
Proof.
  post_to_config P cfg request l; [|answers_500|answers_500].
  destruct (request_body request) as [m|body]; go; [answers_500|].
  destruct (json_null_cases body) as [-> | Hnn];
    [cbv [get_prop throw]; go; answers_500|].
  rewrite get_prop_field by assumption. go.
  destruct (truthy_val (field body "image")) eqn:Ht; go.
  2: { reply. intros ->. do 2 eexists. split; [reflexivity|]. right. left. reflexivity. }
  destruct (field body "image") as [image|] eqn:Himg; [|discriminate].
  cbv [obj_of_fields flat_map]. cbn [fst snd app]. fold (forwarded cfg image).
  destruct (net P _ _) as [m|r] eqn:Hn; go; [answers_500|].
  destruct (ok r) eqn:Hok; go.
  - destruct (body_json r) as [m|data]; go; [answers_500|].
    reply. intros ->. do 2 eexists. split; [reflexivity|]. left. reflexivity.
  - destruct (body_json r) as [m|errorData]; go;
      [rewrite get_prop_field by discriminate
      |destruct (json_null_cases errorData) as [-> | Hen];
         [cbv [get_prop throw]; go; answers_500
         |rewrite get_prop_field by assumption]];
      go; unfold NextResponse_json at 1;
      (destruct (negb ((200 <=? status r) && (status r <=? 599)));
         cbv [throw]; go; [answers_500|]);
      (destruct (null_body_status (status r)); cbv [ret]; go; [answers_500|]);
      intros ->; do 2 eexists; (split; [reflexivity|]); right; right; right;
      exists image, r; repeat split; assumption.
Qed.

(** X9: with the configuration present, whatever goes wrong inside the
    predict relay is answered 500 [Internal server error]: a request body
    that is not JSON or is [null] (no request goes upstream), an upstream
    request that fails in transport, a 2xx upstream answer that is not
    JSON. *)
Theorem POST_internal_errors (P : Platform) (cfg : Config) (request : RelayRequest)
    (l : log) :
  env_truthy (API_URL cfg) = true ->
  env_truthy (API_KEY cfg) = true ->
  (forall m, request_body request = Rejected m ->
     POST P cfg request l =
       (Returned (mkReply 500 (error_result "Internal server error")),
        (l ++ [EvRequestJson; EvConsoleError "Prediction proxy error:"])%list))
  /\ (request_body request = Delivered JNull ->
      POST P cfg request l =
        (Returned (mkReply 500 (error_result "Internal server error")),
         (l ++ [EvRequestJson; EvConsoleError "Prediction proxy error:"])%list))
  /\ (forall body image,
        request_body request = Delivered body ->
        field body "image" = Some image -> truthy image = true ->
        (forall m,
            net P (l ++ [EvRequestJson])%list (forwarded cfg image) = Rejected m ->
            fst (POST P cfg request l) =
              Returned (mkReply 500 (error_result "Internal server error")))
        /\ (forall r m,
              net P (l ++ [EvRequestJson])%list (forwarded cfg image) = Delivered r ->
              ok r = true -> body_json r = Rejected m ->
              fst (POST P cfg request l) =
                Returned (mkReply 500 (error_result "Internal server error")))).
Proof.
  intros Hu Hk. split; [|split].
  - intros m Hb. run_relay. rewrite Hu, Hk. go. rewrite Hb. go. reply.
    flatten_log. reflexivity.
  - intros Hb. run_relay. rewrite Hu, Hk. go. rewrite Hb. cbv [get_prop throw]. go.
    reply. flatten_log. reflexivity.
  - intros body image Hbody Himg Ht.
    assert (Hnn : body <> JNull) by (intros ->; discriminate).
    split.
    + intros m Hn. up_to_fetch Hu Hk Hbody Himg Ht. rewrite Hn. go. reply. reflexivity.
    + intros r m Hn Hok Hb. up_to_fetch Hu Hk Hbody Himg Ht.
      rewrite Hn. go. rewrite Hok. go. rewrite Hb. go. reply. reflexivity.
Qed.

Lemma POST_internal_errors_witness :
  POST offline_web sample_config garbled_request [] =
    (Returned (mkReply 500 (error_result "Internal server error")),
     [EvRequestJson; EvConsoleError "Prediction proxy error:"])
  /\ POST offline_web sample_config null_request [] =
       (Returned (mkReply 500 (error_result "Internal server error")),
        [EvRequestJson; EvConsoleError "Prediction proxy error:"])
  /\ fst (POST offline_web sample_config image_request []) =
       Returned (mkReply 500 (error_result "Internal server error"))
  /\ fst (POST (silent (Delivered garbled_success) None) sample_config image_request []) =
       Returned (mkReply 500 (error_result "Internal server error")).
Proof.
  split; [|split; [|split]].
  - apply (proj1 (POST_internal_errors offline_web sample_config garbled_request []
                    eq_refl eq_refl) "Unexpected end of JSON input").
    reflexivity.
  - apply (proj1 (proj2 (POST_internal_errors offline_web sample_config null_request []
                           eq_refl eq_refl))).
    reflexivity.
  - apply (proj1 (proj2 (proj2 (POST_internal_errors offline_web sample_config
                                  image_request [] eq_refl eq_refl))
                    (JObj [("image", JStr png_dataURL)]) (JStr png_dataURL)
                    eq_refl eq_refl eq_refl) "Failed to fetch").
    reflexivity.
  - apply (proj2 (proj2 (proj2 (POST_internal_errors
                                  (silent (Delivered garbled_success) None) sample_config
                                  image_request [] eq_refl eq_refl))
                    (JObj [("image", JStr png_dataURL)]) (JStr png_dataURL)
                    eq_refl eq_refl eq_refl) garbled_success
             "Unexpected token < in JSON at position 0");
      reflexivity.
Defined.

Ltac nothing_sent :=
  reply; intros ->; flatten_log; eexists;
  (split; [reflexivity|]); (split; [cbn; lia|]);
  intros req Hin; cbn in Hin;
  repeat (destruct Hin as [Hin | Hin]; [discriminate Hin|]); destruct Hin.

Ltac one_sent body image :=
  reply; intros ->; flatten_log; eexists;
  (split; [reflexivity|]); (split; [cbn; lia|]);
  intros req Hin; cbn in Hin;
  repeat (destruct Hin as [Hin | Hin];
          [first [discriminate Hin
                 | injection Hin as <-; (split; [reflexivity|]); (split; [reflexivity|]);
                   exists body, image; repeat split; assumption]|]);
  destruct Hin.

(** X10: the predict relay keeps the log so far and contacts the inference
    service at most once, and only with the API URL and key configured, for
    a request whose body has a truthy [image]; the request it sends is the
    POST of [{ image }] to [<API URL>/predict] with the key in
    [X-API-Key]. *)
Theorem POST_upstream_contact (P : Platform) (cfg : Config) (request : RelayRequest)
    (l : log) :
  exists added,
    snd (POST P cfg request l) = (l ++ added)%list
    /\ (fetches added <= 1)%nat
    /\ forall req,
         In (EvFetch req) added ->
         env_truthy (API_URL cfg) = true
         /\ env_truthy (API_KEY cfg) = true
         /\ exists body image,
              request_body request = Delivered body
              /\ field body "image" = Some image
              /\ truthy image = true
              /\ req = forwarded cfg image.
Proof.
  remember (snd (POST P cfg request l)) as res eqn:Hres. revert Hres. run_relay.
  destruct (env_truthy (API_URL cfg)) eqn:Hu;
    [destruct (env_truthy (API_KEY cfg)) eqn:Hk|]; go;
    [|nothing_sent|nothing_sent].
  destruct (request_body request) as [m|body] eqn:Hbody; go; [nothing_sent|].
  destruct (json_null_cases body) as [-> | Hnn];
    [cbv [get_prop throw]; go; nothing_sent|].
  rewrite get_prop_field by assumption. go.
  destruct (truthy_val (field body "image")) eqn:Ht; go; [|nothing_sent].
  destruct (field body "image") as [image|] eqn:Himg; [|discriminate].
  cbn [truthy_val] in Ht.
  cbv [obj_of_fields flat_map]. cbn [fst snd app]. fold (forwarded cfg image).
  destruct (net P _ _) as [m|r] eqn:Hn; go; [one_sent body image|].
  destruct (ok r) eqn:Hok; go.
  - destruct (body_json r) as [m|data]; go; one_sent body image.
  - destruct (body_json r) as [m|errorData]; go;
      [rewrite get_prop_field by discriminate
      |destruct (json_null_cases errorData) as [-> | Hen];
         [cbv [get_prop throw]; go; one_sent body image
         |rewrite get_prop_field by assumption]];
      go; unfold NextResponse_json at 1;
      (destruct (negb ((200 <=? status r) && (status r <=? 599)));
         cbv [throw]; go; [one_sent body image|]);
      (destruct (null_body_status (status r)); cbv [ret]; go; [one_sent body image|]);
      one_sent body image.
Qed.

(** ** The random-image relay: what it sends *)

Ltac requests_fine :=
  reply; intros ->; flatten_log; eexists;
  (split; [reflexivity|]); (split; [cbn; lia|]);
  intros req Hin; cbn in Hin;
  repeat (destruct Hin as [Hin | Hin];
          [first [discriminate Hin
                 | injection Hin as <-; (split; [reflexivity|]);
                   first [left; reflexivity | right; eexists; reflexivity]]|]);
  destruct Hin.

Ltac download_requests P :=
  destruct (net P _ _) as [?|imageRes]; go; [requests_fine|];
  destruct (ok imageRes); go; [|requests_fine];
  destruct (body_arrayBuffer imageRes) as [?|bytes]; go; [requests_fine|];
  repeat (rewrite ?opt_prop_field; rewrite ?get_prop_field by assumption; go);
  requests_fine.

(** X11: the random-image relay keeps the log so far and sends at most two
    requests, none without the provider key configured; each is either the
    provider lookup or a plain GET, with no header and no body, of the URL
    the provider named. *)
Theorem GET_requests (P : Platform) (cfg : Config) (l : log) :
  exists added,
    snd (GET P cfg l) = (l ++ added)%list
    /\ (fetches added <= 2)%nat
    /\ forall req,
         In (EvFetch req) added ->
         env_truthy (UNSPLASH_ACCESS_KEY cfg) = true
         /\ (req = lookup_request cfg \/ exists url, req = mkRequest url "GET" [] None).
Proof.
  remember (snd (GET P cfg l)) as res eqn:Hres. revert Hres. run_relay.
  fold (lookup_request cfg).
  destruct (env_truthy (UNSPLASH_ACCESS_KEY cfg)); go; [|requests_fine].
  destruct (net P l _) as [m|apiRes]; go; [requests_fine|].
  destruct (ok apiRes); go; [|requests_fine].
  destruct (body_json apiRes) as [m|data]; go; [requests_fine|].
  destruct (json_null_cases data) as [-> | Hnn];
    [cbv [get_prop throw]; go; requests_fine|].
  rewrite get_prop_field by assumption. go. rewrite opt_prop_field. go.
  destruct (truthy_val (opt_field (field data "urls") "regular")); go;
    [|rewrite get_prop_field by assumption; go; rewrite opt_prop_field; go];
    (match goal with
     | |- context [match ?a with Some _ => _ | None => _ end] => destruct a as [u|]
     end; go; [|requests_fine]);
    (destruct (truthy u); go; [|requests_fine]);
    destruct u; go;
    try (destruct (to_string_other P _); go; [requests_fine|]);
    download_requests P.
Qed.

(** ** The page behind its own relay *)

Lemma wire_image_body (image : string) : wire (image_body image) = image_body image.
Proof. reflexivity. Qed.

(** The browser's request to [/api/predict] is answered by the route. *)
Lemma served_predict (server browser : Platform) (cfg : Config) (image : string)
    (l : log) (rep : Reply) :
  fst (POST server cfg (mkRelayRequest (Delivered (image_body image))) []) = Returned rep ->
  net (served_by server cfg browser) l (relayed_request image) =
    Delivered (response_of_reply rep).
Proof.
  intros Hrep. unfold served_by, relayed_request, predict_request.
  cbv [net req_url req_body].
  replace (String.eqb "/api/predict" "/api/predict") with true by reflexivity.
  cbv iota. change (wire (JObj [("image", JStr image)])) with (image_body image).
  rewrite Hrep. reflexivity.
Qed.

(** What the relayed client makes of a reply of the route. *)
Lemma relayed_reads_reply (P : Platform) (image : string) (l : log) (rep : Reply) :
  net P l (relayed_request image) = Delivered (response_of_reply rep) ->
  (200 <= reply_status rep <= 299 ->
     fst (predictFromBase64 P image l) = Returned (wire (reply_body rep)))
  /\ (forall s, ~ 200 <= reply_status rep <= 299 ->
        reply_body rep = error_result s -> s <> "" ->
        fst (predictFromBase64 P image l) = Returned (error_result s)).
Proof.
  intros Hn. unfold relayed_request in Hn. split.
  - intros Hst. apply (f_equal fst (relayed_ok P image l _ _ Hn ltac:(
      unfold ok; cbn [status response_of_reply];
      apply andb_true_iff; split; apply Z.leb_le; lia) eq_refl)).
  - intros s Hst Hbody Hs.
    assert (Hok : ok (response_of_reply rep) = false).
    { unfold ok. cbn [status response_of_reply]. apply andb_false_iff.
      destruct (Z.leb_spec 200 (reply_status rep)); [right|left; reflexivity].
      apply Z.leb_gt. lia. }
    destruct (relayed_not_ok P image l _ Hn Hok) as [_ [Hstr _]].
    apply (Hstr (wire (reply_body rep)) s); [reflexivity | rewrite Hbody; reflexivity | exact Hs].
Qed.

Lemma POST_no_config (P : Platform) (cfg : Config) (request : RelayRequest) (l : log) :
  env_truthy (API_URL cfg) = false \/ env_truthy (API_KEY cfg) = false ->
  fst (POST P cfg request l) =
    Returned (mkReply 500 (error_result "Server configuration error")).
Proof.
  intros Hcfg. run_relay.
  destruct Hcfg as [H | H]; rewrite H; [|rewrite orb_true_r]; go; reply; reflexivity.
Qed.

Lemma POST_no_image (P : Platform) (cfg : Config) (request : RelayRequest) (l : log)
    (body : json) :
  env_truthy (API_URL cfg) = true -> env_truthy (API_KEY cfg) = true ->
  request_body request = Delivered body -> body <> JNull ->
  truthy_val (field body "image") = false ->
  fst (POST P cfg request l) = Returned (mkReply 400 (error_result "No image provided")).
Proof.
  intros Hu Hk Hbody Hnn Himg. run_relay. rewrite Hu, Hk. go. rewrite Hbody. go.
  rewrite get_prop_field by assumption. rewrite Himg. go. reply. reflexivity.
Qed.

Lemma POST_upstream (P : Platform) (cfg : Config) (request : RelayRequest) (l : log)
    (body image : json) :
  env_truthy (API_URL cfg) = true -> env_truthy (API_KEY cfg) = true ->
  request_body request = Delivered body ->
  field body "image" = Some image -> truthy image = true ->
  (forall m,
      net P (l ++ [EvRequestJson])%list (forwarded cfg image) = Rejected m ->
      fst (POST P cfg request l) =
        Returned (mkReply 500 (error_result "Internal server error")))
  /\ (forall r,
        net P (l ++ [EvRequestJson])%list (forwarded cfg image) = Delivered r ->
        (forall data, ok r = true -> body_json r = Delivered data ->
           fst (POST P cfg request l) = Returned (mkReply 200 data))
        /\ (ok r = false -> 300 <= status r <= 599 -> status r <> 304 ->
            (forall m, body_json r = Rejected m ->
               fst (POST P cfg request l) =
                 Returned (mkReply (status r) (error_result "Unknown error")))
            /\ (forall v s, body_json r = Delivered v ->
                  field v "error" = Some (JStr s) -> s <> "" ->
                  fst (POST P cfg request l) =
                    Returned (mkReply (status r) (error_result s)))
            /\ (forall v, body_json r = Delivered v -> v <> JNull ->
                  truthy_val (field v "error") = false ->
                  fst (POST P cfg request l) =
                    Returned (mkReply (status r)
                                (error_result ("API error: " ++ string_of_Z (status r))))))).
Proof.
  intros Hu Hk Hbody Himg Ht.
  assert (Hnn : body <> JNull) by (intros ->; discriminate).
  split.
  - intros m Hn. up_to_fetch Hu Hk Hbody Himg Ht. rewrite Hn. go. reply. reflexivity.
  - intros r Hn. split.
    + intros data Hok Hdata. up_to_fetch Hu Hk Hbody Himg Ht.
      rewrite Hn. go. rewrite Hok. go. rewrite Hdata. go. reply. reflexivity.
    + intros Hok Hrange H304. repeat split.
      * intros m Hb. up_to_fetch Hu Hk Hbody Himg Ht.
        rewrite Hn. go. rewrite Hok. go. rewrite Hb. go.
        rewrite get_prop_field by discriminate. rewrite field_error_result.
        cbn [truthy_val truthy str_truthy].
        rewrite NextResponse_json_pass by assumption. reflexivity.
      * intros v s Hb Hf Hs.
        assert (Hv : v <> JNull) by (intros ->; discriminate).
        up_to_fetch Hu Hk Hbody Himg Ht.
        rewrite Hn. go. rewrite Hok. go. rewrite Hb. go.
        rewrite get_prop_field by assumption.
        rewrite Hf. cbn [truthy_val truthy]. rewrite (str_truthy_nonempty s Hs).
        rewrite NextResponse_json_pass by assumption. reflexivity.
      * intros v Hb Hv Hf. up_to_fetch Hu Hk Hbody Himg Ht.
        rewrite Hn. go. rewrite Hok. go. rewrite Hb. go.
        rewrite get_prop_field by assumption. rewrite Hf.
        rewrite NextResponse_json_pass by assumption. reflexivity.
Qed.

(** The upstream answers the relay cannot pass on. *)
Lemma POST_upstream_crash (P : Platform) (cfg : Config) (request : RelayRequest) (l : log)
    (body image : json) (r : Response) :
  env_truthy (API_URL cfg) = true -> env_truthy (API_KEY cfg) = true ->
  request_body request = Delivered body ->
  field body "image" = Some image -> truthy image = true ->
  net P (l ++ [EvRequestJson])%list (forwarded cfg image) = Delivered r ->
  (ok r = true /\ (exists m, body_json r = Rejected m))
  \/ (ok r = false /\ body_json r = Delivered JNull)
  \/ (ok r = false /\ (status r < 300 \/ 599 < status r \/ status r = 304)) ->
  fst (POST P cfg request l) = Returned (mkReply 500 (error_result "Internal server error")).
Proof.
  intros Hu Hk Hbody Himg Ht Hn Hcase.
  assert (Hnn : body <> JNull) by (intros ->; discriminate).
  destruct Hcase as [[Hok [m Hb]] | [[Hok Hb] | [Hok Hst]]].
  - up_to_fetch Hu Hk Hbody Himg Ht. rewrite Hn. go. rewrite Hok. go. rewrite Hb.
    crashes_500.
  - up_to_fetch Hu Hk Hbody Himg Ht. rewrite Hn. go. rewrite Hok. go. rewrite Hb. go.
    cbv [get_prop throw]. crashes_500.
  - assert (Hbad : status r < 200 \/ 599 < status r \/ status r = 304).
    { unfold ok in Hok. apply andb_false_iff in Hok.
      destruct Hok as [H | H]; [apply Z.leb_gt in H | apply Z.leb_gt in H]; lia. }
    up_to_fetch Hu Hk Hbody Himg Ht.
    rewrite Hn. go. rewrite Hok. go.
    destruct (body_json r) as [m|v]; go;
      [rewrite get_prop_field by discriminate
      |destruct (json_null_cases v) as [-> | Hv];
         [cbv [get_prop throw]; crashes_500
         |rewrite get_prop_field by assumption]];
      go;
      match goal with
      | |- context [NextResponse_json ?b (status r) ?l0] =>
          destruct (NextResponse_json_refuses b (status r) l0 Hbad) as [m' Hth];
          rewrite Hth
      end; crashes_500.
Qed.

Ltac through_relay server browser cfg image l Hrep :=
  destruct (relayed_reads_reply (served_by server cfg browser) image l _
              (served_predict server browser cfg image l _ Hrep)) as [Hpass Hfail].

(** X12: relayed mode end to end.  With the page served by the predict
    relay, [predictFromBase64] reports [Server configuration error] when the
    relay lacks its configuration and [No image provided] for an empty
    image; otherwise the image goes upstream, and the caller gets the
    upstream JSON body, as the relay's reply carries it, on a 2xx answer
    that parses; on a non-2xx answer with a status in 300..599 other than
    304, [Unknown error] for a body that is not JSON, the upstream [error]
    when that is a non-empty string, and the relay's [API error: <status>]
    for a body other than [null] without a truthy [error]; and [Internal
    server error] when the upstream request fails in transport, when a 2xx
    answer is not JSON, when a non-2xx answer has the body [null], and when
    a non-2xx answer has status 304 or a status outside 300..599. *)
Theorem relayed_end_to_end (server browser : Platform) (cfg : Config)
    (image : string) (l : log) :
  (env_truthy (API_URL cfg) = false \/ env_truthy (API_KEY cfg) = false ->
     fst (predictFromBase64 (served_by server cfg browser) image l) =
       Returned (error_result "Server configuration error"))
  /\ (env_truthy (API_URL cfg) = true -> env_truthy (API_KEY cfg) = true ->
      (image = "" ->
         fst (predictFromBase64 (served_by server cfg browser) image l) =
           Returned (error_result "No image provided"))
      /\ (image <> "" ->
          (forall m,
              net server [EvRequestJson] (forwarded cfg (JStr image)) = Rejected m ->
              fst (predictFromBase64 (served_by server cfg browser) image l) =
                Returned (error_result "Internal server error"))
          /\ (forall r,
                net server [EvRequestJson] (forwarded cfg (JStr image)) = Delivered r ->
                (forall data, ok r = true -> body_json r = Delivered data ->
                   fst (predictFromBase64 (served_by server cfg browser) image l) =
                     Returned (wire data))
                /\ (ok r = false -> 300 <= status r <= 599 -> status r <> 304 ->
                    (forall m, body_json r = Rejected m ->
                       fst (predictFromBase64 (served_by server cfg browser) image l) =
                         Returned (error_result "Unknown error"))
                    /\ (forall v s, body_json r = Delivered v ->
                          field v "error" = Some (JStr s) -> s <> "" ->
                          fst (predictFromBase64 (served_by server cfg browser) image l) =
                            Returned (error_result s))
                    /\ (forall v, body_json r = Delivered v -> v <> JNull ->
                          truthy_val (field v "error") = false ->
                          fst (predictFromBase64 (served_by server cfg browser) image l) =
                            Returned (error_result
                                        ("API error: " ++ string_of_Z (status r)))))
                /\ ((ok r = true /\ (exists m, body_json r = Rejected m))
                    \/ (ok r = false /\ body_json r = Delivered JNull)
                    \/ (ok r = false
                        /\ (status r < 300 \/ 599 < status r \/ status r = 304)) ->
                    fst (predictFromBase64 (served_by server cfg browser) image l) =
                      Returned (error_result "Internal server error"))))).
Proof.
  split.
  - intros Hcfg.
    pose proof (POST_no_config server cfg
                  (mkRelayRequest (Delivered (image_body image))) [] Hcfg) as Hrep.
    through_relay server browser cfg image l Hrep.
    apply (Hfail "Server configuration error"); cbn [reply_status reply_body];
      first [lia | reflexivity | discriminate].
  - intros Hu Hk. split.
    + intros ->.
      pose proof (POST_no_image server cfg (mkRelayRequest (Delivered (image_body ""))) []
                    (image_body "") Hu Hk eq_refl ltac:(discriminate) eq_refl) as Hrep.
      through_relay server browser cfg "" l Hrep.
      apply (Hfail "No image provided"); cbn [reply_status reply_body];
        first [lia | reflexivity | discriminate].
    + intros Hne.
      destruct (POST_upstream server cfg (mkRelayRequest (Delivered (image_body image))) []
                  (image_body image) (JStr image) Hu Hk eq_refl eq_refl
                  (str_truthy_nonempty image Hne)) as [Hdown Hup].
      split.
      * intros m Hn. pose proof (Hdown m Hn) as Hrep.
        through_relay server browser cfg image l Hrep.
        apply (Hfail "Internal server error"); cbn [reply_status reply_body];
          first [lia | reflexivity | discriminate].
      * intros r Hn. destruct (Hup r Hn) as [Hgood Hbad]. split; [|split].
        -- intros data Hok Hdata. pose proof (Hgood data Hok Hdata) as Hrep.
           through_relay server browser cfg image l Hrep.
           apply Hpass. cbn [reply_status]. lia.
        -- intros Hok Hrange H304.
           destruct (Hbad Hok Hrange H304) as [Hraw [Hstr Hgen]].
           repeat split.
           ++ intros m Hb. pose proof (Hraw m Hb) as Hrep.
              through_relay server browser cfg image l Hrep.
              apply (Hfail "Unknown error"); cbn [reply_status reply_body];
                first [lia | reflexivity | discriminate].
           ++ intros v s Hb Hf Hs. pose proof (Hstr v s Hb Hf Hs) as Hrep.
              through_relay server browser cfg image l Hrep.
              apply (Hfail s); cbn [reply_status reply_body];
                first [lia | reflexivity | assumption].
           ++ intros v Hb Hv Hf. pose proof (Hgen v Hb Hv Hf) as Hrep.
              through_relay server browser cfg image l Hrep.
              apply (Hfail ("API error: " ++ string_of_Z (status r)));
                cbn [reply_status reply_body];
                first [lia | reflexivity | discriminate].
        -- intros Hcase.
           pose proof (POST_upstream_crash server cfg
                         (mkRelayRequest (Delivered (image_body image))) []
                         (image_body image) (JStr image) r Hu Hk eq_refl eq_refl
                         (str_truthy_nonempty image Hne) Hn Hcase) as Hrep.
           through_relay server browser cfg image l Hrep.
           apply (Hfail "Internal server error"); cbn [reply_status reply_body];
             first [lia | reflexivity | discriminate].
Qed.

Lemma relayed_end_to_end_witness :
  fst (predictFromBase64 (served_by (inference (Delivered quota_response)) empty_config
                            browser_web) png_dataURL []) =
    Returned (error_result "Server configuration error")
  /\ fst (predictFromBase64 (served_by (inference (Delivered quota_response)) sample_config
                               browser_web) "" []) =
       Returned (error_result "No image provided")
  /\ fst (predictFromBase64 (served_by (inference (Rejected "fetch failed")) sample_config
                               browser_web) png_dataURL []) =
       Returned (error_result "Internal server error")
  /\ fst (predictFromBase64 (served_by (inference (Delivered predictions_response))
                               sample_config browser_web) png_dataURL []) =
       Returned (JObj [("predictions", JArr [golden])])
  /\ fst (predictFromBase64 (served_by (inference (Delivered html_error_page))
                               sample_config browser_web) png_dataURL []) =
       Returned (error_result "Unknown error")
  /\ fst (predictFromBase64 (served_by (inference (Delivered quota_response))
                               sample_config browser_web) png_dataURL []) =
       Returned (error_result "Rate limit exceeded")
  /\ fst (predictFromBase64 (served_by (inference (Delivered bare_response))
                               sample_config browser_web) png_dataURL []) =
       Returned (error_result "API error: 503")
  /\ fst (predictFromBase64 (served_by (inference (Delivered null_unavailable))
                               sample_config browser_web) png_dataURL []) =
       Returned (error_result "Internal server error")
  /\ fst (predictFromBase64 (served_by (inference (Delivered not_modified))
                               sample_config browser_web) png_dataURL []) =
       Returned (error_result "Internal server error")
  /\ fst (predictFromBase64 (served_by (inference (Delivered garbled_success))
                               sample_config browser_web) png_dataURL []) =
       Returned (error_result "Internal server error").
Proof.
  assert (Hfull : png_dataURL <> "") by discriminate.
  assert (Hrange : forall r : Response,
            (300 <=? status r) = true -> (status r <=? 599) = true ->
            300 <= status r <= 599)
    by (intros r H1 H2; split; apply Z.leb_le; assumption).
  pose proof (fun server =>
                proj2 (proj2 (proj2 (relayed_end_to_end server browser_web sample_config
                                       png_dataURL []) eq_refl eq_refl) Hfull))
    as Hup.
  split; [|split; [|split; [|split; [|split; [|split; [|split; [|split; [|split]]]]]]]].
  - apply (proj1 (relayed_end_to_end (inference (Delivered quota_response)) browser_web
                    empty_config png_dataURL [])).
    left. reflexivity.
  - apply (proj1 (proj2 (relayed_end_to_end (inference (Delivered quota_response))
                           browser_web sample_config "" []) eq_refl eq_refl)).
    reflexivity.
  - destruct (proj2 (proj2 (relayed_end_to_end (inference (Rejected "fetch failed"))
                              browser_web sample_config png_dataURL []) eq_refl eq_refl)
                Hfull) as [Hdown _].
    apply (Hdown "fetch failed"). reflexivity.
  - apply (proj1 (Hup (inference (Delivered predictions_response))
                    predictions_response eq_refl)
             (JObj [("predictions", JArr [golden])])); reflexivity.
  - destruct (proj1 (proj2 (Hup (inference (Delivered html_error_page))
                              html_error_page eq_refl)) eq_refl
                (Hrange html_error_page eq_refl eq_refl) ltac:(discriminate))
      as [Hraw _].
    apply (Hraw "Unexpected token < in JSON at position 0"). reflexivity.
  - destruct (proj1 (proj2 (Hup (inference (Delivered quota_response))
                              quota_response eq_refl)) eq_refl
                (Hrange quota_response eq_refl eq_refl) ltac:(discriminate))
      as [_ [Hstr _]].
    apply (Hstr (error_result "Rate limit exceeded") "Rate limit exceeded");
      first [reflexivity | discriminate].
  - destruct (proj1 (proj2 (Hup (inference (Delivered bare_response))
                              bare_response eq_refl)) eq_refl
                (Hrange bare_response eq_refl eq_refl) ltac:(discriminate))
      as [_ [_ Hgen]].
    apply (Hgen (JObj [])); first [reflexivity | discriminate].
  - apply (proj2 (proj2 (Hup (inference (Delivered null_unavailable))
                           null_unavailable eq_refl))).
    right. left. split; reflexivity.
  - apply (proj2 (proj2 (Hup (inference (Delivered not_modified))
                           not_modified eq_refl))).
    right. right. split; [reflexivity|]. right. right. reflexivity.
  - apply (proj2 (proj2 (Hup (inference (Delivered garbled_success))
                           garbled_success eq_refl))).
    left. split; [reflexivity|].
    exists "Unexpected token < in JSON at position 0". reflexivity.
Defined.

(** Whatever the platform does, the random-image relay answers 200 with an
    image body, or 500 or 502 with [{ error: message }]. *)
Lemma GET_reply_shape (P : Platform) (cfg : Config) (l : log) :
  exists (rep : Reply) (l' : log),
    GET P cfg l = (Returned rep, l')
    /\ ((reply_status rep = 200
         /\ exists (data : json) (imageRes : Response) (bytes : list Byte.byte),
              ok imageRes = true
              /\ body_arrayBuffer imageRes = Delivered bytes
              /\ reply_body rep = random_dog_body data imageRes bytes)
        \/ ((reply_status rep = 500 \/ reply_status rep = 502)
            /\ exists m, reply_body rep = error_result m)).
Proof.
  remember (GET P cfg l) as res eqn:Hres. revert Hres. run_relay.
  destruct (env_truthy (UNSPLASH_ACCESS_KEY cfg)); go; [|reply; error_reply].
  destruct (net P l _) as [m|apiRes]; go; [reply; error_reply|].
  destruct (ok apiRes); go; [|reply; error_reply].
  destruct (body_json apiRes) as [m|data]; go; [reply; error_reply|].
  destruct (json_null_cases data) as [-> | Hnn];
    [cbv [get_prop throw]; go; reply; error_reply|].
  rewrite get_prop_field by assumption. go. rewrite opt_prop_field. go.
  destruct (truthy_val (opt_field (field data "urls") "regular")); go;
    [|rewrite get_prop_field by assumption; go; rewrite opt_prop_field; go];
    (match goal with
     | |- context [match ?a with Some _ => _ | None => _ end] => destruct a as [u|]
     end; go; [|reply; error_reply]);
    (destruct (truthy u); go; [|reply; error_reply]);
    destruct u; go;
    try (destruct (to_string_other P _); go; [reply; error_reply|]);
    download_tail P data.
Qed.

Lemma served_random_dog (server browser : Platform) (cfg : Config) (l : log) (rep : Reply) :
  fst (GET server cfg []) = Returned rep ->
  net (served_by server cfg browser) l random_dog_request =
    Delivered (response_of_reply rep).
Proof.
  intros Hrep. unfold served_by, random_dog_request. cbv [net req_url].
  replace (String.eqb "/api/random-dog" "/api/predict") with false by reflexivity.
  replace (String.eqb "/api/random-dog" "/api/random-dog") with true by reflexivity.
  cbv iota. rewrite Hrep. reflexivity.
Qed.

(** X13: the random image end to end.  With the page served by the
    random-image relay, [getRandomDogImageBase64] either resolves with the
    relay's 200 body, whose [image] is the data URI of the downloaded bytes,
    or rejects with [Failed to fetch random image from server]: the relay's
    own failure messages never reach the caller, and the [data.error] branch
    of the client is not taken. *)
Theorem random_dog_end_to_end (server browser : Platform) (cfg : Config) (l : log) :
  (exists (data : json) (imageRes : Response) (bytes : list Byte.byte),
      fst (GET server cfg []) = Returned (mkReply 200 (random_dog_body data imageRes bytes))
      /\ getRandomDogImageBase64 (served_by server cfg browser) l =
           (Returned (wire (random_dog_body data imageRes bytes)),
            (l ++ [EvFetch random_dog_request])%list)
      /\ field (wire (random_dog_body data imageRes bytes)) "image" =
           Some (JStr ("data:" ++ declared_type imageRes ++ ";base64," ++ base64 bytes)))
  \/ getRandomDogImageBase64 (served_by server cfg browser) l =
       (Threw (ErrorObj "Failed to fetch random image from server"),
        (l ++ [EvFetch random_dog_request;
               EvConsoleError "getRandomDogImageBase64 error:"])%list).
Proof.
  destruct (GET_reply_shape server cfg []) as [rep [l' [Hrun Hshape]]].
  assert (Hrep : fst (GET server cfg []) = Returned rep) by (rewrite Hrun; reflexivity).
  pose proof (served_random_dog server browser cfg l rep Hrep) as Hn.
  destruct rep as [st body]. cbn [reply_status reply_body] in Hshape.
  destruct Hshape as [[-> [data [imageRes [bytes [Hok [Hbytes ->]]]]]] | [Hst [m ->]]].
  - left. exists data, imageRes, bytes. split; [assumption|]. split; [|reflexivity].
    unfold getRandomDogImageBase64. fold random_dog_request. run_keep. rewrite Hn.
    reflexivity.
  - right. unfold getRandomDogImageBase64. fold random_dog_request. run_keep. rewrite Hn.
    destruct Hst as [-> | ->];
      match goal with
      | |- context [ok ?r] => change (ok r) with false
      end; go; flatten_log; reflexivity.
Qed.

(** ** The page: choosing a file *)

Ltac run_upload :=
  cbv [handleFileUpload read_result setSelectedImage setResult setError setImageSource
       set_page bind ret];
  cbn [fst snd page videoRef canvasRef live events
       selectedImage result loading error imageSource unsplashAttribution
       cameraActive stream].

(** X14: [handleFileUpload] does nothing without a file; a file that is not
    of an image type, or is over 5 MiB, only sets its validation message: it
    is not read and no other state changes; any other file is read, and
    whatever the reader ends with, a data URL or nothing after a failed
    read, becomes the selected image, tagged as an upload, with error and
    result cleared.  The handler never touches the camera and sends no
    request. *)
Theorem handleFileUpload_outcomes (P : Platform) (w : World) :
  handleFileUpload P None w = (Returned tt, w)
  /\ (forall file : File,
        startsWith (blob_type file) "image/" = false ->
        error (page (snd (handleFileUpload P (Some file) w))) =
          Some (JStr "Please select a valid image file")
        /\ selectedImage (page (snd (handleFileUpload P (Some file) w))) =
             selectedImage (page w)
        /\ imageSource (page (snd (handleFileUpload P (Some file) w))) =
             imageSource (page w)
        /\ result (page (snd (handleFileUpload P (Some file) w))) = result (page w)
        /\ events (snd (handleFileUpload P (Some file) w)) = events w)
  /\ (forall file : File,
        startsWith (blob_type file) "image/" = true ->
        (blob_size file >? 5 * 1024 * 1024) = true ->
        error (page (snd (handleFileUpload P (Some file) w))) =
          Some (JStr "Image size should be less than 5MB")
        /\ selectedImage (page (snd (handleFileUpload P (Some file) w))) =
             selectedImage (page w)
        /\ imageSource (page (snd (handleFileUpload P (Some file) w))) =
             imageSource (page w)
        /\ result (page (snd (handleFileUpload P (Some file) w))) = result (page w)
        /\ events (snd (handleFileUpload P (Some file) w)) = events w)
  /\ (forall file : File,
        startsWith (blob_type file) "image/" = true ->
        blob_size file <= 5 * 1024 * 1024 ->
        selectedImage (page (snd (handleFileUpload P (Some file) w))) =
          file_reader P (events w) file
        /\ imageSource (page (snd (handleFileUpload P (Some file) w))) = Some upload
        /\ error (page (snd (handleFileUpload P (Some file) w))) = None
        /\ result (page (snd (handleFileUpload P (Some file) w))) = None
        /\ events (snd (handleFileUpload P (Some file) w)) =
             (events w ++ [EvReadAsDataURL file])%list)
  /\ (forall file : option File,
        fst (handleFileUpload P file w) = Returned tt
        /\ cameraActive (page (snd (handleFileUpload P file w))) = cameraActive (page w)
        /\ stream (page (snd (handleFileUpload P file w))) = stream (page w)
        /\ loading (page (snd (handleFileUpload P file w))) = loading (page w)
        /\ live (snd (handleFileUpload P file w)) = live w
        /\ fetches (events (snd (handleFileUpload P file w))) = fetches (events w)).
Proof.
  split; [reflexivity|]. split; [|split; [|split]].
  - intros file Ht. run_upload. rewrite Ht. cbn [negb]. repeat split.
  - intros file Ht Hs. run_upload. rewrite Ht, Hs. cbn [negb]. repeat split.
  - intros file Ht Hs. run_upload. rewrite Ht. cbn [negb].
    replace (blob_size file >? 5 * 1024 * 1024) with false
      by (symmetry; rewrite Z.gtb_ltb; apply Z.ltb_ge; exact Hs).
    repeat split.
  - intros [file|]; [|repeat split]. run_upload.
    destruct (startsWith (blob_type file) "image/"); cbn [negb]; [|repeat split].
    destruct (blob_size file >? 5 * 1024 * 1024); cbn [fst snd page events live
      cameraActive stream loading]; repeat split.
    unfold fetches. rewrite filter_app, length_app. cbn. lia.
Qed.

Lemma handleFileUpload_outcomes_witness :
  error (page (snd (handleFileUpload reading_web (Some text_file) (initial_world [])))) =
    Some (JStr "Please select a valid image file")
  /\ error (page (snd (handleFileUpload reading_web (Some huge_file) (initial_world [])))) =
       Some (JStr "Image size should be less than 5MB")
  /\ selectedImage (page (snd (handleFileUpload reading_web (Some png_file)
                                 (initial_world [])))) =
       Some "data:image/png;base64,iVBO"
  /\ selectedImage (page (snd (handleFileUpload unreadable_web (Some png_file)
                                 (initial_world [])))) = None
  /\ error (page (snd (handleFileUpload unreadable_web (Some png_file)
                         (initial_world [])))) = None.
Proof.
  destruct (handleFileUpload_outcomes reading_web (initial_world []))
    as [_ [Htype [Hsize [Hread _]]]].
  destruct (handleFileUpload_outcomes unreadable_web (initial_world []))
    as [_ [_ [_ [Hfail _]]]].
  split; [|split; [|split; [|split]]].
  - apply (Htype text_file). reflexivity.
  - apply (Hsize huge_file); reflexivity.
  - rewrite (proj1 (Hread png_file eq_refl ltac:(vm_compute; discriminate))).
    reflexivity.
  - rewrite (proj1 (Hfail png_file eq_refl ltac:(vm_compute; discriminate))).
    reflexivity.
  - apply (Hfail png_file eq_refl ltac:(vm_compute; discriminate)).
Defined.

(** The log of [predictPaw]: a file that fails validation leaves only the
    console line, any other file is read first. *)
Lemma predictPaw_log (P : Platform) (cfg : Config) (file : File) (l : log) :
  (startsWith (blob_type file) "image/" && negb (blob_size file >? maxSize) = false ->
     snd (predictPaw P cfg file l) = (l ++ [EvConsoleError "Prediction error:"])%list)
  /\ (startsWith (blob_type file) "image/" && negb (blob_size file >? maxSize) = true ->
      exists rest, snd (predictPaw P cfg file l) = (l ++ EvReadAsDataURL file :: rest)%list).
Proof.
  split.
  - intros Hv. run.
    destruct (startsWith (blob_type file) "image/"); go; [|reflexivity].
    destruct (blob_size file >? maxSize); go; [reflexivity|discriminate].
  - intros Hv. apply andb_true_iff in Hv. destruct Hv as [Ht Hs].
    apply negb_true_iff in Hs.
    remember (predictPaw P cfg file l) as res eqn:Hres. revert Hres.
    run. rewrite Ht, Hs. go.
    crunch; flatten_log; intros ->; eexists; reflexivity.
Qed.

(** X15: the page and the upload client apply the same file check.  A file
    is turned away by [handleFileUpload] (nothing is read) exactly when
    [predictPaw] turns it away (its log gains the console line only): the
    type and the 5 MiB limit are tested alike in both places. *)
Theorem upload_checks_agree (P : Platform) (cfg : Config) (file : File)
    (l : log) (w : World) :
  snd (predictPaw P cfg file l) = (l ++ [EvConsoleError "Prediction error:"])%list
  <-> events (snd (handleFileUpload P (Some file) w)) = events w.
Proof.
  destruct (predictPaw_log P cfg file l) as [Hno Hyes].
  run_upload. change (5 * 1024 * 1024) with maxSize.
  destruct (startsWith (blob_type file) "image/"); cbn [negb andb] in *;
    [|split; [reflexivity | intros _; apply Hno; reflexivity]].
  destruct (blob_size file >? maxSize); cbn [negb fst snd events] in *;
    [split; [reflexivity | intros _; apply Hno; reflexivity]|].
  destruct (Hyes eq_refl) as [rest ->]. split.
  - intros H. apply app_inv_head in H. discriminate.
  - intros H. rewrite <- (app_nil_r (events w)) in H at 2.
    apply app_inv_head in H. discriminate.
Qed.

(** ** The page: asking for a prediction *)

Lemma fetches_app (l1 l2 : log) :
  fetches (l1 ++ l2)%list = (fetches l1 + fetches l2)%nat.
Proof. unfold fetches. rewrite filter_app, length_app. reflexivity. Qed.

(** One call of the relayed client returns a value and adds its one request. *)
Lemma relayed_run (P : Platform) (image : string) (l : log) :
  exists v added,
    predictFromBase64 P image l = (Returned v, (l ++ added)%list)
    /\ fetches added = 1%nat
    /\ In (EvFetch (relayed_request image)) added.
Proof.
  remember (predictFromBase64 P image l) as res eqn:Hres. revert Hres.
  run. fold (relayed_request image).
  crunch; flatten_log; intros ->; do 2 eexists;
    (split; [reflexivity | split; [reflexivity | left; reflexivity]]).
Qed.

(** X16: without a selected image, or with the empty string selected,
    [handlePredict] only shows [Please select an image first]: nothing is
    sent, and neither the loading flag nor the result changes. *)
Theorem handlePredict_needs_image (P : Platform) (st : PageState) (w : World) :
  opt_str_truthy (selectedImage st) = false ->
  fst (handlePredict P st w) = Returned tt
  /\ error (page (snd (handlePredict P st w))) = Some (JStr "Please select an image first")
  /\ events (snd (handlePredict P st w)) = events w
  /\ loading (page (snd (handlePredict P st w))) = loading (page w)
  /\ result (page (snd (handlePredict P st w))) = result (page w).
Proof.
  intros Hsel. unfold handlePredict.
  destruct (selectedImage st) as [image|]; cbn [opt_str_truthy] in Hsel;
    [rewrite Hsel|]; run_page; repeat split.
Qed.

Lemma handlePredict_needs_image_witness :
  fst (handlePredict offline_web (idle_page None) (idle_world None)) = Returned tt
  /\ error (page (snd (handlePredict offline_web (idle_page None) (idle_world None)))) =
       Some (JStr "Please select an image first")
  /\ events (snd (handlePredict offline_web (idle_page None) (idle_world None))) = []
  /\ loading (page (snd (handlePredict offline_web (idle_page None) (idle_world None)))) =
       false
  /\ result (page (snd (handlePredict offline_web (idle_page None) (idle_world None)))) =
       None.
Proof.
  apply (handlePredict_needs_image offline_web (idle_page None) (idle_world None)).
  reflexivity.
Defined.

(** X17: with an image selected, [handlePredict] always settles: it never
    throws, it leaves the loading flag off, it sends exactly one request,
    the relayed one for that image, and it touches neither the selected
    image nor the camera.  A call that ends with an error on show has left
    the result as it was. *)
Theorem handlePredict_settles (P : Platform) (st : PageState) (w : World) (image : string) :
  selectedImage st = Some image ->
  image <> "" ->
  fst (handlePredict P st w) = Returned tt
  /\ loading (page (snd (handlePredict P st w))) = false
  /\ (exists added,
        events (snd (handlePredict P st w)) = (events w ++ added)%list
        /\ fetches added = 1%nat
        /\ In (EvFetch (relayed_request image)) added)
  /\ selectedImage (page (snd (handlePredict P st w))) = selectedImage (page w)
  /\ cameraActive (page (snd (handlePredict P st w))) = cameraActive (page w)
  /\ stream (page (snd (handlePredict P st w))) = stream (page w)
  /\ live (snd (handlePredict P st w)) = live w
  /\ (error (page (snd (handlePredict P st w))) = None
      \/ result (page (snd (handlePredict P st w))) = result (page w)).
Proof.
  intros Hsel Hne. unfold handlePredict.
  rewrite Hsel, (str_truthy_nonempty image Hne). run_page.
  destruct (relayed_run P image (events w)) as [v [added [Hrun [Hone Hin]]]].
  rewrite Hrun. go_page.
  assert (Hmore : forall m,
             fetches (added ++ [EvConsoleError m])%list = 1%nat
             /\ In (EvFetch (relayed_request image)) (added ++ [EvConsoleError m])%list)
    by (intros m; split;
        [rewrite fetches_app, Hone; reflexivity | apply in_or_app; left; exact Hin]).
  destruct v; cbv [get_prop throw ret]; go_page;
    try (destruct (truthy_val (lookup "error" props)); go_page);
    (split; [reflexivity|]); (split; [reflexivity|]);
    (split; [first [exists added; split; [reflexivity | split; assumption]
                   | eexists; split; [rewrite <- app_assoc; reflexivity | apply Hmore]]|]);
    (split; [reflexivity|]); (split; [reflexivity|]); (split; [reflexivity|]);
    (split; [reflexivity|]);
    first [left; reflexivity | right; reflexivity].
Qed.

Lemma handlePredict_settles_witness :
  fst (handlePredict (silent (Delivered predictions_response) None)
         (idle_page (Some png_dataURL)) (idle_world (Some png_dataURL))) = Returned tt
  /\ loading (page (snd (handlePredict (silent (Delivered predictions_response) None)
                           (idle_page (Some png_dataURL))
                           (idle_world (Some png_dataURL))))) = false
  /\ fst (handlePredict offline_web
            (idle_page (Some png_dataURL)) (idle_world (Some png_dataURL))) = Returned tt
  /\ loading (page (snd (handlePredict offline_web (idle_page (Some png_dataURL))
                           (idle_world (Some png_dataURL))))) = false.
Proof.
  destruct (handlePredict_settles (silent (Delivered predictions_response) None)
              (idle_page (Some png_dataURL)) (idle_world (Some png_dataURL)) png_dataURL
              eq_refl ltac:(discriminate)) as [Hret [Hload _]].
  destruct (handlePredict_settles offline_web
              (idle_page (Some png_dataURL)) (idle_world (Some png_dataURL)) png_dataURL
              eq_refl ltac:(discriminate)) as [Hret' [Hload' _]].
  split; [exact Hret|]. split; [exact Hload|]. split; [exact Hret'|exact Hload'].
Defined.

(** ** The page: the camera *)

(** A run of setters: the projections are reduced as the state is threaded. *)
Ltac run_setters :=
  lazy [setSelectedImage setResult setLoading setError setImageSource
        setUnsplashAttribution setCameraActive setStream set_page
        get_videoRef get_canvasRef set_videoRef set_canvasRef lift
        try_catch try_finally bind ret throw emit console_error console_log
        fst snd page videoRef canvasRef live events
        selectedImage result loading error imageSource unsplashAttribution
        cameraActive stream].

(** [stopCamera] in full: the tracks of the closure's stream are stopped and
    the stream dropped, the video element is detached, the camera view
    closed; every other state, the canvas and the log's requests are left
    alone. *)
Lemma stopCamera_run (st : PageState) (w : World) :
  exists w',
    stopCamera st w = (Returned tt, w')
    /\ cameraActive (page w') = false
    /\ match stream st with
       | Some s => stream (page w') = None
                   /\ forall t, In t (live w') <-> In t (live w) /\ ~ In t s
       | None => stream (page w') = stream (page w) /\ live w' = live w
       end
    /\ selectedImage (page w') = selectedImage (page w)
    /\ imageSource (page w') = imageSource (page w)
    /\ result (page w') = result (page w)
    /\ error (page w') = error (page w)
    /\ loading (page w') = loading (page w)
    /\ unsplashAttribution (page w') = unsplashAttribution (page w)
    /\ canvasRef w' = canvasRef w
    /\ match videoRef w with
       | Some video => videoRef w' = Some (mkVideo None (videoWidth video)
                                             (videoHeight video) (play_rejects video))
       | None => videoRef w' = None
       end.
Proof.
  unfold stopCamera. destruct (stream st) as [s|].
  - fold stop_and_log.
    destruct (forEach_stop s w) as [w1 [Hrun [Hp [Hv [Hc Hl]]]]].
    unfold bind at 1. unfold bind at 1. rewrite Hrun.
    run_page. rewrite Hv, Hc, Hp.
    destruct (videoRef w); run_page;
      (eexists; split; [reflexivity|]); cbn [live page stream cameraActive selectedImage
        imageSource result error loading unsplashAttribution canvasRef videoRef];
      (split; [reflexivity|]); (split; [split; [reflexivity | exact Hl]|]);
      repeat split.
  - run_page. destruct (videoRef w) eqn:Hvid; run_page;
      (eexists; split; [reflexivity|]); repeat split;
      cbn [videoRef]; rewrite Hvid; reflexivity.
Qed.

(** X18: a refused camera.  When [getUserMedia] rejects, [startCamera]
    does not throw: it shows [Failed to access camera. Please check
    permissions.] and leaves the camera view closed, with the stream, the
    live tracks, the selected image and the result as they were. *)
Theorem startCamera_refused (P : Platform) (w : World) (m : string) :
  getUserMedia P (events w) = Rejected m ->
  fst (startCamera P w) = Returned tt
  /\ error (page (snd (startCamera P w))) =
       Some (JStr "Failed to access camera. Please check permissions.")
  /\ camera_untouched w (snd (startCamera P w))
  /\ selectedImage (page (snd (startCamera P w))) = selectedImage (page w)
  /\ result (page (snd (startCamera P w))) = result (page w)
  /\ events (snd (startCamera P w)) =
       (events w ++ [EvGetUserMedia; EvConsoleError "Camera error:"])%list.
Proof.
  intros Hg.
  assert (Hstart : startCamera P w =
            (Returned tt,
             mkWorld (mkPage (selectedImage (page w)) (result (page w)) (loading (page w))
                        (Some (JStr "Failed to access camera. Please check permissions."))
                        (imageSource (page w)) (unsplashAttribution (page w))
                        (cameraActive (page w)) (stream (page w)))
               (videoRef w) (canvasRef w) (live w)
               (events w ++ [EvGetUserMedia; EvConsoleError "Camera error:"])%list)).
  { unfold startCamera, acquire_camera, try_catch, bind. rewrite Hg.
    run_page. flatten_log. reflexivity. }
  rewrite Hstart. unfold camera_untouched. repeat split.
Qed.

Lemma startCamera_refused_witness :
  fst (startCamera no_camera_web (initial_world [])) = Returned tt
  /\ error (page (snd (startCamera no_camera_web (initial_world [])))) =
       Some (JStr "Failed to access camera. Please check permissions.")
  /\ camera_untouched (initial_world []) (snd (startCamera no_camera_web (initial_world [])))
  /\ selectedImage (page (snd (startCamera no_camera_web (initial_world [])))) = None
  /\ result (page (snd (startCamera no_camera_web (initial_world [])))) = None
  /\ events (snd (startCamera no_camera_web (initial_world []))) =
       [EvGetUserMedia; EvConsoleError "Camera error:"].
Proof.
  apply (startCamera_refused no_camera_web (initial_world []) "Permission denied").
  reflexivity.
Defined.

(** X19: Take Photo, then Cancel.  When the camera is granted,
    [startCamera] opens the camera view on the new stream, whose tracks go
    live, and clears the selected image, the result and the error; the
    Cancel of that render stops exactly the tracks of that stream and closes
    the view.  A track that was live before and is not of the new stream is
    still live after both: [startCamera] stops nothing. *)
Theorem camera_round_trip (P : Platform) (w : World) (tracks : MediaStream) :
  getUserMedia P (events w) = Delivered tracks ->
  fst (startCamera P w) = Returned tt
  /\ stream (page (snd (startCamera P w))) = Some tracks
  /\ cameraActive (page (snd (startCamera P w))) = true
  /\ selectedImage (page (snd (startCamera P w))) = None
  /\ result (page (snd (startCamera P w))) = None
  /\ error (page (snd (startCamera P w))) = None
  /\ live (snd (startCamera P w)) = (tracks ++ live w)%list
  /\ fst (stopCamera (page (snd (startCamera P w))) (snd (startCamera P w))) = Returned tt
  /\ stream (page (snd (stopCamera (page (snd (startCamera P w)))
                          (snd (startCamera P w))))) = None
  /\ cameraActive (page (snd (stopCamera (page (snd (startCamera P w)))
                               (snd (startCamera P w))))) = false
  /\ forall t,
       In t (live (snd (stopCamera (page (snd (startCamera P w))) (snd (startCamera P w)))))
       <-> In t (live w) /\ ~ In t tracks.
Proof.
  intros Hg.
  assert (Hstart : startCamera P w =
            (Returned tt,
             mkWorld (mkPage None None (loading (page w)) None (imageSource (page w))
                        (unsplashAttribution (page w)) true (Some tracks))
               (videoRef w) (canvasRef w) (tracks ++ live w)%list
               (events w ++ [EvGetUserMedia; EvConsoleLog "Camera stream obtained:";
                             EvConsoleLog "Video tracks:"])%list)).
  { unfold startCamera, acquire_camera, try_catch. unfold bind at 1. rewrite Hg.
    run_setters. flatten_log. reflexivity. }
  rewrite Hstart. cbn [fst snd page live stream cameraActive selectedImage result error].
  do 7 (split; [reflexivity|]).
  match goal with
  | |- context [stopCamera ?st ?w1] =>
      destruct (stopCamera_run st w1) as [w2 [Hrun [Hcam [Hs _]]]]
  end.
  cbn [stream] in Hs. destruct Hs as [Hnone Hlive].
  rewrite Hrun. cbn [fst snd]. do 3 (split; [assumption || reflexivity|]).
  intros t. rewrite Hlive. cbn [live]. rewrite in_app_iff. tauto.
Qed.

Lemma camera_round_trip_witness :
  stream (page (snd (startCamera camera_web stale_world))) = Some [1%nat]
  /\ live (snd (startCamera camera_web stale_world)) = [1%nat; 7%nat]
  /\ (In 7%nat (live (snd (stopCamera (page (snd (startCamera camera_web stale_world)))
                             (snd (startCamera camera_web stale_world))))))
  /\ ~ In 1%nat (live (snd (stopCamera (page (snd (startCamera camera_web stale_world)))
                              (snd (startCamera camera_web stale_world))))).
Proof.
  destruct (camera_round_trip camera_web stale_world [1%nat] eq_refl)
    as [_ [Hs [_ [_ [_ [_ [Hl [_ [_ [_ Hafter]]]]]]]]]].
  split; [exact Hs|]. split; [exact Hl|]. split.
  - apply Hafter. split; [left; reflexivity|].
    intros [H|[]]. discriminate.
  - intros H. apply Hafter in H. destruct H as [_ H]. apply H. left. reflexivity.
Defined.

(** Stopping tracks logs console lines only. *)
Lemma forEach_stop_fetches (s : MediaStream) :
  forall w : World,
    fetches (events (snd (forEach s stop_and_log w))) = fetches (events w).
Proof.
  induction s as [|track rest IH]; intros w; [reflexivity|].
  cbn [forEach]. unfold bind at 1. unfold stop_and_log at 1. run_page.
  match goal with
  | |- context [forEach rest stop_and_log ?w1] =>
      specialize (IH w1); destruct (forEach rest stop_and_log w1) as [[[]|t] w']
  end; cbn [fst snd events] in *; rewrite IH, fetches_app; cbn; lia.
Qed.

Lemma stopCamera_fetches (st : PageState) (w : World) :
  fetches (events (snd (stopCamera st w))) = fetches (events w).
Proof.
  unfold stopCamera. destruct (stream st) as [s|].
  - fold stop_and_log.
    pose proof (forEach_stop_fetches s w) as Hf.
    destruct (forEach_stop s w) as [w1 [Hrun _]].
    unfold bind at 1. unfold bind at 1. rewrite Hrun in *. cbn [snd] in Hf.
    run_page. destruct (videoRef w1); run_page; exact Hf.
  - run_page. destruct (videoRef w); reflexivity.
Qed.

(** X20: Capture.  With the video and the canvas mounted and a 2d context,
    [capturePhoto] sizes the canvas to the video frame, selects the JPEG
    data URL of the canvas as a camera image, and releases the camera as
    Cancel does.  Without a 2d context only the canvas is resized, and with
    a ref missing nothing happens at all: nothing is selected and the
    camera stays on. *)
Theorem capturePhoto_outcomes (st : PageState) (w : World) :
  (forall (video : Video) (canvas : Canvas),
      videoRef w = Some video -> canvasRef w = Some canvas ->
      has_context2d canvas = true ->
      fst (capturePhoto st w) = Returned tt
      /\ selectedImage (page (snd (capturePhoto st w))) = Some (jpeg_dataURL canvas)
      /\ imageSource (page (snd (capturePhoto st w))) = Some camera
      /\ canvasRef (snd (capturePhoto st w)) =
           Some (mkCanvas (videoWidth video) (videoHeight video) true (jpeg_dataURL canvas))
      /\ videoRef (snd (capturePhoto st w)) =
           Some (mkVideo None (videoWidth video) (videoHeight video) (play_rejects video))
      /\ cameraActive (page (snd (capturePhoto st w))) = false
      /\ forall s, stream st = Some s ->
           stream (page (snd (capturePhoto st w))) = None
           /\ forall t, In t (live (snd (capturePhoto st w))) <->
                        In t (live w) /\ ~ In t s)
  /\ (forall (video : Video) (canvas : Canvas),
        videoRef w = Some video -> canvasRef w = Some canvas ->
        has_context2d canvas = false ->
        fst (capturePhoto st w) = Returned tt
        /\ page (snd (capturePhoto st w)) = page w
        /\ live (snd (capturePhoto st w)) = live w
        /\ videoRef (snd (capturePhoto st w)) = videoRef w
        /\ canvasRef (snd (capturePhoto st w)) =
             Some (mkCanvas (videoWidth video) (videoHeight video) false
                     (jpeg_dataURL canvas)))
  /\ (videoRef w = None \/ canvasRef w = None ->
      capturePhoto st w = (Returned tt, w)).
Proof.
  split; [|split].
  - intros video canvas Hv Hc Hctx. unfold capturePhoto.
    cbv [bind get_videoRef get_canvasRef]. rewrite Hv, Hc. cbv [set_canvasRef].
    rewrite Hctx. cbv [setSelectedImage setImageSource set_page]. go_page.
    match goal with
    | |- context [stopCamera st ?w1] =>
        destruct (stopCamera_run st w1)
          as [w' [Hrun [Hcam [Hs [Hsel [Hsrc [_ [_ [_ [_ [Hcv Hvid]]]]]]]]]]]
    end.
    rewrite Hrun. go_page. cbn [page videoRef canvasRef live selectedImage
      imageSource] in *. rewrite Hv in Hvid.
    split; [reflexivity|]. split; [assumption|]. split; [assumption|].
    split; [exact Hcv|]. split; [assumption|].
    split; [assumption|].
    intros s Hst. rewrite Hst in Hs. exact Hs.
  - intros video canvas Hv Hc Hctx. unfold capturePhoto.
    cbv [bind get_videoRef get_canvasRef]. rewrite Hv, Hc. cbv [set_canvasRef].
    rewrite Hctx. cbv [ret]. cbn [fst snd page live videoRef canvasRef].
    repeat split; exact Hv.
  - intros Href. unfold capturePhoto. cbv [bind get_videoRef get_canvasRef].
    destruct Href as [-> | ->]; [reflexivity|].
    destruct (videoRef w); reflexivity.
Qed.

Lemma capturePhoto_outcomes_witness :
  selectedImage (page (snd (capturePhoto filming_page filming_world))) =
    Some "data:image/jpeg;base64,/9j/"
  /\ ~ In 1%nat (live (snd (capturePhoto filming_page filming_world)))
  /\ live (snd (capturePhoto filming_page blind_world)) = [1%nat]
  /\ capturePhoto filming_page (initial_world []) = (Returned tt, initial_world []).
Proof.
  destruct (proj1 (capturePhoto_outcomes filming_page filming_world)
              (mkVideo (Some [1%nat]) 1280 720 false)
              (mkCanvas 300 150 true "data:image/jpeg;base64,/9j/")
              eq_refl eq_refl eq_refl) as [_ [Hsel [_ [_ [_ [_ Hrel]]]]]].
  destruct (Hrel [1%nat] eq_refl) as [_ Hlive].
  destruct (proj1 (proj2 (capturePhoto_outcomes filming_page blind_world))
              (mkVideo (Some [1%nat]) 1280 720 false) (mkCanvas 300 150 false "")
              eq_refl eq_refl eq_refl) as [_ [_ [Hblind _]]].
  split; [exact Hsel|]. split.
  - intros H. apply Hlive in H. destruct H as [_ H]. apply H. left. reflexivity.
  - split; [exact Hblind|].
    apply (proj2 (proj2 (capturePhoto_outcomes filming_page (initial_world [])))).
    left. reflexivity.
Defined.

(** X21: [resetState] clears the selected image, the result, the error, the
    image source and the attribution, and leaves the loading flag and the
    log's requests alone.  It releases the camera only when the render it
    belongs to had the camera view open; otherwise the stream and the live
    tracks are as before. *)
Theorem resetState_outcomes (st : PageState) (w : World) :
  fst (resetState st w) = Returned tt
  /\ selectedImage (page (snd (resetState st w))) = None
  /\ result (page (snd (resetState st w))) = None
  /\ error (page (snd (resetState st w))) = None
  /\ imageSource (page (snd (resetState st w))) = None
  /\ unsplashAttribution (page (snd (resetState st w))) = None
  /\ loading (page (snd (resetState st w))) = loading (page w)
  /\ fetches (events (snd (resetState st w))) = fetches (events w)
  /\ (cameraActive st = false -> camera_untouched w (snd (resetState st w)))
  /\ (cameraActive st = true ->
      cameraActive (page (snd (resetState st w))) = false
      /\ forall s, stream st = Some s ->
           stream (page (snd (resetState st w))) = None
           /\ forall t, In t (live (snd (resetState st w))) <->
                        In t (live w) /\ ~ In t s).
Proof.
  unfold resetState, camera_untouched.
  cbv [bind setSelectedImage setResult setError setImageSource setUnsplashAttribution
       set_page].
  cbn [page videoRef canvasRef live events selectedImage result loading error imageSource
       unsplashAttribution cameraActive stream].
  destruct (cameraActive st).
  - match goal with
    | |- context [stopCamera st ?w1] =>
        destruct (stopCamera_run st w1)
          as [w' [Hrun [Hcam [Hs [Hsel [Hsrc [Hres [Herr [Hload [Hattr _]]]]]]]]]];
        pose proof (stopCamera_fetches st w1) as Hf
    end.
    rewrite Hrun in *. cbn [fst snd] in *.
    cbn [page live events selectedImage result loading error imageSource
         unsplashAttribution] in *.
    do 7 (split; [assumption || reflexivity|]). split; [exact Hf|].
    split; [discriminate|]. intros _. split; [assumption|].
    intros s Hst. rewrite Hst in Hs. exact Hs.
  - cbv [ret]. cbn [fst snd page live events selectedImage result loading error
      imageSource unsplashAttribution cameraActive stream].
    do 8 (split; [reflexivity|]). split; [repeat split | discriminate].
Qed.

Lemma resetState_outcomes_witness :
  camera_untouched shown_world (snd (resetState shown_page shown_world))
  /\ cameraActive (page (snd (resetState filming_page filming_world))) = false
  /\ stream (page (snd (resetState filming_page filming_world))) = None
  /\ ~ In 1%nat (live (snd (resetState filming_page filming_world))).
Proof.
  destruct (resetState_outcomes shown_page shown_world)
    as [_ [_ [_ [_ [_ [_ [_ [_ [Hidle _]]]]]]]]].
  destruct (resetState_outcomes filming_page filming_world)
    as [_ [_ [_ [_ [_ [_ [_ [_ [_ Hcam]]]]]]]]].
  destruct (Hcam eq_refl) as [Hoff Hrel].
  destruct (Hrel [1%nat] eq_refl) as [Hnone Hlive].
  split; [apply Hidle; reflexivity|]. split; [exact Hoff|]. split; [exact Hnone|].
  intros H. apply Hlive in H. destruct H as [_ H]. apply H. left. reflexivity.
Defined.

(** ** The camera while the page is mounted *)

(** [handleFileUpload], with the read ending at once, is its two segments
    back to back. *)
Lemma handleFileUpload_segments (P : Platform) (file : option File) (w : World) :
  handleFileUpload P file w =
    (started <- handleFileUpload_begin file ;;
     match started with
     | Some f => handleFileUpload_loadend P f
     | None => ret tt
     end) w.
Proof.
  unfold handleFileUpload, handleFileUpload_begin, handleFileUpload_loadend.
  destruct file as [file|]; [|reflexivity].
  destruct (startsWith (blob_type file) "image/"); cbn [negb]; [|reflexivity].
  destruct (blob_size file >? 5 * 1024 * 1024); reflexivity.
Qed.

Lemma consistent_untouched (w w' : World) :
  camera_consistent w -> camera_untouched w w' -> camera_consistent w'.
Proof.
  unfold camera_consistent, camera_untouched. intros Hc [Ha [Hs Hl]].
  rewrite Hs, Ha, Hl. exact Hc.
Qed.

(** A [stopCamera] whose closure holds the stream of the state leaves no
    stream in the state and the camera view closed. *)
Lemma stopCamera_consistent (st : PageState) (w : World) :
  stream st = stream (page w) ->
  exists w', stopCamera st w = (Returned tt, w') /\ camera_consistent w'.
Proof.
  intros Hst. destruct (stopCamera_run st w) as [w' [Hrun [Hcam [Hs _]]]].
  exists w'. split; [exact Hrun|].
  unfold camera_consistent. rewrite <- Hst in Hs.
  destruct (stream st) as [s|].
  - destruct Hs as [-> _]. exact Hcam.
  - destruct Hs as [-> _]. exact Hcam.
Qed.

Lemma startCamera_granted (P : Platform) (w : World) (tracks : MediaStream) :
  getUserMedia P (events w) = Delivered tracks ->
  startCamera P w =
    (Returned tt,
     mkWorld (mkPage None None (loading (page w)) None (imageSource (page w))
                (unsplashAttribution (page w)) true (Some tracks))
       (videoRef w) (canvasRef w) (tracks ++ live w)%list
       (events w ++ [EvGetUserMedia; EvConsoleLog "Camera stream obtained:";
                     EvConsoleLog "Video tracks:"])%list).
Proof.
  intros Hg. unfold startCamera, acquire_camera, try_catch. unfold bind at 1.
  rewrite Hg. run_setters. flatten_log. reflexivity.
Qed.

Lemma startCamera_consistent (P : Platform) (w : World) :
  camera_consistent w -> camera_consistent (snd (startCamera P w)).
Proof.
  intros Hc. destruct (getUserMedia P (events w)) as [m|tracks] eqn:Hg.
  - apply (consistent_untouched w); [exact Hc|].
    destruct w as [[sel res ld er src att cam str] v c lv ev].
    cbn [events] in Hg. unfold camera_untouched, startCamera, acquire_camera.
    run_setters. rewrite Hg. run_setters. repeat split.
  - rewrite (startCamera_granted P w tracks Hg). unfold camera_consistent.
    cbn [snd page stream cameraActive live]. split; [reflexivity|].
    apply incl_appl, incl_refl.
Qed.

Lemma handleFileUpload_begin_camera (file : option File) (w : World) :
  camera_untouched w (snd (handleFileUpload_begin file w)).
Proof.
  unfold camera_untouched, handleFileUpload_begin.
  destruct file as [file|]; [|repeat split].
  destruct (startsWith (blob_type file) "image/"); cbn [negb];
    [destruct (blob_size file >? 5 * 1024 * 1024)|]; repeat split.
Qed.

Lemma handleFileUpload_loadend_camera (P : Platform) (file : File) (w : World) :
  camera_untouched w (snd (handleFileUpload_loadend P file w)).
Proof.
  unfold camera_untouched, handleFileUpload_loadend.
  cbv [read_result setSelectedImage setResult setError setImageSource set_page bind ret].
  repeat split.
Qed.

Lemma handlePredict_begin_camera (st : PageState) (w : World) :
  camera_untouched w (snd (handlePredict_begin st w)).
Proof.
  unfold camera_untouched, handlePredict_begin.
  destruct (selectedImage st) as [image|]; [destruct (str_truthy image)|];
    repeat split.
Qed.

Lemma handlePredict_settle_camera (P : Platform) (image : string) (w : World) :
  camera_untouched w (snd (handlePredict_settle P image w)).
Proof.
  unfold camera_untouched, handlePredict_settle. run_page.
  destruct (relayed_returns P image (events w)) as [v [l' Hrun]].
  rewrite Hrun. go_page.
  destruct v; cbv [get_prop throw ret]; go_page;
    try (destruct (truthy_val (lookup "error" props)); go_page);
    repeat split.
Qed.

Lemma streamAttachEffect_camera (st : PageState) (w : World) :
  camera_untouched w (snd (streamAttachEffect st w)).
Proof.
  unfold camera_untouched. run_page.
  destruct (cameraActive st); [destruct (stream st); [destruct (videoRef w) as [video|];
    [destruct (play_rejects video)|]|]|]; repeat split.
Qed.

Lemma capturePhoto_consistent (w : World) :
  camera_consistent w -> camera_consistent (snd (capturePhoto (page w) w)).
Proof.
  intros Hc. unfold capturePhoto. cbv [bind get_videoRef get_canvasRef].
  destruct (videoRef w) as [video|]; [|exact Hc].
  destruct (canvasRef w) as [canvas|]; [|exact Hc].
  cbv [set_canvasRef]. destruct (has_context2d canvas); [|exact Hc].
  cbv [setSelectedImage setImageSource set_page]. go_page.
  match goal with
  | |- context [stopCamera (page w) ?w1] =>
      destruct (stopCamera_consistent (page w) w1 eq_refl) as [w' [Hrun Hc']]
  end.
  rewrite Hrun. exact Hc'.
Qed.

Lemma resetState_consistent (w : World) :
  camera_consistent w -> camera_consistent (snd (resetState (page w) w)).
Proof.
  intros Hc. destruct w as [[sel res ld er src att cam str] v c lv ev].
  unfold resetState.
  cbv [bind setSelectedImage setResult setError setImageSource setUnsplashAttribution
       set_page].
  go_page. destruct cam; [|exact Hc].
  match goal with
  | |- context [stopCamera ?st ?w1] =>
      destruct (stopCamera_consistent st w1 eq_refl) as [w' [Hrun Hc']]
  end.
  rewrite Hrun. exact Hc'.
Qed.

Lemma step_consistent (P : Platform) (s s' : Session) :
  camera_consistent (world s) -> step P s s' -> camera_consistent (world s').
Proof.
  intros Hc Hstep. destruct Hstep as
    [s Hshow | s before after Hp | s file Hshow | s before after file Hp
     | s Hshow | s Hshow | s Hshow | s Hshow | s Hshow Hload
     | s before after image Hp | s video canvas | s w' Ha Hs Hl]; cbn [world].
  - exact Hc.
  - apply startCamera_consistent, Hc.
  - exact (consistent_untouched _ _ Hc (handleFileUpload_begin_camera file (world s))).
  - exact (consistent_untouched _ _ Hc (handleFileUpload_loadend_camera P file (world s))).
  - apply capturePhoto_consistent, Hc.
  - destruct (stopCamera_consistent (page (world s)) (world s) eq_refl) as [w' [Hrun Hc']].
    rewrite Hrun. exact Hc'.
  - apply resetState_consistent, Hc.
  - apply resetState_consistent, Hc.
  - exact (consistent_untouched _ _ Hc (handlePredict_begin_camera (page (world s)) (world s))).
  - exact (consistent_untouched _ _ Hc (handlePredict_settle_camera P image (world s))).
  - apply (consistent_untouched
             (mkWorld (page (world s)) video canvas (live (world s)) (events (world s))));
      [exact Hc | apply streamAttachEffect_camera].
  - apply (consistent_untouched (world s) w' Hc). repeat split; assumption.
Qed.

(** X22: the camera view and the stream in the state go together.  From a
    page on which the camera view is open exactly when the state holds a
    stream, and the tracks of that stream are live (the first render in
    particular), every run of the mounted page keeps it so: clicks on the
    rendered buttons (Take Photo, Upload, Capture, Cancel, Remove, Try
    Another Image, Identify), each handler suspended at its [await] and
    resumed when the call settles, with other handlers and commits in
    between and any number of camera requests pending. *)
Theorem camera_stays_consistent (P : Platform) (s0 s : Session) :
  camera_consistent (world s0) ->
  reachable P s0 s ->
  camera_consistent (world s).
Proof.
  intros H0 Hreach. induction Hreach as [s0 | s0 s1 s2 _ IH Hstep]; [exact H0|].
  exact (step_consistent P s1 s2 (IH H0) Hstep).
Qed.

Lemma camera_stays_consistent_witness :
  camera_consistent (world (first_render []))
  /\ reachable two_cameras_web (first_render []) one_answered
  /\ camera_consistent (world one_answered).
Proof.
  assert (H0 : camera_consistent (world (first_render []))) by reflexivity.
  assert (Hreach : reachable two_cameras_web (first_render []) one_answered).
  { apply reach_step with (s1 := mkSession (initial_world [])
                                   [camera_requested; camera_requested]).
    - apply reach_step with (s1 := mkSession (initial_world []) [camera_requested]).
      + apply reach_step with (s1 := first_render []); [apply reach_here|].
        exact (step_takePhoto two_cameras_web (first_render []) eq_refl).
      + exact (step_takePhoto two_cameras_web
                 (mkSession (initial_world []) [camera_requested]) eq_refl).
    - exact (step_cameraAnswered two_cameras_web
               (mkSession (initial_world []) [camera_requested; camera_requested])
               [] [camera_requested] eq_refl). }
  split; [exact H0|]. split; [exact Hreach|].
  exact (camera_stays_consistent two_cameras_web (first_render []) one_answered H0 Hreach).
Defined.

(** X25: overlapping camera requests leak a stream.  Take Photo stays
    rendered and enabled while a camera request is pending.  Clicked twice,
    with both requests granted, the second answer replaces the stream in the
    state without stopping the first; Cancel then stops the tracks of the
    second stream only, and the page is left with the camera view closed,
    no stream in its state, and every track of the first stream that is
    not also of the second still live. *)
Theorem overlapping_camera_requests_leak (P : Platform) (w : World)
    (calls : list Pending) (first second : MediaStream) (t : nat) :
  shows_sources (page w) = true ->
  getUserMedia P (events w) = Delivered first ->
  getUserMedia P (events (snd (startCamera P w))) = Delivered second ->
  In t first ->
  ~ In t second ->
  reachable P (mkSession w calls) (mkSession (cancelled (started_twice P w)) calls)
  /\ stream (page (cancelled (started_twice P w))) = None
  /\ cameraActive (page (cancelled (started_twice P w))) = false
  /\ In t (live (cancelled (started_twice P w))).
Proof.
  intros Hshow Hg1 Hg2 Hin Hnot. unfold cancelled, started_twice.
  pose proof (startCamera_granted P w first Hg1) as H1.
  pose proof (startCamera_granted P (snd (startCamera P w)) second Hg2) as H2.
  assert (Hcam : cameraActive (page (snd (startCamera P (snd (startCamera P w))))) = true)
    by (rewrite H2; reflexivity).
  assert (Hs : stream (page (snd (startCamera P (snd (startCamera P w))))) = Some second)
    by (rewrite H2; reflexivity).
  assert (Hl : In t (live (snd (startCamera P (snd (startCamera P w)))))).
  { rewrite H2. cbn [snd live]. apply in_or_app. right.
    rewrite H1. cbn [snd live]. apply in_or_app. left. exact Hin. }
  split.
  - apply reach_step with
      (s1 := mkSession (snd (startCamera P (snd (startCamera P w)))) calls).
    + apply reach_step with
        (s1 := mkSession (snd (startCamera P w)) (camera_requested :: calls)).
      * apply reach_step with
          (s1 := mkSession w (camera_requested :: camera_requested :: calls)).
        -- apply reach_step with (s1 := mkSession w (camera_requested :: calls)).
           ++ apply reach_step with (s1 := mkSession w calls); [apply reach_here|].
              exact (step_takePhoto P (mkSession w calls) Hshow).
           ++ exact (step_takePhoto P (mkSession w (camera_requested :: calls)) Hshow).
        -- exact (step_cameraAnswered P
                    (mkSession w (camera_requested :: camera_requested :: calls))
                    [] (camera_requested :: calls) eq_refl).
      * exact (step_cameraAnswered P
                 (mkSession (snd (startCamera P w)) (camera_requested :: calls))
                 [] calls eq_refl).
    + exact (step_cancel P
               (mkSession (snd (startCamera P (snd (startCamera P w)))) calls) Hcam).
  - destruct (stopCamera_run (page (snd (startCamera P (snd (startCamera P w)))))
                (snd (startCamera P (snd (startCamera P w)))))
      as [w' [Hrun [Hoff [Hstop _]]]].
    rewrite Hs in Hstop. destruct Hstop as [Hnone Hlive].
    rewrite Hrun. cbn [snd]. split; [exact Hnone|]. split; [exact Hoff|].
    apply Hlive. split; assumption.
Qed.

Lemma overlapping_camera_requests_leak_witness :
  reachable two_cameras_web (first_render [])
    (mkSession (cancelled (started_twice two_cameras_web (initial_world []))) [])
  /\ stream (page (cancelled (started_twice two_cameras_web (initial_world [])))) = None
  /\ cameraActive (page (cancelled (started_twice two_cameras_web (initial_world [])))) =
       false
  /\ In 1%nat (live (cancelled (started_twice two_cameras_web (initial_world [])))).
Proof.
  apply (overlapping_camera_requests_leak two_cameras_web (initial_world []) []
           [1%nat] [2%nat] 1%nat); try reflexivity.
  - left. reflexivity.
  - intros [H|[]]. discriminate.
Defined.

(** ** The page: what a prediction call leaves on show *)

(** X23: what [handlePredict] shows, by the value the client hands back.
    A value with a truthy [error] puts that error on show and keeps the
    result as it was; any other value except [null] becomes the result, with
    no error; [null] (a 2xx answer whose body is the JSON [null]) makes the
    read of [response.error] throw, which the handler catches and shows as
    [Failed to get prediction. Please try again.].  In each case the loading
    flag ends off. *)
Theorem handlePredict_shows (P : Platform) (st : PageState) (w : World)
    (image : string) (v : json) :
  selectedImage st = Some image ->
  image <> "" ->
  fst (predictFromBase64 P image (events w)) = Returned v ->
  loading (page (snd (handlePredict P st w))) = false
  /\ (forall e, field v "error" = Some e -> truthy e = true ->
        error (page (snd (handlePredict P st w))) = Some e
        /\ result (page (snd (handlePredict P st w))) = result (page w))
  /\ (v <> JNull -> truthy_val (field v "error") = false ->
      error (page (snd (handlePredict P st w))) = None
      /\ result (page (snd (handlePredict P st w))) = Some v)
  /\ (v = JNull ->
      error (page (snd (handlePredict P st w))) =
        Some (JStr "Failed to get prediction. Please try again.")
      /\ result (page (snd (handlePredict P st w))) = result (page w)
      /\ exists l', events (snd (handlePredict P st w)) =
                      (l' ++ [EvConsoleError (null_read_message P "error")])%list).
Proof.
  intros Hsel Hne Hret. unfold handlePredict.
  rewrite Hsel, (str_truthy_nonempty image Hne). run_page.
  destruct (predictFromBase64 P image (events w)) as [o l'].
  cbn [fst] in Hret. subst o. go_page.
  destruct (json_null_cases v) as [-> | Hnn].
  - cbv [get_prop throw]. go_page. cbv [thrown_text].
    split; [reflexivity|]. split; [intros e; discriminate|].
    split; [congruence|]. intros _. split; [reflexivity|]. split; [reflexivity|].
    exists l'. reflexivity.
  - rewrite get_prop_field by assumption. go_page.
    destruct (truthy_val (field v "error")) eqn:Hf; go_page;
      (split; [reflexivity|]).
    + split; [|split; [discriminate | congruence]].
      intros e He _. split; [exact He | reflexivity].
    + split; [|split; [intros _ _; split; reflexivity | congruence]].
      intros e He Ht. rewrite He in Hf. cbn [truthy_val] in Hf. congruence.
Qed.

Lemma handlePredict_shows_witness :
  (error (page (snd (handlePredict (silent (Delivered quota_response) None)
                       (idle_page (Some png_dataURL)) (idle_world (Some png_dataURL))))) =
     Some (JStr "Rate limit exceeded"))
  /\ (result (page (snd (handlePredict (silent (Delivered predictions_response) None)
                          (idle_page (Some png_dataURL))
                          (idle_world (Some png_dataURL))))) =
        Some (JObj [("predictions", JArr [golden])]))
  /\ (error (page (snd (handlePredict (silent (Delivered null_success) None)
                         (idle_page (Some png_dataURL)) (idle_world (Some png_dataURL))))) =
        Some (JStr "Failed to get prediction. Please try again.")).
Proof.
  destruct (handlePredict_shows (silent (Delivered quota_response) None)
              (idle_page (Some png_dataURL)) (idle_world (Some png_dataURL)) png_dataURL
              (error_result "Rate limit exceeded") eq_refl ltac:(discriminate) eq_refl)
    as [_ [Herr _]].
  destruct (handlePredict_shows (silent (Delivered predictions_response) None)
              (idle_page (Some png_dataURL)) (idle_world (Some png_dataURL)) png_dataURL
              (JObj [("predictions", JArr [golden])]) eq_refl ltac:(discriminate) eq_refl)
    as [_ [_ [Hres _]]].
  destruct (handlePredict_shows (silent (Delivered null_success) None)
              (idle_page (Some png_dataURL)) (idle_world (Some png_dataURL)) png_dataURL
              JNull eq_refl ltac:(discriminate) eq_refl)
    as [_ [_ [_ Hnull]]].
  split; [|split].
  - apply (Herr (JStr "Rate limit exceeded")); reflexivity.
  - apply Hres; [discriminate | reflexivity].
  - apply Hnull. reflexivity.
Defined.

(** ** The result list *)

(** X24: the breed label as the result list prints it.
    [label.replace(/-/g, ' ')] keeps the length of the label, leaves no
    hyphen in it, changes nothing when applied again, and is the identity
    exactly on labels without a hyphen. *)
Theorem replace_hyphens_label (label : string) :
  String.length (replace_hyphens label) = String.length label
  /\ ~ In "-"%char (list_ascii_of_string (replace_hyphens label))
  /\ replace_hyphens (replace_hyphens label) = replace_hyphens label
  /\ (replace_hyphens label = label <-> ~ In "-"%char (list_ascii_of_string label)).
Proof.
  induction label as [|c rest [Hlen [Hno [Hidem Hid]]]].
  - repeat split; auto.
  - cbn [replace_hyphens String.length list_ascii_of_string In].
    destruct (Ascii.eqb c "-") eqn:Hc.
    + apply Ascii.eqb_eq in Hc. subst c.
      split; [rewrite Hlen; reflexivity|].
      split; [intros [H|H]; [discriminate | exact (Hno H)]|].
      split; [cbn [replace_hyphens]; rewrite Hidem; reflexivity|].
      split.
      * intros H. discriminate H.
      * intros H. exfalso. apply H. left. reflexivity.
    + apply Ascii.eqb_neq in Hc.
      split; [rewrite Hlen; reflexivity|].
      split; [intros [H|H]; [congruence | exact (Hno H)]|].
      split; [cbn [replace_hyphens]; rewrite (proj2 (Ascii.eqb_neq c "-") Hc), Hidem;
              reflexivity|].
      split.
      * intros [= H]. intros [Heq|Hin]; [congruence|]. apply Hid in H. exact (H Hin).
      * intros H. f_equal. apply Hid. intros Hin. apply H. right. exact Hin.
Qed.
